(** * jina.logging.base: formatters, sinks and logger assembly

    A shallow embedding of [jina/logging/base.py].  Python objects that the
    module mutates or aliases (log records, message dicts, loggers) live in
    explicit stores; the host facilities the module calls into
    ([logging.Formatter.format], [str], [colored]) are gathered in one
    interface. *)

From Stdlib Require Import ZArith String Ascii List Lia.
From Stdlib Require Import Numbers.DecimalString.
From stdpp Require Import base gmap strings list sorting.
From Equations Require Import Equations.

Set Warnings "-register-all".
Local Open Scope Z_scope.

(** ** Part I: definitions *)

(** *** Verbosity *)

(** Modelled from the spec: [LogVerbosity] is declared in [jina/enums.py],
    which is not part of the sources at hand.  The spec gives an ordered
    enumeration DEBUG < INFO < WARNING < ERROR < CRITICAL, compared as
    integers, whose [value] is handed to the host's [setLevel]; the numbers
    are the host's own level numbers, so that a record's [levelno] and a
    threshold live on one scale. *)
Inductive LogVerbosity := DEBUG | INFO | WARNING | ERROR | CRITICAL.

(** Modelled from the spec: the [value] of a member of [LogVerbosity] (same
    missing file), an integer that grows along DEBUG < INFO < WARNING <
    ERROR < CRITICAL; the host's level numbers are taken. *)
Definition value (v : LogVerbosity) : Z :=
  match v with
  | DEBUG => 10
  | INFO => 20
  | WARNING => 30
  | ERROR => 40
  | CRITICAL => 50
  end.

(** Modelled from the spec: the place of a level in the order
    DEBUG < INFO < WARNING < ERROR < CRITICAL of [LogVerbosity]. *)
Definition rank (v : LogVerbosity) : nat :=
  match v with
  | DEBUG => 0
  | INFO => 1
  | WARNING => 2
  | ERROR => 3
  | CRITICAL => 4
  end%nat.

(** Modelled from the spec: [LogVerbosity.from_string] (same missing file)
    is a case-sensitive exact match on the five names and fails on any other
    name. *)
Definition from_string (s : string) : option LogVerbosity :=
  if decide (s = "DEBUG") then Some DEBUG
  else if decide (s = "INFO") then Some INFO
  else if decide (s = "WARNING") then Some WARNING
  else if decide (s = "ERROR") then Some ERROR
  else if decide (s = "CRITICAL") then Some CRITICAL
  else None.

(** *** The regular expression [\u001b\[.*?[@-~]] and [re.sub(_, '', s)] *)

Definition ESC : ascii := "027"%char.

(** The character class [[@-~]]. *)
Definition is_final (c : ascii) : bool :=
  ((64 <=? nat_of_ascii c) && (nat_of_ascii c <=? 126))%nat.

(** [.] without DOTALL matches anything but a line feed. *)
Definition is_dot (c : ascii) : bool :=
  negb (Ascii.eqb c "010"%char).

(** [.*?[@-~]] at the head of [s]: the lazy star hands over to the class at
    the first character the class accepts; the remainder after the match is
    returned. *)
Fixpoint lazy_to_final (s : string) : option string :=
  match s with
  | EmptyString => None
  | String c s' =>
      if is_final c then Some s'
      else if is_dot c then lazy_to_final s'
      else None
  end.

(** The whole pattern at the head of [s]. *)
Definition match_csi (s : string) : option string :=
  match s with
  | String c1 (String c2 s') =>
      if Ascii.eqb c1 ESC && Ascii.eqb c2 "["%char then lazy_to_final s'
      else None
  | _ => None
  end.

(** Case analysis that remembers the equation, for the recursive call behind
    a match. *)
Definition inspect {A} (a : A) : {b : A | a = b} := exist _ a eq_refl.

(** [re.sub(pattern, '', s)]: scan from the left; where the pattern matches,
    drop the match and go on behind it; elsewhere keep the character. *)
Equations? sub_csi (s : string) : string by wf (String.length s) lt :=
  sub_csi s with inspect (match_csi s) := {
    | exist _ (Some rest) _ => sub_csi rest
    | exist _ None _ with s := {
        | EmptyString => EmptyString
        | String c s' => String c (sub_csi s') } }.
Proof.
  assert (Htail : forall t r, lazy_to_final t = Some r ->
                              (String.length r < String.length t)%nat).
  { induction t as [|c t IH]; intros r; simpl; [discriminate|].
    destruct (is_final c); [intros [= <-]; lia|].
    destruct (is_dot c); [|discriminate].
    intros Hr. specialize (IH r Hr). lia. }
  destruct s as [|c1 [|c2 s]]; simpl in *; try discriminate.
  destruct (_ && _); [|discriminate].
  match goal with Hm : lazy_to_final _ = Some _ |- _ => apply Htail in Hm end.
  lia.
Qed.

(** *** The fallback logger *)

Record NTLogger := mkNTLogger {
  context : string;
  log_level : LogVerbosity
}.

Definition _planify (msg : string) : string := sub_csi msg.

Definition NTLogger_init (ctx : string) (lvl : LogVerbosity) : NTLogger :=
  {| context := _planify ctx; log_level := lvl |}.

(** ['X:%s:%s' % (context, planified)] on two strings. *)
Definition nt_line (initial : string) (self : NTLogger) (msg : string) : string :=
  initial +:+ ":" +:+ context self +:+ ":" +:+ _planify msg.

(** Standard output is the text written to it so far; [sys.stdout.write]
    appends its argument. *)
Definition stdout_write (text : string) (out : string) : string := out +:+ text.

Definition NTLogger_info (self : NTLogger) (msg : string) (out : string) : string :=
  if value (log_level self) <=? value INFO
  then stdout_write (nt_line "I" self msg) out else out.

Definition NTLogger_critical (self : NTLogger) (msg : string) (out : string) : string :=
  if value (log_level self) <=? value CRITICAL
  then stdout_write (nt_line "C" self msg) out else out.

Definition NTLogger_debug (self : NTLogger) (msg : string) (out : string) : string :=
  if value (log_level self) <=? value DEBUG
  then stdout_write (nt_line "D" self msg) out else out.

Definition NTLogger_error (self : NTLogger) (msg : string) (out : string) : string :=
  if value (log_level self) <=? value ERROR
  then stdout_write (nt_line "E" self msg) out else out.

Definition NTLogger_warning (self : NTLogger) (msg : string) (out : string) : string :=
  if value (log_level self) <=? value WARNING
  then stdout_write (nt_line "W" self msg) out else out.

(** *** Python values

    Strings are [string]: a character is a code point below 256, which is all
    the pattern above tells apart.  A float is carried as the double it is
    and never computed with. *)
Inductive pyfloat :=
| Finite (m e : Z)      (* m * 2^e *)
| NaN
| Inf (negative : bool).

(** Immutable payload values. *)
Inductive pyval :=
| PyNone
| PyBool (b : bool)
| PyInt (n : Z)
| PyFloat (f : pyfloat)
| PyStr (s : string)
| PyList (items : list pyval)
| PyObj (cls : string).   (* an instance of any other class *)

(** Keys of a message mapping: strings or integers. *)
Inductive pykey :=
| KStr (s : string)
| KInt (n : Z).

Global Instance pykey_eq_dec : EqDecision pykey.
Proof. solve_decision. Defined.

(** A dict keeps its items in insertion order, one item per key. *)
Abbreviation pydict := (list (pykey * pyval)).

(** [d[k] = v]: an existing key keeps its place. *)
Fixpoint dict_setitem (k : pykey) (v : pyval) (d : pydict) : pydict :=
  match d with
  | [] => [(k, v)]
  | (k', v') :: d' =>
      if decide (k' = k) then (k', v) :: d'
      else (k', v') :: dict_setitem k v d'
  end.

(** [d.update(other)]: item by item, in the order of [other]. *)
Definition dict_update (other : pydict) (d : pydict) : pydict :=
  fold_left (fun acc kv => dict_setitem kv.1 kv.2 acc) other d.

Definition dict_keys {T} (d : list (pykey * T)) : list pykey := d.*1.

(** Objects are referred to by their place in a store. *)
Abbreviation loc := positive.

(** What an attribute such as [record.msg] holds: an immutable value, or a
    reference to a dict object, which is shared by everyone holding it. *)
Inductive attr :=
| Val (v : pyval)
| DictRef (l : loc).

Definition is_str (a : attr) : bool :=
  match a with Val (PyStr _) => true | _ => false end.

Definition is_dict (a : attr) : bool :=
  match a with DictRef _ => true | _ => false end.

(** *** Exceptions and results *)

Inductive type_error :=
| OnlyAcceptsDict             (* 'profile logger only accepts dict' *)
| Unorderable                 (* '<' between a str and an int, while sorting keys *)
| NotSerializable (cls : string).

Inductive exn :=
| TypeError (why : type_error)
| ValueError
| AttributeError (attribute : string)
| InvalidVerbosity (given : string)
| HostError                   (* raised inside the host's Formatter.format *)
| Dangling (l : loc)          (* a reference to no object: no Python program has one *)
| DanglingLogger (name : string).  (* the same, for a logger *)

Inductive result (A : Type) :=
| Ok (a : A)
| Raise (e : exn).
Arguments Ok {A} a.
Arguments Raise {A} e.

Global Instance result_ret : MRet result := fun A a => Ok a.
Global Instance result_bind : MBind result := fun A B k m =>
  match m with
  | Ok a => k a
  | Raise e => Raise e
  end.
Global Instance result_fmap : FMap result := fun A B f m =>
  match m with
  | Ok a => Ok (f a)
  | Raise e => Raise e
  end.

Definition is_TypeError {A} (r : result A) : Prop :=
  match r with Raise (TypeError _) => True | _ => False end.

(** *** JSON documents and [json.dumps(_, sort_keys=True)]

    [json.dumps] returns the text of a document; the document itself is kept
    here, object members in the order they are written. *)
Inductive json :=
| JNull
| JBool (b : bool)
| JInt (n : Z)
| JFloat (f : pyfloat)   (* a non-finite float is written as NaN or Infinity *)
| JString (s : string)
| JArray (items : list json)
| JObject (members : list (string * json)).

Definition json_keys (j : json) : list string :=
  match j with JObject members => members.*1 | _ => [] end.

Fixpoint member_lookup (k : string) (members : list (string * json))
  : option json :=
  match members with
  | [] => None
  | (k', j) :: members' =>
      if decide (k' = k) then Some j else member_lookup k members'
  end.

Definition json_member (k : string) (j : json) : option json :=
  match j with
  | JObject members => member_lookup k members
  | _ => None
  end.

Definition is_finite (f : pyfloat) : bool :=
  match f with Finite _ _ => true | _ => false end.

(** Whether the text written is JSON: NaN and Infinity are not. *)
Fixpoint valid_json (j : json) : bool :=
  match j with
  | JFloat f => is_finite f
  | JArray items => forallb valid_json items
  | JObject members => forallb (fun kv => valid_json kv.2) members
  | _ => true
  end.

Definition is_object (j : json) : bool :=
  match j with JObject _ => true | _ => false end.

Fixpoint json_of_val (v : pyval) : result json :=
  match v with
  | PyNone => Ok JNull
  | PyBool b => Ok (JBool b)
  | PyInt n => Ok (JInt n)
  | PyFloat f => Ok (JFloat f)
  | PyStr s => Ok (JString s)
  | PyList items =>
      JArray <$> (fix go (vs : list pyval) : result (list json) :=
                    match vs with
                    | [] => Ok []
                    | v :: vs' =>
                        j ← json_of_val v; js ← go vs'; Ok (j :: js)
                    end) items
  | PyObj cls => Raise (TypeError (NotSerializable cls))
  end.

Definition is_KStr (k : pykey) : bool :=
  match k with KStr _ => true | KInt _ => false end.
Definition is_KInt (k : pykey) : bool :=
  match k with KInt _ => true | KStr _ => false end.

(** The order [sorted] uses between keys of one type. *)
Definition key_le (a b : pykey) : Prop :=
  match a, b with
  | KStr s, KStr t => String.le s t
  | KInt m, KInt n => m <= n
  | KInt _, KStr _ => True
  | KStr _, KInt _ => False
  end.

Global Instance key_le_dec : RelDecision key_le.
Proof. intros [s|m] [t|n]; simpl; apply _. Defined.

Definition item_le {T} (a b : pykey * T) : Prop := key_le a.1 b.1.

Global Instance item_le_dec {T} : RelDecision (@item_le T).
Proof. intros a b; unfold item_le; apply _. Defined.

(** [sorted(d.items())]: keys of one type are put in order; a str cannot be
    compared with an int. *)
Definition sorted_items {T} (items : list (pykey * T)) : result (list (pykey * T)) :=
  if forallb is_KStr (dict_keys items) || forallb is_KInt (dict_keys items)
  then Ok (merge_sort item_le items)
  else Raise (TypeError Unorderable).

Definition Z_to_string (n : Z) : string :=
  NilZero.string_of_int (Z.to_int n).

(** The member name written for a key. *)
Definition key_string (k : pykey) : string :=
  match k with
  | KStr s => s
  | KInt n => Z_to_string n
  end.

Fixpoint json_of_members {T} (enc : T -> result json) (items : list (pykey * T))
  : result (list (string * json)) :=
  match items with
  | [] => Ok []
  | (k, v) :: items' =>
      j ← enc v; ms ← json_of_members enc items'; Ok ((key_string k, j) :: ms)
  end.

(** A dict: sort the items, then write them in that order. *)
Definition json_of_items {T} (enc : T -> result json) (items : list (pykey * T))
  : result json :=
  sorted ← sorted_items items;
  JObject <$> json_of_members enc sorted.

(** *** Log records and the object store *)

(** The attributes of a [logging.LogRecord] this module reads or writes;
    [message] and [asctime] are the ones [Formatter.format] adds; [extra]
    holds the rest ([args], [exc_info], ...), which is only copied. *)
Record LogRecord := mkLogRecord {
  created : pyfloat;
  filename : string;
  funcName : string;
  levelname : string;
  levelno : Z;
  lineno : Z;
  module : string;
  msg : attr;
  name : string;
  pathname : string;
  process : Z;
  thread : Z;
  message : option string;
  asctime : option string;
  extra : list (string * pyval)
}.

(** [record.msg = m] *)
Definition set_msg (m : attr) (r : LogRecord) : LogRecord :=
  {| created := created r; filename := filename r; funcName := funcName r;
     levelname := levelname r; levelno := levelno r; lineno := lineno r;
     module := module r; msg := m; name := name r; pathname := pathname r;
     process := process r; thread := thread r; message := message r;
     asctime := asctime r; extra := extra r |}.

Fixpoint extra_lookup (k : string) (l : list (string * pyval)) : option pyval :=
  match l with
  | [] => None
  | (k', v) :: l' => if decide (k' = k) then Some v else extra_lookup k l'
  end.

(** [getattr(record, k)] for an attribute other than [msg]: its value is an
    immutable one. *)
Definition field_value (r : LogRecord) (k : string) : result pyval :=
  if decide (k = "created") then Ok (PyFloat (created r))
  else if decide (k = "filename") then Ok (PyStr (filename r))
  else if decide (k = "funcName") then Ok (PyStr (funcName r))
  else if decide (k = "levelname") then Ok (PyStr (levelname r))
  else if decide (k = "levelno") then Ok (PyInt (levelno r))
  else if decide (k = "lineno") then Ok (PyInt (lineno r))
  else if decide (k = "module") then Ok (PyStr (module r))
  else if decide (k = "name") then Ok (PyStr (name r))
  else if decide (k = "pathname") then Ok (PyStr (pathname r))
  else if decide (k = "process") then Ok (PyInt (process r))
  else if decide (k = "thread") then Ok (PyInt (thread r))
  else if decide (k = "message") then
    match message r with Some m => Ok (PyStr m) | None => Raise (AttributeError k) end
  else if decide (k = "asctime") then
    match asctime r with Some m => Ok (PyStr m) | None => Raise (AttributeError k) end
  else match extra_lookup k (extra r) with
       | Some v => Ok v
       | None => Raise (AttributeError k)
       end.

(** [getattr(record, k)] *)
Definition getattr (r : LogRecord) (k : string) : result attr :=
  if decide (k = "msg") then Ok (msg r) else Val <$> field_value r k.

(** Records and dicts are objects: two references to one place see the same
    object. *)
Record store := mkStore {
  records : gmap loc LogRecord;
  dicts : gmap loc pydict
}.

Definition set_records (f : gmap loc LogRecord -> gmap loc LogRecord) (h : store) : store :=
  {| records := f (records h); dicts := dicts h |}.
Definition set_dicts (f : gmap loc pydict -> gmap loc pydict) (h : store) : store :=
  {| records := records h; dicts := f (dicts h) |}.

(** Code that runs on a store and may raise; what was written before an
    exception stays written. *)
Definition M (S A : Type) : Type := S -> result A * S.

Definition ret {S A} (a : A) : M S A := fun s => (Ok a, s).
Definition raise {S A} (e : exn) : M S A := fun s => (Raise e, s).
Definition bind {S A B} (m : M S A) (k : A -> M S B) : M S B :=
  fun s => match m s with
           | (Ok a, s') => k a s'
           | (Raise e, s') => (Raise e, s')
           end.
Definition get {S} : M S S := fun s => (Ok s, s).
Definition modify {S} (f : S -> S) : M S unit := fun s => (Ok tt, f s).
Definition lift {S A} (r : result A) : M S A := fun s => (r, s).

Notation "'let!' x ':=' m 'in' k" := (bind m (fun x => k))
  (at level 10, x name, m at level 100, k at level 200, only parsing).
Notation "m ';;;' k" := (bind m (fun _ => k))
  (at level 100, k at level 200, right associativity, only parsing).

Definition read_record (l : loc) : M store LogRecord :=
  fun h => match records h !! l with
           | Some r => (Ok r, h)
           | None => (Raise (Dangling l), h)
           end.

Definition write_record (l : loc) (r : LogRecord) : M store unit :=
  modify (set_records <[l := r]>).

Definition read_dict (l : loc) : M store pydict :=
  fun h => match dicts h !! l with
           | Some d => (Ok d, h)
           | None => (Raise (Dangling l), h)
           end.

Definition write_dict (l : loc) (d : pydict) : M store unit :=
  modify (set_dicts <[l := d]>).

(** [copy(record)]: a new record object with the same attribute values; a
    value that is a reference is copied as a reference. *)
Definition copy (record : loc) : M store loc :=
  let! r := read_record record in
  let! h := get in
  let cr := fresh (dom (records h)) in
  write_record cr r ;;;
  ret cr.

(** [json.dumps(a, sort_keys=True)] of an attribute value. *)
Definition json_dumps (ds : gmap loc pydict) (a : attr) : result json :=
  match a with
  | Val v => json_of_val v
  | DictRef l =>
      match ds !! l with
      | Some d => json_of_items json_of_val d
      | None => Raise (Dangling l)
      end
  end.

(** *** The host and the missing helpers

    What the module calls and does not define.  [py_repr] is [str] on an
    object that is not a str; [Formatter_format] is the host's
    [logging.Formatter.format] for a template, which reads the record it is
    given and writes [message] and [asctime] on it; [set_iter] is the order in
    which the host iterates over the set [KEYS].  [colored] ([jina/helper.py])
    and [used_memory] ([jina/logging/profile.py]) are not part of the sources
    at hand: the spec has [colored] wrap the message in an escape sequence and
    [used_memory] return a memory-usage sample, a number. *)
Definition is_number (v : pyval) : bool :=
  match v with PyInt _ | PyFloat _ => true | _ => false end.

Class Host := {
  py_repr : gmap loc pydict -> attr -> string;
  colored : gmap loc pydict -> attr -> string -> option string -> attr;
  used_memory : Z -> pyval;
  used_memory_number : forall unit, is_number (used_memory unit) = true;
  Formatter_format : string -> gmap loc pydict -> LogRecord -> result string * LogRecord;
  set_iter : list string -> list string;
  set_iter_perm : forall l, set_iter l ≡ₚ l
}.

(** *** The formatters *)

(** What [format] returns: a line of text, or the text of a JSON document. *)
Inductive output :=
| Text (s : string)
| Document (j : json).

Inductive Formatter :=
| ColorFormatter (fmt : string)
| PlainFormatter (fmt : string)
| JsonFormatter (fmt : string)
| ProfileFormatter (fmt : string).

(** [ColorFormatter.MAPPING]: level name to [color] and [on_color]. *)
Definition MAPPING (level : string) : option (string * option string) :=
  if decide (level = "DEBUG") then Some ("white", None)
  else if decide (level = "INFO") then Some ("white", None)
  else if decide (level = "WARNING") then Some ("yellow", Some "on_grey")
  else if decide (level = "ERROR") then Some ("white", Some "on_red")
  else if decide (level = "CRITICAL") then Some ("white", Some "on_green")
  else None.

Definition MAPPING_INFO : string * option string := ("white", None).

(** [JsonFormatter.KEYS], as the set is written. *)
Definition KEYS : list string :=
  ["created"; "filename"; "funcName"; "levelname"; "lineno"; "msg";
   "module"; "name"; "pathname"; "process"; "thread"].

(** The attributes [ProfileFormatter] merges into the message. *)
Definition PROFILE_KEYS : list string :=
  ["created"; "module"; "name"; "pathname"; "process"; "thread"].

Section formatters.
Context `{Host}.

(** [str(a)] *)
Definition py_str (ds : gmap loc pydict) (a : attr) : string :=
  match a with
  | Val (PyStr s) => s
  | _ => py_repr ds a
  end.

(** [super().format(cr)] *)
Definition super_format (fmt : string) (cr : loc) : M store string :=
  let! r := read_record cr in
  let! h := get in
  let '(line, r') := Formatter_format fmt (dicts h) r in
  write_record cr r' ;;;
  lift line.

Definition ColorFormatter_format (fmt : string) (record : loc) : M store string :=
  let! cr := copy record in
  let! r := read_record cr in
  let seq := default MAPPING_INFO (MAPPING (levelname r)) in
  let! h := get in
  write_record cr (set_msg (colored (dicts h) (msg r) seq.1 seq.2) r) ;;;
  super_format fmt cr.

Definition PlainFormatter_format (fmt : string) (record : loc) : M store string :=
  let! cr := copy record in
  let! r := read_record cr in
  let! h := get in
  (if is_str (msg r)
   then write_record cr (set_msg (Val (PyStr (sub_csi (py_str (dicts h) (msg r))))) r)
   else ret tt) ;;;
  super_format fmt cr.

(** [{k: getattr(cr, k) for k in keys}] *)
Fixpoint getattrs (r : LogRecord) (keys : list string) : result (list (pykey * attr)) :=
  match keys with
  | [] => Ok []
  | k :: keys' =>
      a ← getattr r k; items ← getattrs r keys'; Ok ((KStr k, a) :: items)
  end.

Definition JsonFormatter_format (record : loc) : M store json :=
  let! cr := copy record in
  let! r := read_record cr in
  let! h := get in
  write_record cr (set_msg (Val (PyStr (sub_csi (py_str (dicts h) (msg r))))) r) ;;;
  let! r := read_record cr in
  let! items := lift (getattrs r (set_iter KEYS)) in
  lift (json_of_items (json_dumps (dicts h)) items).

(** [{k: getattr(cr, k) for k in keys}] where no key is [msg]. *)
Fixpoint field_values (r : LogRecord) (keys : list string) : result pydict :=
  match keys with
  | [] => Ok []
  | k :: keys' =>
      v ← field_value r k; items ← field_values r keys'; Ok ((KStr k, v) :: items)
  end.

Definition ProfileFormatter_format (record : loc) : M store json :=
  let! cr := copy record in
  let! r := read_record cr in
  match msg r with
  | DictRef l =>
      let! fields := lift (field_values r PROFILE_KEYS) in
      let! d := read_dict l in
      write_dict l (dict_update fields d) ;;;
      let! d := read_dict l in
      write_dict l (dict_setitem (KStr "memory") (used_memory 1) d) ;;;
      let! h := get in
      lift (json_dumps (dicts h) (DictRef l))
  | Val _ => raise (TypeError OnlyAcceptsDict)
  end.

(** [formatter.format(record)] *)
Definition format (f : Formatter) (record : loc) : M store output :=
  match f with
  | ColorFormatter fmt => let! s := ColorFormatter_format fmt record in ret (Text s)
  | PlainFormatter fmt => let! s := PlainFormatter_format fmt record in ret (Text s)
  | JsonFormatter _ => let! j := JsonFormatter_format record in ret (Document j)
  | ProfileFormatter _ => let! j := ProfileFormatter_format record in ret (Document j)
  end.
End formatters.

(** *** Sinks, loggers and the host's registry of loggers *)

(** The two queues of [jina/logging/queue.py]. *)
Inductive queue := __log_queue__ | __profile_queue__.

Inductive stream := stdout | stderr.

(** The class of a handler, with what it was built from.  An event is named
    by its identity. *)
Inductive handler_kind :=
| EventHandler (event : nat)
| FileHandler (file : string) (delay : bool)
| QueueHandler (q : queue)
| StreamHandler (s : stream).

(** A handler object; [hid] is its identity. *)
Record Handler := mkHandler {
  hid : nat;
  kind : handler_kind;
  level : Z;
  formatter : option Formatter
}.

Definition NOTSET : Z := 0.

Definition setLevel (lvl : Z) (h : Handler) : Handler :=
  {| hid := hid h; kind := kind h; level := lvl; formatter := formatter h |}.

Definition setFormatter (f : Formatter) (h : Handler) : Handler :=
  {| hid := hid h; kind := kind h; level := level h; formatter := Some f |}.

(** A logger object is named by where the registry keeps it. *)
Inductive logger_ref :=
| RootLogger
| NamedLogger (name : string).

(** [logger.name]; the root logger's is ["root"]. *)
Definition logger_name (l : logger_ref) : string :=
  match l with
  | RootLogger => "root"
  | NamedLogger name => name
  end.

Record Logger := mkLogger {
  logger_level : Z;
  propagate : bool;
  handlers : list Handler;
  parent : option logger_ref
}.

(** What [Manager.loggerDict] holds under a name: a logger, or a
    [PlaceHolder] with its [loggerMap], the loggers made below that name, in
    the order they came. *)
Inductive registry_entry :=
| LoggerEntry (l : Logger)
| PlaceHolder (loggerMap : list string).

(** The host's state: the root logger, the manager's [loggerDict], and the
    next free object identity. *)
Record logging_state := mkLogging {
  root : Logger;
  loggerDict : gmap string registry_entry;
  next_id : nat
}.

Definition set_loggerDict
    (f : gmap string registry_entry -> gmap string registry_entry)
    (s : logging_state) : logging_state :=
  {| root := root s; loggerDict := f (loggerDict s); next_id := next_id s |}.

(** [logging.getLogger(name)] returns the root logger for an empty name and
    (since Python 3.9) for the name ["root"]. *)
Definition names_root (name : string) : bool :=
  bool_decide (name = EmptyString) || bool_decide (name = "root").

(** [Logger(name)]: level NOTSET, no parent yet, propagating, no handler. *)
Definition fresh_logger : Logger :=
  {| logger_level := NOTSET; propagate := true; handlers := []; parent := None |}.

Definition read_logger (l : logger_ref) : M logging_state Logger :=
  fun s => match l with
           | RootLogger => (Ok (root s), s)
           | NamedLogger name =>
               match loggerDict s !! name with
               | Some (LoggerEntry lg) => (Ok lg, s)
               | _ => (Raise (DanglingLogger name), s)
               end
           end.

Definition update_logger (l : logger_ref) (f : Logger -> Logger) : M logging_state unit :=
  fun s => match l with
           | RootLogger =>
               (Ok tt, {| root := f (root s); loggerDict := loggerDict s;
                          next_id := next_id s |})
           | NamedLogger name =>
               match loggerDict s !! name with
               | Some (LoggerEntry lg) =>
                   (Ok tt, set_loggerDict <[name := LoggerEntry (f lg)]> s)
               | _ => (Raise (DanglingLogger name), s)
               end
           end.

Definition set_handlers (hs : list Handler) (l : Logger) : Logger :=
  {| logger_level := logger_level l; propagate := propagate l; handlers := hs;
     parent := parent l |}.
Definition set_propagate (b : bool) (l : Logger) : Logger :=
  {| logger_level := logger_level l; propagate := b; handlers := handlers l;
     parent := parent l |}.
Definition set_logger_level (lvl : Z) (l : Logger) : Logger :=
  {| logger_level := lvl; propagate := propagate l; handlers := handlers l;
     parent := parent l |}.
Definition set_parent (pr : logger_ref) (l : Logger) : Logger :=
  {| logger_level := logger_level l; propagate := propagate l; handlers := handlers l;
     parent := Some pr |}.

(** [PlaceHolder.append(alogger)] *)
Definition PlaceHolder_append (alogger : string) (loggerMap : list string) : list string :=
  if bool_decide (alogger ∈ loggerMap) then loggerMap else loggerMap ++ [alogger].

(** The values [i] takes in the loop of [Manager._fixupParents] as long as
    the loop goes on: first [name.rfind(".", 0, end_)], then
    [name.rfind(".", 0, i - 1)], while [i > 0]. *)
Fixpoint rfind_dots (name : string) (end_ : nat) : list nat :=
  match end_ with
  | O => []
  | S e =>
      if bool_decide (String.get e name = Some "."%char) then
        match e with
        | O => []
        | S e' => e :: rfind_dots name e'
        end
      else rfind_dots name e
  end.

(** The loop of [Manager._fixupParents]: every prefix [name[:i]] without a
    logger gets a placeholder that knows [alogger]; the loop ends at the first
    prefix that has a logger, which is [rv]. *)
Fixpoint _fixupParents_loop (alogger : string) (cuts : list nat)
    (d : gmap string registry_entry) : gmap string registry_entry * option logger_ref :=
  match cuts with
  | [] => (d, None)
  | i :: cuts' =>
      let substr := substring 0 i alogger in
      match d !! substr with
      | None =>
          _fixupParents_loop alogger cuts' (<[substr := PlaceHolder [alogger]]> d)
      | Some (LoggerEntry _) => (d, Some (NamedLogger substr))
      | Some (PlaceHolder loggerMap) =>
          _fixupParents_loop alogger cuts'
            (<[substr := PlaceHolder (PlaceHolder_append alogger loggerMap)]> d)
      end
  end.

(** [Manager._fixupParents(alogger)] *)
Definition _fixupParents (alogger : string) : M logging_state unit :=
  fun s =>
    let '(d, rv) :=
      _fixupParents_loop alogger (rfind_dots alogger (String.length alogger))
        (loggerDict s) in
    update_logger (NamedLogger alogger) (set_parent (default RootLogger rv))
      (set_loggerDict (fun _ => d) s).

(** One turn of the loop of [Manager._fixupChildren], for the child [c] of
    the placeholder.  The loggers of a placeholder are registered and have a
    parent; for a name that is not, there is no object to work on. *)
Definition _fixupChildren_step (alogger : string)
    (d : gmap string registry_entry) (c : string) : gmap string registry_entry :=
  match d !! c with
  | Some (LoggerEntry lc) =>
      match parent lc with
      | Some pr =>
          if bool_decide (substring 0 (String.length alogger) (logger_name pr) = alogger)
          then d
          else
            let d1 :=
              match d !! alogger with
              | Some (LoggerEntry la) => <[alogger := LoggerEntry (set_parent pr la)]> d
              | _ => d
              end in
            <[c := LoggerEntry (set_parent (NamedLogger alogger) lc)]> d1
      | None => d
      end
  | _ => d
  end.

(** [Manager._fixupChildren(ph, alogger)] *)
Definition _fixupChildren (ph : list string) (alogger : string) : M logging_state unit :=
  modify (set_loggerDict (fun d => foldl (_fixupChildren_step alogger) d ph)).

(** [Manager.getLogger(name)] *)
Definition Manager_getLogger (name : string) : M logging_state logger_ref :=
  fun s =>
    match loggerDict s !! name with
    | Some (LoggerEntry _) => (Ok (NamedLogger name), s)
    | Some (PlaceHolder ph) =>
        (modify (set_loggerDict <[name := LoggerEntry fresh_logger]>) ;;;
         _fixupChildren ph name ;;;
         _fixupParents name ;;;
         ret (NamedLogger name)) s
    | None =>
        (modify (set_loggerDict <[name := LoggerEntry fresh_logger]>) ;;;
         _fixupParents name ;;;
         ret (NamedLogger name)) s
    end.

(** [logging.getLogger(name)] *)
Definition getLogger (name : string) : M logging_state logger_ref :=
  if names_root name then ret RootLogger else Manager_getLogger name.

(** [hdlr in handlers]: handlers are compared by identity. *)
Definition handler_in (h : Handler) (hs : list Handler) : bool :=
  existsb (fun h' => Nat.eqb (hid h') (hid h)) hs.

(** [handlers.remove(hdlr)]: the first occurrence goes. *)
Fixpoint list_remove (h : Handler) (hs : list Handler) : list Handler :=
  match hs with
  | [] => []
  | h' :: hs' => if Nat.eqb (hid h') (hid h) then hs' else h' :: list_remove h hs'
  end.

(** [logger.removeHandler(hdlr)] *)
Definition removeHandler (h : Handler) (l : Logger) : Logger :=
  if handler_in h (handlers l) then set_handlers (list_remove h (handlers l)) l else l.

(** [logger.addHandler(hdlr)] *)
Definition addHandler (h : Handler) (l : Logger) : Logger :=
  if handler_in h (handlers l) then l else set_handlers (handlers l ++ [h]) l.

(** A new handler object: level NOTSET, no formatter. *)
Definition new_handler (k : handler_kind) : M logging_state Handler :=
  fun s => (Ok {| hid := next_id s; kind := k; level := NOTSET; formatter := None |},
            {| root := root s; loggerDict := loggerDict s; next_id := S (next_id s) |}).

(** *** The event sink *)

(** The event object: the slot [record] and the flag. *)
Record Event := mkEvent {
  event_record : option output;
  event_is_set : bool
}.

Section emit.
Context `{Host}.

(** [Handler.format]: the handler's formatter, or the host's default one. *)
Definition Handler_format (self : Handler) (record : loc) : M store output :=
  match formatter self with
  | Some f => format f record
  | None => let! s := super_format "%(message)s" record in ret (Text s)
  end.

(** The test [record.levelno >= self.level] of [EventHandler.emit]. *)
Definition EventHandler_passes (self : Handler) (r : LogRecord) : bool :=
  levelno r >=? level self.

Definition EventHandler_emit (self : Handler) (record : loc) (ev : Event)
  : M store Event :=
  let! r := read_record record in
  if EventHandler_passes self r then
    let! out := Handler_format self record in
    ret {| event_record := Some out; event_is_set := true |}
  else ret ev.
End emit.

(** *** [logging.Formatter.__init__] and its check of the template

    The formatters of this module do not override the constructor of
    [logging.Formatter].  Since Python 3.8 it checks the template: with the
    style ['%'] the template must hold a match of
    [%\(\w+\)[#0+ -]*(\*|\d+)?(\.(\*|\d+))?[diouxefgcrsa%]], case ignored, or
    the constructor raises ValueError.  A character is a code point below
    256. *)

(** [\d] *)
Definition is_digit (c : ascii) : bool :=
  ((48 <=? nat_of_ascii c) && (nat_of_ascii c <=? 57))%nat.

(** [\w]: the letters, digits and numeric characters, and the underscore. *)
Definition is_word (c : ascii) : bool :=
  let n := nat_of_ascii c in
  (((48 <=? n) && (n <=? 57)) || ((65 <=? n) && (n <=? 90)) || (n =? 95)
   || ((97 <=? n) && (n <=? 122)) || (n =? 170) || ((178 <=? n) && (n <=? 179))
   || (n =? 181) || ((185 <=? n) && (n <=? 186)) || ((188 <=? n) && (n <=? 190))
   || ((192 <=? n) && (n <=? 214)) || ((216 <=? n) && (n <=? 246)) || (248 <=? n))%nat.

(** [[#0+ -]] *)
Definition is_flag (c : ascii) : bool :=
  existsb (Ascii.eqb c) (list_ascii_of_string "#0+ -").

(** [[diouxefgcrsa%]], case ignored *)
Definition is_conversion (c : ascii) : bool :=
  existsb (Ascii.eqb c) (list_ascii_of_string "diouxefgcrsaDIOUXEFGCRSA%").

(** What is left behind the longest run of characters of a class. *)
Fixpoint skip (f : ascii -> bool) (s : string) : string :=
  match s with
  | String c s' => if f c then skip f s' else s
  | EmptyString => s
  end.

(** [(\*|\d+)] at the head of the text: what is left behind it. *)
Definition match_number (s : string) : option string :=
  match s with
  | String c s' =>
      if Ascii.eqb c "*" then Some s'
      else if is_digit c then Some (skip is_digit s')
      else None
  | EmptyString => None
  end.

(** The pattern at the head of the text.  Each part takes the longest run
    it can: the character classes of neighbouring parts are disjoint, but for
    the zeros a flag run and a width share, and giving those to the width
    ends the width at the same place; so no shorter run leads to a match the
    longest does not lead to. *)
Definition match_conversion (s : string) : bool :=
  match s with
  | String c0 (String c1 (String c2 s1)) =>
      Ascii.eqb c0 "%" && Ascii.eqb c1 "(" && is_word c2 &&
      match skip is_word s1 with
      | String c3 s2 =>
          Ascii.eqb c3 ")" &&
          let s3 := skip is_flag s2 in
          let s4 := default s3 (match_number s3) in
          let s5 :=
            match s4 with
            | String c4 s' => if Ascii.eqb c4 "." then default s4 (match_number s') else s4
            | EmptyString => s4
            end in
          match s5 with
          | String c5 _ => is_conversion c5
          | EmptyString => false
          end
      | EmptyString => false
      end
  | _ => false
  end.

(** [validation_pattern.search(fmt)]: a match at some position. *)
Fixpoint search_conversion (s : string) : bool :=
  match_conversion s ||
  match s with
  | String _ s' => search_conversion s'
  | EmptyString => false
  end.

(** [Formatter.__init__(fmt)] of the formatter class [cls]: the template is
    [fmt or '%(message)s'], and it is validated. *)
Definition Formatter_init (cls : string -> Formatter) (fmt : string) : result Formatter :=
  let _fmt :=
    match fmt with
    | EmptyString => "%(message)s"
    | _ => fmt
    end in
  if search_conversion _fmt then Ok (cls _fmt) else Raise ValueError.

(** *** Logger assembly *)

(** What the process gives: the environment, [os.name], and the start-time
    stamp [__uptime__] of the package. *)
Record process_env := mkProcess {
  environ : gmap string string;
  os_name : string;
  __uptime__ : string
}.

Record get_logger_args := mkArgs {
  arg_context : string;
  arg_context_len : Z;
  arg_profiling : bool;
  arg_sse : bool;
  arg_fmt_str : option string;
  arg_log_event : option nat
}.

(** The defaults of the signature. *)
Definition default_args (ctx : string) : get_logger_args :=
  {| arg_context := ctx; arg_context_len := 10; arg_profiling := false;
     arg_sse := false; arg_fmt_str := None; arg_log_event := None |}.

Inductive logger_handle :=
| PyLogger (l : logger_ref)
| WinLogger (l : NTLogger).

Fixpoint spaces (n : nat) : string :=
  match n with
  | O => EmptyString
  | S n' => String " " (spaces n')
  end.

(** [f'{s:>{n}}'] for [0 <= n] *)
Definition rjust (n : nat) (s : string) : string :=
  spaces (n - String.length s) +:+ s.

(** The default template: the context cut and right-aligned to
    [context_len]; a negative width is refused by the format. *)
Definition default_fmt_str (ctx : string) (context_len : Z) : result string :=
  if context_len <? 0 then Raise ValueError
  else
    let n := Z.to_nat context_len in
    Ok (rjust n (substring 0 n ctx) +:+
        "@%(process)2d[%(levelname).1s][%(filename).3s:%(funcName).3s:%(lineno)3d]:%(message)s").

(** [not fmt_str] *)
Definition falsy (fmt : option string) : bool :=
  match fmt with
  | None => true
  | Some s => bool_decide (s = EmptyString)
  end.

Definition resolve_verbosity (p : process_env) : result LogVerbosity :=
  let given := default "INFO" (environ p !! "JINA_VERBOSITY") in
  match from_string given with
  | Some v => Ok v
  | None => Raise (InvalidVerbosity given)
  end.

(** [for handler in logging.root.handlers[:]: logging.root.removeHandler(handler)] *)
Definition remove_root_handlers : M logging_state unit :=
  let! r := read_logger RootLogger in
  fold_right (fun h rest => update_logger RootLogger (removeHandler h) ;;; rest)
             (ret tt) (handlers r).

Definition add (logger : logger_ref) (h : Handler) : M logging_state unit :=
  update_logger logger (addHandler h).

Definition get_logger (p : process_env) (a : get_logger_args) : M logging_state logger_handle :=
  let! fmt_str :=
    lift (if falsy (arg_fmt_str a)
          then default_fmt_str (arg_context a) (arg_context_len a)
          else Ok (default EmptyString (arg_fmt_str a))) in
  let timed_fmt_str := "%(asctime)s:" +:+ fmt_str in
  let! verbose_level := lift (resolve_verbosity p) in
  if bool_decide (os_name p = "nt") then
    ret (WinLogger (NTLogger_init (arg_context a) verbose_level))
  else
    remove_root_handlers ;;;
    let! logger := getLogger (arg_context a) in
    update_logger logger (set_propagate false) ;;;
    let! l := read_logger logger in
    (if bool_decide (handlers l = []) then
       update_logger logger (set_logger_level (value verbose_level)) ;;;
       update_logger logger (set_handlers []) ;;;
       (match arg_log_event a with
        | Some ev =>
            let! event_handler := new_handler (EventHandler ev) in
            let event_handler := setLevel (value verbose_level) event_handler in
            let! color_formatter := lift (Formatter_init ColorFormatter fmt_str) in
            let event_handler := setFormatter color_formatter event_handler in
            add logger event_handler
        | None => ret tt
        end) ;;;
       (if arg_profiling a then
          let! file_handler :=
            new_handler (FileHandler ("jina-profile-" +:+ __uptime__ p +:+ ".json") true) in
          let! profile_formatter := lift (Formatter_init ProfileFormatter timed_fmt_str) in
          let file_handler := setFormatter profile_formatter file_handler in
          add logger file_handler ;;;
          (if arg_sse a then
             let! queue_handler := new_handler (QueueHandler __profile_queue__) in
             let queue_handler := setLevel (value verbose_level) queue_handler in
             let! json_formatter := lift (Formatter_init JsonFormatter timed_fmt_str) in
             let queue_handler := setFormatter json_formatter queue_handler in
             add logger queue_handler
           else ret tt)
        else
          (if arg_sse a then
             let! queue_handler := new_handler (QueueHandler __log_queue__) in
             let queue_handler := setLevel (value verbose_level) queue_handler in
             let! json_formatter := lift (Formatter_init JsonFormatter timed_fmt_str) in
             let queue_handler := setFormatter json_formatter queue_handler in
             add logger queue_handler
           else ret tt) ;;;
          let! console_handler := new_handler (StreamHandler stdout) in
          let console_handler := setLevel (value verbose_level) console_handler in
          let! color_formatter := lift (Formatter_init ColorFormatter fmt_str) in
          let console_handler := setFormatter color_formatter console_handler in
          add logger console_handler ;;;
          (if bool_decide (environ p !! "JINA_LOG_FORMAT" = Some "TXT") then
             let! file_handler :=
               new_handler (FileHandler ("jina-" +:+ __uptime__ p +:+ ".log") true) in
             let! plain_formatter := lift (Formatter_init PlainFormatter timed_fmt_str) in
             let file_handler := setFormatter plain_formatter file_handler in
             add logger file_handler
           else if bool_decide (environ p !! "JINA_LOG_FORMAT" = Some "JSON") then
             let! file_handler :=
               new_handler (FileHandler ("jina-" +:+ __uptime__ p +:+ ".json") true) in
             let! json_formatter := lift (Formatter_init JsonFormatter timed_fmt_str) in
             let file_handler := setFormatter json_formatter file_handler in
             add logger file_handler
           else ret tt))
     else ret tt) ;;;
    ret (PyLogger logger).

(** *** Vocabulary of the statements *)

(** Text without ESC. *)
Fixpoint no_esc (s : string) : bool :=
  match s with
  | EmptyString => true
  | String c s' => negb (Ascii.eqb c ESC) && no_esc s'
  end.

(** The part of a sequence between ESC [ and its final byte: no byte of the
    range @ to ~, no line feed. *)
Fixpoint csi_params (s : string) : bool :=
  match s with
  | EmptyString => true
  | String c s' => negb (is_final c) && is_dot c && csi_params s'
  end.

(** ESC [ params final *)
Definition CSI (params : string) (final : ascii) : string :=
  String ESC (String "[" (params +:+ String final EmptyString)).

(** The method named after a level, and the initial it writes. *)
Definition NTLogger_method (lvl : LogVerbosity)
  : NTLogger -> string -> string -> string :=
  match lvl with
  | DEBUG => NTLogger_debug
  | INFO => NTLogger_info
  | WARNING => NTLogger_warning
  | ERROR => NTLogger_error
  | CRITICAL => NTLogger_critical
  end.

Definition initial (lvl : LogVerbosity) : string :=
  match lvl with
  | DEBUG => "D"
  | INFO => "I"
  | WARNING => "W"
  | ERROR => "E"
  | CRITICAL => "C"
  end.

(** The name of a level, as the host writes it into [levelname]. *)
Definition level_name (lvl : LogVerbosity) : string :=
  match lvl with
  | DEBUG => "DEBUG"
  | INFO => "INFO"
  | WARNING => "WARNING"
  | ERROR => "ERROR"
  | CRITICAL => "CRITICAL"
  end.

(** A record logged at a level. *)
Definition at_level (lvl : LogVerbosity) (r : LogRecord) : LogRecord :=
  {| created := created r; filename := filename r; funcName := funcName r;
     levelname := level_name lvl; levelno := value lvl; lineno := lineno r;
     module := module r; msg := msg r; name := name r; pathname := pathname r;
     process := process r; thread := thread r; message := message r;
     asctime := asctime r; extra := extra r |}.

(** A line of text: a body closed by a line feed. *)
Definition LF : ascii := "010"%char.
Definition is_line (text : string) : Prop :=
  exists body, text = body +:+ String LF EmptyString.

(** The last character of a text. *)
Fixpoint string_last (s : string) : option ascii :=
  match s with
  | EmptyString => None
  | String c EmptyString => Some c
  | String _ s' => string_last s'
  end.

(** Objects to run the code on. *)
Definition example_record (m : attr) : LogRecord :=
  {| created := Finite 3405691582 (-1); filename := "base.py"; funcName := "run";
     levelname := "INFO"; levelno := 20; lineno := 42; module := "base";
     msg := m; name := "test"; pathname := "/jina/logging/base.py";
     process := 4711; thread := 1; message := None; asctime := None;
     extra := [] |}.

Definition example_handler : Handler :=
  {| hid := 0; kind := EventHandler 0; level := NOTSET; formatter := None |}.

(** A host to run the code on: [str] of an object that is not a str is a
    fixed text, [colored] puts [str] of the text between an escape sequence
    and the reset sequence, the template is followed by the message, the
    memory sample is 0, and a set is iterated as it is written. *)
Program Definition example_host : Host :=
  {| py_repr := fun _ _ => "<object>";
     colored := fun _ a _ _ =>
       Val (PyStr (String ESC "[37m" +:+
                   match a with Val (PyStr s) => s | _ => "<object>" end +:+
                   String ESC "[0m"));
     used_memory := fun _ => PyInt 0;
     Formatter_format := fun fmt _ r =>
       let m := match msg r with Val (PyStr s) => s | _ => "<object>" end in
       (Ok (fmt +:+ m),
        {| created := created r; filename := filename r; funcName := funcName r;
           levelname := levelname r; levelno := levelno r; lineno := lineno r;
           module := module r; msg := msg r; name := name r;
           pathname := pathname r; process := process r; thread := thread r;
           message := Some m; asctime := asctime r; extra := extra r |});
     set_iter := fun l => l |}.

(** [KEYS] in the order of the code points. *)
Definition SORTED_KEYS : list string :=
  ["created"; "filename"; "funcName"; "levelname"; "lineno"; "module";
   "msg"; "name"; "pathname"; "process"; "thread"].

(** The document of a record whose message reads [m]. *)
Definition json_record (r : LogRecord) (m : string) : json :=
  JObject
    [("created", JFloat (created r)); ("filename", JString (filename r));
     ("funcName", JString (funcName r)); ("levelname", JString (levelname r));
     ("lineno", JInt (lineno r)); ("module", JString (module r));
     ("msg", JString m); ("name", JString (name r));
     ("pathname", JString (pathname r)); ("process", JInt (process r));
     ("thread", JInt (thread r))].

(** [getattr] where the attribute is there. *)
Definition attr_of (r : LogRecord) (k : string) : attr :=
  match getattr r k with
  | Ok a => a
  | Raise _ => Val PyNone
  end.

(** What [ProfileFormatter] merges into the message, before the memory
    sample. *)
Definition profile_fields (r : LogRecord) : pydict :=
  [(KStr "created", PyFloat (created r)); (KStr "module", PyStr (module r));
   (KStr "name", PyStr (name r)); (KStr "pathname", PyStr (pathname r));
   (KStr "process", PyInt (process r)); (KStr "thread", PyInt (thread r))].

(** The message mapping as [ProfileFormatter] leaves it. *)
Definition profile_merge `{Host} (r : LogRecord) (d : pydict) : pydict :=
  dict_setitem (KStr "memory") (used_memory 1) (dict_update (profile_fields r) d).

(** Values [json.dumps] can write. *)
Fixpoint serializable (v : pyval) : bool :=
  match v with
  | PyObj _ => false
  | PyList items => forallb serializable items
  | _ => true
  end.

(** The keys [ProfileFormatter] adds. *)
Definition PROFILE_ADDED : list string :=
  ["created"; "module"; "name"; "pathname"; "process"; "thread"; "memory"].

(** A store with one record and one dict, both at place 1. *)
Definition example_store (r : LogRecord) (d : pydict) : store :=
  {| records := {[1%positive := r]}; dicts := {[1%positive := d]} |}.

(** A message as a sequence of texts and escape sequences. *)
Inductive piece :=
| Txt (text : string)
| Esc (params : string) (final : ascii).

Definition piece_ok (p : piece) : bool :=
  match p with
  | Txt text => no_esc text
  | Esc params final => csi_params params && is_final final
  end.

(** The message as it is written, and what of it is left to see. *)
Fixpoint written (ps : list piece) : string :=
  match ps with
  | [] => EmptyString
  | Txt text :: ps' => text +:+ written ps'
  | Esc params final :: ps' => CSI params final +:+ written ps'
  end.

Fixpoint visible (ps : list piece) : string :=
  match ps with
  | [] => EmptyString
  | Txt text :: ps' => text +:+ visible ps'
  | Esc _ _ :: ps' => visible ps'
  end.

(** The message "\u001b[31mhello\u001b[0m". *)
Definition red_hello : list piece := [Esc "31" "m"; Txt "hello"; Esc "0" "m"].

(** The template [get_logger] works with. *)
Definition resolve_fmt_str (a : get_logger_args) : result string :=
  if falsy (arg_fmt_str a)
  then default_fmt_str (arg_context a) (arg_context_len a)
  else Ok (default EmptyString (arg_fmt_str a)).

(** The sinks [get_logger] builds for a logger without sinks, in the order it
    attaches them; [n] is the first free identity. *)
Definition assembled (p : process_env) (a : get_logger_args)
    (fmt_str : string) (v : LogVerbosity) (n : nat) : list Handler :=
  let timed_fmt_str := "%(asctime)s:" +:+ fmt_str in
  let event :=
    match arg_log_event a with
    | Some ev => [mkHandler n (EventHandler ev) (value v) (Some (ColorFormatter fmt_str))]
    | None => []
    end in
  let n1 := (length event + n)%nat in
  event ++
  if arg_profiling a then
    mkHandler n1 (FileHandler ("jina-profile-" +:+ __uptime__ p +:+ ".json") true)
      NOTSET (Some (ProfileFormatter timed_fmt_str))
    :: (if arg_sse a
        then [mkHandler (S n1) (QueueHandler __profile_queue__) (value v)
                (Some (JsonFormatter timed_fmt_str))]
        else [])
  else
    let q := if arg_sse a
             then [mkHandler n1 (QueueHandler __log_queue__) (value v)
                     (Some (JsonFormatter timed_fmt_str))]
             else [] in
    let n2 := (length q + n1)%nat in
    q ++
    mkHandler n2 (StreamHandler stdout) (value v) (Some (ColorFormatter fmt_str))
    :: (if bool_decide (environ p !! "JINA_LOG_FORMAT" = Some "TXT")
        then [mkHandler (S n2) (FileHandler ("jina-" +:+ __uptime__ p +:+ ".log") true)
                NOTSET (Some (PlainFormatter timed_fmt_str))]
        else if bool_decide (environ p !! "JINA_LOG_FORMAT" = Some "JSON")
        then [mkHandler (S n2) (FileHandler ("jina-" +:+ __uptime__ p +:+ ".json") true)
                NOTSET (Some (JsonFormatter timed_fmt_str))]
        else []).

(** The template is one [logging.Formatter] accepts. *)
Definition Formatter_validate (fmt : string) : bool := search_conversion fmt.

(** Assembly stops with ValueError: the template is refused, and a
    ColorFormatter, which takes the template as it is, has to be built (for
    the event sink, or for the console sink of a logger that is not for
    profiling). *)
Definition interrupted (a : get_logger_args) (fmt_str : string) : bool :=
  negb (Formatter_validate fmt_str) &&
  match arg_log_event a with
  | Some _ => true
  | None => negb (arg_profiling a)
  end.

(** The sinks attached when assembly is over: all of [assembled], or those
    before the ColorFormatter that could not be built. *)
Definition attached (p : process_env) (a : get_logger_args)
    (fmt_str : string) (v : LogVerbosity) (n : nat) : list Handler :=
  if interrupted a fmt_str then
    match arg_log_event a with
    | Some _ => []
    | None =>
        if arg_sse a
        then [mkHandler n (QueueHandler __log_queue__) (value v)
                (Some (JsonFormatter ("%(asctime)s:" +:+ fmt_str)))]
        else []
    end
  else assembled p a fmt_str v n.

(** The handler objects made during assembly: the attached ones, and the one
    whose formatter could not be built. *)
Definition handlers_made (p : process_env) (a : get_logger_args)
    (fmt_str : string) (v : LogVerbosity) : nat :=
  if interrupted a fmt_str then S (length (attached p a fmt_str v 0))
  else length (attached p a fmt_str v 0).

(** The logger a reference stands for; a name under which the registry holds
    no logger stands for the logger [getLogger] would make. *)
Definition logger_at (s : logging_state) (l : logger_ref) : Logger :=
  match l with
  | RootLogger => root s
  | NamedLogger name =>
      match loggerDict s !! name with
      | Some (LoggerEntry lg) => lg
      | _ => fresh_logger
      end
  end.

(** The reference [getLogger] returns for a name. *)
Definition logger_named (name : string) : logger_ref :=
  if names_root name then RootLogger else NamedLogger name.

(** The state with another logger object in the place of a logger. *)
Definition put_logger (l : logger_ref) (lg : Logger) (s : logging_state) : logging_state :=
  match l with
  | RootLogger => {| root := lg; loggerDict := loggerDict s; next_id := next_id s |}
  | NamedLogger name => set_loggerDict <[name := LoggerEntry lg]> s
  end.

(** What this module reads and writes of a logger. *)
Definition settings (l : Logger) : Z * bool * list Handler :=
  (logger_level l, propagate l, handlers l).

(** The settings of the logger the registry holds under a name, if it holds
    one. *)
Definition registered_settings (d : gmap string registry_entry) (name : string)
  : option (Z * bool * list Handler) :=
  match d !! name with
  | Some (LoggerEntry l) => Some (settings l)
  | _ => None
  end.

(** The state once the root logger has lost its sinks. *)
Definition root_cleared (s : logging_state) : logging_state :=
  {| root := set_handlers [] (root s); loggerDict := loggerDict s; next_id := next_id s |}.

(** The state [get_logger] leaves on the path that is not the Windows one,
    once the template and the verbosity are known. *)
Definition get_logger_state (p : process_env) (a : get_logger_args)
    (fmt_str : string) (v : LogVerbosity) (s : logging_state) : logging_state :=
  let s1 := (getLogger (arg_context a) (root_cleared s)).2 in
  let logger := logger_named (arg_context a) in
  let l1 := logger_at s1 logger in
  match handlers l1 with
  | [] =>
      put_logger logger
        {| logger_level := value v; propagate := false;
           handlers := attached p a fmt_str v (next_id s); parent := parent l1 |}
        {| root := root s1; loggerDict := loggerDict s1;
           next_id := (handlers_made p a fmt_str v + next_id s)%nat |}
  | _ :: _ => put_logger logger (set_propagate false l1) s1
  end.

(** What [get_logger] returns or raises there. *)
Definition get_logger_result (a : get_logger_args) (fmt_str : string)
    (s : logging_state) : result logger_handle :=
  let s1 := (getLogger (arg_context a) (root_cleared s)).2 in
  let logger := logger_named (arg_context a) in
  match handlers (logger_at s1 logger) with
  | [] => if interrupted a fmt_str then Raise ValueError else Ok (PyLogger logger)
  | _ :: _ => Ok (PyLogger logger)
  end.

(** The host's state at start-up: the root logger at WARNING, no other
    logger, no sink. *)
Definition initial_logging : logging_state :=
  {| root := mkLogger 30 true [] None; loggerDict := ∅; next_id := 0 |}.

(** A process outside Windows with the given environment. *)
Definition posix (env : gmap string string) : process_env :=
  {| environ := env; os_name := "posix"; __uptime__ := "20200401120000" |}.

(** A sink of other code. *)
Definition foreign_handler : Handler :=
  {| hid := 0; kind := StreamHandler stderr; level := NOTSET; formatter := None |}.

(** The host's state once other code has attached a sink to the root logger. *)
Definition logging_with_root_sink : logging_state :=
  {| root := mkLogger 30 true [foreign_handler] None; loggerDict := ∅; next_id := 1 |}.

(** The shape the manager keeps its registry in: every logger it holds has a
    parent, but possibly the one under [pending], which is being made; and
    every logger a placeholder knows is held.  On such a registry
    [_fixupChildren] always finds the object it works on. *)
Definition registry_shape (pending : option string) (d : gmap string registry_entry) : Prop :=
  (forall k l, d !! k = Some (LoggerEntry l) -> pending <> Some k -> is_Some (parent l)) /\
  (forall k ph c, d !! k = Some (PlaceHolder ph) -> c ∈ ph ->
                  exists l, d !! c = Some (LoggerEntry l)).

Definition registry_wf (s : logging_state) : Prop := registry_shape None (loggerDict s).

(** *** Vocabulary of the further properties *)

(** The characters of a text, in order. *)
Definition chars (s : string) : list ascii := list_ascii_of_string s.

(** [d.get(k)] *)
Fixpoint dict_get (k : pykey) (d : pydict) : option pyval :=
  match d with
  | [] => None
  | (k', v) :: d' => if decide (k' = k) then Some v else dict_get k d'
  end.

(** The formatters that give the message of the copy a new value, and never
    write into the value it had. *)
Definition rebinds_msg (f : Formatter) : bool :=
  match f with
  | ProfileFormatter _ => false
  | _ => true
  end.

(** The seven keys [ProfileFormatter] sets, in the order it sets them. *)
Definition PROFILE_ADDED_KEYS : list pykey := KStr <$> PROFILE_ADDED.

(** [isinstance(h, logging.FileHandler)] *)
Definition is_FileHandler (h : Handler) : bool :=
  match kind h with FileHandler _ _ => true | _ => false end.

(** A stream sink on standard output. *)
Definition is_console (h : Handler) : bool :=
  match kind h with StreamHandler stdout => true | _ => false end.

(** The template inside a formatter. *)
Definition formatter_fmt (f : Formatter) : string :=
  match f with
  | ColorFormatter fmt | PlainFormatter fmt | JsonFormatter fmt
  | ProfileFormatter fmt => fmt
  end.

(** The tail of the default template, behind the context. *)
Definition DEFAULT_FMT_TAIL : string :=
  "@%(process)2d[%(levelname).1s][%(filename).3s:%(funcName).3s:%(lineno)3d]:%(message)s".

(** An event sink. *)
Definition is_EventHandler (h : Handler) : bool :=
  match kind h with EventHandler _ => true | _ => false end.

(** ** Part II: theorems *)

(** *** Verbosity *)

Lemma value_le_rank (a b : LogVerbosity) :
  value a <= value b <-> (rank a <= rank b)%nat.
Proof. destruct a, b; simpl; lia. Qed.

Lemma value_leb_rank (a b : LogVerbosity) :
  (value a <=? value b) = bool_decide (rank a <= rank b)%nat.
Proof.
  destruct (Z.leb_spec (value a) (value b)) as [Hle|Hlt].
  - symmetry; apply bool_decide_eq_true. by apply value_le_rank.
  - symmetry; apply bool_decide_eq_false. rewrite <- value_le_rank. lia.
Qed.

Lemma from_string_names :
  from_string "DEBUG" = Some DEBUG /\ from_string "INFO" = Some INFO /\
  from_string "WARNING" = Some WARNING /\ from_string "ERROR" = Some ERROR /\
  from_string "CRITICAL" = Some CRITICAL /\ from_string "info" = None.
Proof. repeat split. Qed.

(** *** Stripping escape sequences *)

Lemma sub_csi_eq s :
  sub_csi s =
  match match_csi s with
  | Some rest => sub_csi rest
  | None => match s with
            | EmptyString => EmptyString
            | String c s' => String c (sub_csi s')
            end
  end.
Proof.
  funelim (sub_csi s).
  - by rewrite e.
  - reflexivity.
  - by rewrite e.
Qed.

Lemma append_cons c s t : String c s +:+ t = String c (s +:+ t).
Proof. reflexivity. Qed.

Lemma append_nil s : EmptyString +:+ s = s.
Proof. reflexivity. Qed.

Lemma length_append s t :
  String.length (s +:+ t) = (String.length s + String.length t)%nat.
Proof. induction s as [|c s IH]; [done|]. rewrite append_cons. simpl. lia. Qed.

Lemma string_last_snoc s c : string_last (s +:+ String c EmptyString) = Some c.
Proof.
  induction s as [|c' s IH]; [done|].
  rewrite append_cons. simpl. rewrite IH.
  destruct s; reflexivity.
Qed.

Lemma is_line_last text : is_line text -> string_last text = Some LF.
Proof. intros [body ->]. apply string_last_snoc. Qed.

Lemma sub_csi_cons c s :
  Ascii.eqb c ESC = false -> sub_csi (String c s) = String c (sub_csi s).
Proof.
  intros Hc. rewrite sub_csi_eq.
  destruct s as [|c2 s]; simpl; [done|]. by rewrite Hc.
Qed.

Lemma sub_csi_text text rest :
  no_esc text = true -> sub_csi (text +:+ rest) = text +:+ sub_csi rest.
Proof.
  induction text as [|c text IH]; simpl; [done|].
  intros [Hc Ht]%andb_true_iff. apply negb_true_iff in Hc.
  rewrite !append_cons, sub_csi_cons, IH; done.
Qed.

Lemma lazy_to_final_params params final rest :
  csi_params params = true -> is_final final = true ->
  lazy_to_final (params +:+ String final rest) = Some rest.
Proof.
  intros Hp Hf. induction params as [|c params IH]; simpl in *.
  - by rewrite Hf.
  - apply andb_true_iff in Hp as [[Hc Hd]%andb_true_iff Hp].
    apply negb_true_iff in Hc. rewrite Hc, Hd. auto.
Qed.

Lemma sub_csi_CSI params final rest :
  csi_params params = true -> is_final final = true ->
  sub_csi (CSI params final +:+ rest) = sub_csi rest.
Proof.
  intros Hp Hf. rewrite sub_csi_eq. unfold CSI.
  rewrite !append_cons. simpl.
  replace ((params +:+ String final EmptyString) +:+ rest)
    with (params +:+ String final rest).
  - by rewrite lazy_to_final_params.
  - clear. induction params as [|c params IH]; [done|].
    rewrite !append_cons. by f_equal.
Qed.

Lemma sub_csi_no_esc text : no_esc text = true -> sub_csi text = text.
Proof.
  induction text as [|c text IH]; simpl; [done|].
  intros [Hc Ht]%andb_true_iff. apply negb_true_iff in Hc.
  rewrite sub_csi_cons, IH; done.
Qed.

(** *** The fallback logger *)

Lemma NTLogger_method_eq lvl self msg out :
  NTLogger_method lvl self msg out =
  if bool_decide (rank (log_level self) <= rank lvl)%nat
  then out +:+ initial lvl +:+ ":" +:+ context self +:+ ":" +:+ sub_csi msg
  else out.
Proof.
  rewrite <- value_leb_rank.
  destruct lvl; reflexivity.
Qed.

Section emit_runs.
Context `{Host}.

(** A record that does not pass is dropped: the event and the store stay as
    they are. *)
Lemma EventHandler_emit_filtered self l r ev h :
  records h !! l = Some r ->
  EventHandler_passes self r = false ->
  EventHandler_emit self l ev h = (Ok ev, h).
Proof.
  intros Hl Hpass. unfold EventHandler_emit, bind, read_record, ret.
  by rewrite Hl, Hpass.
Qed.

(** A record that passes is formatted, put into the slot, and the flag is
    set. *)
Lemma EventHandler_emit_passed self l r ev h :
  records h !! l = Some r ->
  EventHandler_passes self r = true ->
  EventHandler_emit self l ev h =
    match Handler_format self l h with
    | (Ok out, h') => (Ok {| event_record := Some out; event_is_set := true |}, h')
    | (Raise e, h') => (Raise e, h')
    end.
Proof.
  intros Hl Hpass. unfold EventHandler_emit, bind, read_record, ret.
  by rewrite Hl, Hpass.
Qed.
End emit_runs.

(** C2 (as amended): for every record level and every configured threshold,
    a record passes the gate of [EventHandler.emit], and a level method of
    [NTLogger] writes, exactly when threshold <= level in the order
    DEBUG < INFO < WARNING < ERROR < CRITICAL. *)
Theorem verbosity_gates_pass_from_threshold (lvl thr : LogVerbosity) :
  (forall (h : Handler) (r : LogRecord),
     EventHandler_passes (setLevel (value thr) h) (at_level lvl r)
     = bool_decide (rank thr <= rank lvl)%nat) /\
  (forall ctx msg out : string,
     NTLogger_method lvl (NTLogger_init ctx thr) msg out <> out
     <-> (rank thr <= rank lvl)%nat).
Proof.
  split.
  - intros h r. unfold EventHandler_passes. simpl.
    rewrite Z.geb_leb. apply value_leb_rank.
  - intros ctx msg out. rewrite NTLogger_method_eq. simpl.
    case_bool_decide as Hle; split; try done.
    intros _ Heq. apply (f_equal String.length) in Heq.
    rewrite !length_append in Heq.
    destruct lvl; simpl in Heq; lia.
Qed.

(** C2 (as stated) fails: a DEBUG record is below an INFO threshold, yet it
    passes neither gate; the stated direction level <= threshold is the
    reverse of the code's. *)
Lemma level_below_threshold_is_filtered :
  ~ (EventHandler_passes (setLevel (value INFO) example_handler)
       (at_level DEBUG (example_record (Val (PyStr "m")))) = true
     <-> (rank DEBUG <= rank INFO)%nat) /\
  ~ (NTLogger_debug (NTLogger_init "ctx" INFO) "m" EmptyString <> EmptyString
     <-> (rank DEBUG <= rank INFO)%nat).
Proof.
  split.
  - intros [_ Hpass]. vm_compute in Hpass. discriminate Hpass. lia.
  - intros [_ Hpass]. apply Hpass; [simpl; lia | reflexivity].
Qed.

(** C8 (as amended): [NTLogger] strips the escape sequences from its context
    at construction, and each level method, when threshold <= level, appends
    to standard output the text <initial>:<context>:<stripped message>, with
    no line terminator; otherwise it writes nothing. *)
Theorem NTLogger_writes_tagged_text (ctx msg out : string) (thr lvl : LogVerbosity) :
  context (NTLogger_init ctx thr) = sub_csi ctx /\
  NTLogger_method lvl (NTLogger_init ctx thr) msg out =
    if bool_decide (rank thr <= rank lvl)%nat
    then out +:+ initial lvl +:+ ":" +:+ sub_csi ctx +:+ ":" +:+ sub_csi msg
    else out.
Proof. split; [reflexivity | apply NTLogger_method_eq]. Qed.

(** C8 (as stated) fails: what a permitted call writes is not a line; a
    second message goes on behind the first. *)
Lemma NTLogger_info_writes_no_line :
  NTLogger_info (NTLogger_init "ctx" INFO) "a" EmptyString = "I:ctx:a" /\
  ~ is_line "I:ctx:a" /\
  NTLogger_info (NTLogger_init "ctx" INFO) "b" "I:ctx:a" = "I:ctx:aI:ctx:b".
Proof.
  split; [reflexivity|]. split; [|reflexivity].
  intros Hline%is_line_last. discriminate Hline.
Qed.

(** *** Running the formatters *)

Lemma fresh_record_None (h : store) : records h !! fresh (dom (records h)) = None.
Proof. apply not_elem_of_dom, is_fresh. Qed.

Lemma fresh_record_ne (h : store) l r :
  records h !! l = Some r -> fresh (dom (records h)) <> l.
Proof. intros Hl Heq. rewrite <- Heq, fresh_record_None in Hl. discriminate. Qed.

Lemma set_records_insert_insert l r1 r2 h :
  set_records <[l := r2]> (set_records <[l := r1]> h) = set_records <[l := r2]> h.
Proof. destruct h; unfold set_records; simpl. by rewrite insert_insert_eq. Qed.

Ltac run :=
  unfold copy, bind, read_record, write_record, read_dict, write_dict,
    modify, get, ret, raise, lift; simpl.

Lemma copy_run h l r :
  records h !! l = Some r ->
  copy l h = (Ok (fresh (dom (records h))), set_records <[fresh (dom (records h)) := r]> h).
Proof. intros Hl. run. by rewrite Hl. Qed.

Section runs.
Context `{Host}.

Lemma PlainFormatter_format_run fmt h l r :
  records h !! l = Some r ->
  PlainFormatter_format fmt l h =
    let cr := fresh (dom (records h)) in
    let r1 := if is_str (msg r)
              then set_msg (Val (PyStr (sub_csi (py_str (dicts h) (msg r))))) r
              else r in
    (let '(line, r2) := Formatter_format fmt (dicts h) r1 in
     (line, set_records <[cr := r2]> h)).
Proof.
  intros Hl. unfold PlainFormatter_format, super_format. run. rewrite Hl. simpl.
  rewrite lookup_insert_eq. simpl.
  destruct (is_str (msg r)); simpl; rewrite ?lookup_insert_eq; simpl;
    destruct (Formatter_format _ _ _) as [line r2]; simpl;
    rewrite ?set_records_insert_insert; done.
Qed.
End runs.

Global Instance key_le_trans : Transitive key_le.
Proof.
  intros [s1|n1] [s2|n2] [s3|n3]; simpl; try done.
  - apply transitivity.
  - lia.
Qed.

Global Instance key_le_total : Total key_le.
Proof.
  intros [s1|n1] [s2|n2]; simpl; auto.
  - apply (total String.le).
  - lia.
Qed.

Global Instance item_le_trans {T} : Transitive (@item_le T).
Proof. intros a b c. unfold item_le. apply transitivity. Qed.

Global Instance item_le_total {T} : Total (@item_le T).
Proof. intros a b. unfold item_le. apply total, _. Qed.

Lemma key_le_antisym a b : key_le a b -> key_le b a -> a = b.
Proof.
  destruct a as [s|m], b as [t|n]; simpl; try done.
  - intros ??. f_equal. by apply (anti_symm String.le).
  - intros ??. f_equal. lia.
Qed.

Lemma KEYS_sorted_perm : KEYS ≡ₚ SORTED_KEYS.
Proof. unfold KEYS, SORTED_KEYS. do 5 apply perm_skip. apply perm_swap. Qed.

Lemma getattr_KEYS r k : k ∈ KEYS -> getattr r k = Ok (attr_of r k).
Proof.
  unfold KEYS. rewrite !elem_of_cons, elem_of_nil.
  intros Hk. repeat (destruct Hk as [->|Hk]; [reflexivity|]). done.
Qed.

Lemma getattrs_KEYS r keys :
  (forall k, k ∈ keys -> k ∈ KEYS) ->
  getattrs r keys = Ok ((fun k => (KStr k, attr_of r k)) <$> keys).
Proof.
  induction keys as [|k keys IH]; intros Hin; simpl; [done|].
  rewrite getattr_KEYS by (apply Hin; left). simpl.
  rewrite IH by (intros; apply Hin; by right). done.
Qed.

Lemma sorted_items_str {T} (items : list (pykey * T)) :
  forallb is_KStr (dict_keys items) = true ->
  sorted_items items = Ok (merge_sort item_le items).
Proof. intros Hs. unfold sorted_items. by rewrite Hs. Qed.

Lemma merge_sort_keyed {T} (f : string -> T) (keys sorted : list string) :
  keys ≡ₚ sorted -> Sorted String.le sorted ->
  merge_sort item_le ((fun k => (KStr k, f k)) <$> keys)
  = (fun k => (KStr k, f k)) <$> sorted.
Proof.
  intros Hperm Hsorted.
  apply (Sorted_unique_strong item_le).
  - intros x1 x2 Hx1 [k2 [-> _]]%list_elem_of_fmap.
    rewrite merge_sort_Permutation in Hx1.
    apply list_elem_of_fmap in Hx1 as [k1 [-> _]]. unfold item_le; simpl.
    intros H12 H21. by rewrite (anti_symm String.le k1 k2).
  - apply Sorted_merge_sort, _.
  - clear Hperm. induction Hsorted as [|k l Hs IH Hhd]; simpl; constructor; [done|].
    destruct Hhd; simpl; constructor. done.
  - by rewrite merge_sort_Permutation, Hperm.
Qed.

Lemma SORTED_KEYS_sorted : Sorted String.le SORTED_KEYS.
Proof. apply (bool_decide_unpack _). vm_compute. exact I. Qed.

Lemma forallb_is_KStr_fmap {T} (f : string -> T) keys :
  forallb is_KStr (dict_keys ((fun k => (KStr k, f k)) <$> keys)) = true.
Proof. induction keys; simpl; auto. Qed.

Section json_runs.
Context `{Host}.

Lemma JsonFormatter_format_run h l r :
  records h !! l = Some r ->
  JsonFormatter_format l h =
    let cr := fresh (dom (records h)) in
    let r1 := set_msg (Val (PyStr (sub_csi (py_str (dicts h) (msg r))))) r in
    (items ← getattrs r1 (set_iter KEYS);
     json_of_items (json_dumps (dicts h)) items,
     set_records <[cr := r1]> h).
Proof.
  intros Hl. unfold JsonFormatter_format. run. rewrite Hl. simpl.
  rewrite !lookup_insert_eq. simpl.
  rewrite set_records_insert_insert.
  destruct (getattrs _ _); done.
Qed.

Lemma JsonFormatter_format_output h l r :
  records h !! l = Some r ->
  (JsonFormatter_format l h).1
  = Ok (json_record r (sub_csi (py_str (dicts h) (msg r)))).
Proof.
  intros Hl. rewrite (JsonFormatter_format_run _ _ _ Hl). simpl.
  rewrite getattrs_KEYS; simpl.
  2:{ intros k. by rewrite (set_iter_perm KEYS). }
  unfold json_of_items.
  rewrite sorted_items_str by apply forallb_is_KStr_fmap. simpl.
  rewrite (merge_sort_keyed _ _ SORTED_KEYS).
  - reflexivity.
  - by rewrite set_iter_perm, KEYS_sorted_perm.
  - apply SORTED_KEYS_sorted.
Qed.
End json_runs.

(** *** Serialisation *)

Lemma json_of_val_spec v :
  if serializable v then exists j, json_of_val v = Ok j
  else is_TypeError (json_of_val v).
Proof.
  revert v. fix IH 1. intros [ | b | n | f | s | items | cls]; simpl; eauto.
  induction items as [|v items IHitems]; simpl; [eauto|].
  specialize (IH v). destruct (serializable v); simpl.
  - destruct IH as [j ->]. simpl.
    destruct (forallb serializable items).
    + destruct IHitems as [js Hjs]. 
      destruct ((fix go (vs : list pyval) := _) items) as [js'|e]; simpl in *; eauto.
    + destruct ((fix go (vs : list pyval) := _) items) as [js'|e]; simpl in *; eauto.
  - destruct (json_of_val v) as [|[]]; simpl in *; done.
Qed.

Lemma json_of_val_Ok v :
  serializable v = true -> exists j, json_of_val v = Ok j.
Proof. intros Hs. pose proof (json_of_val_spec v) as Hv. by rewrite Hs in Hv. Qed.

Lemma json_of_val_TypeError v :
  serializable v = false -> is_TypeError (json_of_val v).
Proof. intros Hs. pose proof (json_of_val_spec v) as Hv. by rewrite Hs in Hv. Qed.

Lemma json_of_members_Ok (items : pydict) :
  forallb serializable items.*2 = true ->
  exists ms, json_of_members json_of_val items = Ok ms /\
             ms.*1 = key_string <$> items.*1.
Proof.
  induction items as [|[k v] items IH]; simpl; [eauto|].
  intros [Hv Hitems]%andb_true_iff.
  destruct (json_of_val_Ok v Hv) as [j ->]. simpl.
  destruct (IH Hitems) as (ms & -> & Hms). simpl.
  eexists. split; [done|]. by rewrite !fmap_cons, Hms.
Qed.

Lemma json_of_members_TypeError (items : pydict) :
  forallb serializable items.*2 = false ->
  is_TypeError (json_of_members json_of_val items).
Proof.
  induction items as [|[k v] items IH]; simpl; [done|].
  intros Hf. pose proof (json_of_val_spec v) as Hv.
  destruct (serializable v); simpl in *.
  - destruct Hv as [j ->]. simpl. specialize (IH Hf).
    destruct (json_of_members json_of_val items) as [|[]]; done.
  - destruct (json_of_val v) as [|[]]; done.
Qed.

(** *** Dicts *)

Lemma dict_keys_setitem k v (d : pydict) k' :
  k' ∈ dict_keys (dict_setitem k v d) <-> k' = k \/ k' ∈ dict_keys d.
Proof.
  unfold dict_keys. induction d as [|[k0 v0] d IH]; simpl.
  - rewrite list_elem_of_singleton, elem_of_nil. tauto.
  - case_decide as Hk; simpl; rewrite !elem_of_cons.
    + subst. tauto.
    + rewrite IH. tauto.
Qed.

Lemma dict_keys_update (other d : pydict) k' :
  k' ∈ dict_keys (dict_update other d) <->
  k' ∈ dict_keys other \/ k' ∈ dict_keys d.
Proof.
  unfold dict_update. revert d.
  induction other as [|[k v] other IH]; intros d; simpl.
  - unfold dict_keys at 2. simpl. rewrite elem_of_nil. tauto.
  - rewrite IH, dict_keys_setitem. unfold dict_keys at 3. simpl.
    rewrite elem_of_cons. tauto.
Qed.

Lemma forallb_is_KStr_elem (ks : list pykey) :
  forallb is_KStr ks = true <-> forall k, k ∈ ks -> is_KStr k = true.
Proof. rewrite forallb_forall. by setoid_rewrite list_elem_of_In. Qed.

Lemma Sorted_key_strings {T} (l : list (pykey * T)) :
  Sorted item_le l -> forallb is_KStr (dict_keys l) = true ->
  Sorted String.le (key_string <$> dict_keys l).
Proof.
  unfold dict_keys.
  induction 1 as [|[k v] l Hs IH Hhd]; simpl; [constructor|].
  intros [Hk Hl]%andb_true_iff. constructor; [auto|].
  destruct Hhd as [|[k' v'] l' Hle]; simpl; constructor.
  simpl in Hl. apply andb_true_iff in Hl as [Hk' _].
  destruct k, k'; try done.
Qed.

Section profile_runs.
Context `{Host}.

Lemma ProfileFormatter_format_not_dict h l r v :
  records h !! l = Some r -> msg r = Val v ->
  ProfileFormatter_format l h =
    (Raise (TypeError OnlyAcceptsDict),
     set_records <[fresh (dom (records h)) := r]> h).
Proof.
  intros Hl Hmsg. unfold ProfileFormatter_format. run. rewrite Hl. simpl.
  rewrite lookup_insert_eq. simpl. by rewrite Hmsg.
Qed.

Lemma ProfileFormatter_format_dict h l r ld d :
  records h !! l = Some r -> msg r = DictRef ld -> dicts h !! ld = Some d ->
  ProfileFormatter_format l h =
    (json_of_items json_of_val (profile_merge r d),
     {| records := <[fresh (dom (records h)) := r]> (records h);
        dicts := <[ld := profile_merge r d]> (dicts h) |}).
Proof.
  intros Hl Hmsg Hd. unfold ProfileFormatter_format. run. rewrite Hl. simpl.
  rewrite lookup_insert_eq. simpl. rewrite Hmsg. simpl.
  rewrite Hd. simpl. rewrite !lookup_insert_eq. simpl.
  unfold set_dicts, set_records. simpl. rewrite insert_insert_eq. reflexivity.
Qed.

Lemma profile_merge_keys r d k :
  k ∈ dict_keys (profile_merge r d) <->
  k ∈ KStr <$> PROFILE_ADDED \/ k ∈ dict_keys d.
Proof.
  unfold profile_merge. rewrite dict_keys_setitem, dict_keys_update.
  unfold dict_keys, profile_fields, PROFILE_ADDED. simpl.
  rewrite !elem_of_cons, !elem_of_nil. tauto.
Qed.

Lemma profile_merge_all_str r d :
  forallb is_KStr (dict_keys (profile_merge r d)) = forallb is_KStr (dict_keys d).
Proof.
  apply eq_true_iff_eq. rewrite !forallb_is_KStr_elem.
  setoid_rewrite profile_merge_keys. split.
  - intros Hall k Hk. apply Hall. by right.
  - intros Hall k [Hk|Hk]; [|by apply Hall].
    apply list_elem_of_fmap in Hk as [s [-> _]]. done.
Qed.

Lemma profile_merge_not_all_int r d :
  forallb is_KInt (dict_keys (profile_merge r d)) = false.
Proof.
  apply not_true_iff_false. rewrite forallb_forall.
  intros Hall. specialize (Hall (KStr "memory")). simpl in Hall.
  assert (false = true) as Habs; [|done]. apply Hall.
  apply list_elem_of_In, profile_merge_keys. left.
  unfold PROFILE_ADDED. rewrite list_elem_of_fmap. exists "memory".
  split; [done|]. set_solver.
Qed.

(** What [json.dumps] makes of the merged mapping. *)
Lemma json_of_profile_merge r d :
  let merged := profile_merge r d in
  if forallb is_KStr (dict_keys d) && forallb serializable merged.*2
  then exists members,
      json_of_items json_of_val merged = Ok (JObject members) /\
      Sorted String.le members.*1 /\
      members.*1 ≡ₚ key_string <$> dict_keys merged
  else is_TypeError (json_of_items json_of_val merged).
Proof.
  intros merged. unfold json_of_items, sorted_items.
  rewrite <- (profile_merge_all_str r d). fold merged.
  destruct (forallb is_KStr (dict_keys merged)) eqn:Hstr; simpl.
  - assert (Hperm : merge_sort item_le merged ≡ₚ merged)
      by apply merge_sort_Permutation.
    destruct (forallb serializable merged.*2) eqn:Hser.
    + destruct (json_of_members_Ok (merge_sort item_le merged)) as (ms & Hms & Hkeys).
      { rewrite forallb_forall in *. intros v Hv. apply Hser.
        apply list_elem_of_In. apply list_elem_of_In in Hv. by rewrite <- Hperm. }
      rewrite Hms. simpl. exists ms. split; [done|]. rewrite Hkeys. split.
      * apply Sorted_key_strings; [apply Sorted_merge_sort, _|].
        rewrite forallb_forall in *. intros k Hk. apply Hstr.
        apply list_elem_of_In. apply list_elem_of_In in Hk.
        unfold dict_keys in *. by rewrite <- Hperm.
      * unfold dict_keys. by rewrite Hperm.
    + pose proof (json_of_members_TypeError (merge_sort item_le merged)) as Hte.
      destruct (json_of_members json_of_val _) as [|[]]; simpl; try done;
        apply Hte; apply not_true_iff_false; intros Hall;
        apply not_true_iff_false in Hser; apply Hser;
        rewrite forallb_forall in *; intros v Hv; apply Hall;
        apply list_elem_of_In; apply list_elem_of_In in Hv; by rewrite Hperm.
  - unfold merged. rewrite profile_merge_not_all_int. done.
Qed.
End profile_runs.

Lemma sub_csi_written ps :
  forallb piece_ok ps = true -> sub_csi (written ps) = visible ps.
Proof.
  induction ps as [|[text|params final] ps IH]; simpl.
  - intros _. by rewrite sub_csi_eq.
  - intros [Ht Hps]%andb_true_iff. rewrite sub_csi_text, IH; done.
  - intros [[Hp Hf]%andb_true_iff Hps]%andb_true_iff.
    rewrite sub_csi_CSI, IH; done.
Qed.

Section frames.
Context `{Host}.

Lemma ColorFormatter_format_run fmt h l r :
  records h !! l = Some r ->
  ColorFormatter_format fmt l h =
    let cr := fresh (dom (records h)) in
    let seq := default MAPPING_INFO (MAPPING (levelname r)) in
    let r1 := set_msg (colored (dicts h) (msg r) seq.1 seq.2) r in
    (let '(line, r2) := Formatter_format fmt (dicts h) r1 in
     (line, set_records <[cr := r2]> h)).
Proof.
  intros Hl. unfold ColorFormatter_format, super_format. run. rewrite Hl. simpl.
  rewrite !lookup_insert_eq. simpl.
  destruct (Formatter_format _ _ _) as [line r2]; simpl.
  by rewrite !set_records_insert_insert.
Qed.

(** The original record and every dict are as before when a formatter has
    only written to its copy. *)
Lemma set_records_fresh_frame h l r rc :
  records h !! l = Some r ->
  let h' := set_records <[fresh (dom (records h)) := rc]> h in
  records h' !! l = Some r /\ dicts h' = dicts h.
Proof.
  intros Hl. split; [|done]. simpl.
  rewrite lookup_insert_ne; [done|]. by eapply fresh_record_ne.
Qed.

Lemma ColorFormatter_format_frame fmt h l r :
  records h !! l = Some r ->
  let h' := (ColorFormatter_format fmt l h).2 in
  records h' !! l = Some r /\ dicts h' = dicts h.
Proof.
  intros Hl. rewrite (ColorFormatter_format_run _ _ _ _ Hl). simpl.
  destruct (Formatter_format _ _ _) as [line r2]. by apply set_records_fresh_frame.
Qed.

Lemma PlainFormatter_format_frame fmt h l r :
  records h !! l = Some r ->
  let h' := (PlainFormatter_format fmt l h).2 in
  records h' !! l = Some r /\ dicts h' = dicts h.
Proof.
  intros Hl. rewrite (PlainFormatter_format_run _ _ _ _ Hl). simpl.
  destruct (Formatter_format _ _ _) as [line r2]. by apply set_records_fresh_frame.
Qed.

Lemma JsonFormatter_format_frame h l r :
  records h !! l = Some r ->
  let h' := (JsonFormatter_format l h).2 in
  records h' !! l = Some r /\ dicts h' = dicts h.
Proof.
  intros Hl. rewrite (JsonFormatter_format_run _ _ _ Hl). simpl.
  by apply set_records_fresh_frame.
Qed.

(** [ProfileFormatter] leaves the record as it was, and writes the merged
    mapping into the dict the record's message refers to. *)
Lemma ProfileFormatter_format_writes_message h l r ld d :
  records h !! l = Some r -> msg r = DictRef ld -> dicts h !! ld = Some d ->
  let h' := (ProfileFormatter_format l h).2 in
  records h' !! l = Some r /\ dicts h' !! ld = Some (profile_merge r d).
Proof.
  intros Hl Hmsg Hd. rewrite (ProfileFormatter_format_dict _ _ _ _ _ Hl Hmsg Hd).
  simpl. rewrite lookup_insert_eq. split; [|done].
  rewrite lookup_insert_ne; [done|]. by eapply fresh_record_ne.
Qed.
End frames.

(** *** The model against the host

    The host-side functions on inputs the host itself was run on. *)

(** The scanner on the strings the host's [re.sub] was run on. *)
Example sub_csi_examples :
  sub_csi (String ESC "[31mhello" +:+ String ESC "[0m") = "hello" /\
  sub_csi (String ESC (String ESC "[0m[0m")) = String ESC "[0m" /\
  sub_csi (String ESC "[3" +:+ String ESC "[0m") = "0m" /\
  sub_csi (String ESC (String "[" (String LF "31m"))) = String ESC (String "[" (String LF "31m")) /\
  sub_csi (String ESC "[[x") = "x" /\
  sub_csi ("a" +:+ String ESC "[") = "a" +:+ String ESC "[" /\
  sub_csi (String ESC "[1;2") = String ESC "[1;2".
Proof. repeat split. Qed.

(** [json.dumps(_, sort_keys=True)] on the mappings the host was run on. *)
Example json_of_items_examples :
  json_of_items json_of_val [(KStr "b", PyInt 1); (KStr "a", PyList [PyInt 1; PyNone])]
  = Ok (JObject [("a", JArray [JInt 1; JNull]); ("b", JInt 1)]) /\
  json_of_items json_of_val [(KInt 2, PyInt 1); (KInt 1, PyInt 2)]
  = Ok (JObject [("1", JInt 2); ("2", JInt 1)]) /\
  json_of_items json_of_val [(KInt 1, PyInt 2); (KStr "created", PyFloat (Finite 1 0))]
  = Raise (TypeError Unorderable) /\
  json_of_items json_of_val [(KStr "a", PyObj "object")]
  = Raise (TypeError (NotSerializable "object")).
Proof. repeat split. Qed.

(** The default template for the contexts the host's format was run on. *)
Example default_fmt_str_examples :
  (exists rest, default_fmt_str "ab" 5 = Ok ("   ab@" +:+ rest)) /\
  (exists rest, default_fmt_str "abcdefgh" 5 = Ok ("abcde@" +:+ rest)) /\
  (exists rest, default_fmt_str "abcdef" 0 = Ok ("@" +:+ rest)) /\
  default_fmt_str "abcdef" (-1) = Raise ValueError.
Proof. repeat split; eexists; reflexivity. Qed.

Example MAPPING_examples :
  default MAPPING_INFO (MAPPING "CRITICAL") = ("white", Some "on_green") /\
  default MAPPING_INFO (MAPPING "TRACE") = ("white", None).
Proof. split; reflexivity. Qed.

Lemma dict_setitem_fresh k v (d : pydict) :
  k ∉ dict_keys d -> dict_setitem k v d = d ++ [(k, v)].
Proof.
  unfold dict_keys. induction d as [|[k0 v0] d IH]; simpl; [done|].
  rewrite not_elem_of_cons. intros [Hne Hd].
  case_decide; [congruence|]. by rewrite IH.
Qed.

Section profile_more.
Context `{Host}.

Lemma used_memory_serializable unit : serializable (used_memory unit) = true.
Proof.
  pose proof (used_memory_number unit) as Hn.
  by destruct (used_memory unit).
Qed.

(** A mapping with none of the seven keys gets them behind its own items. *)
Lemma profile_merge_fresh r d :
  (forall k, k ∈ PROFILE_ADDED -> KStr k ∉ dict_keys d) ->
  profile_merge r d = d ++ profile_fields r ++ [(KStr "memory", used_memory 1)].
Proof.
  intros Hfresh. unfold profile_merge, dict_update, profile_fields. simpl.
  assert (Hk : forall k, KStr k ∈ KStr <$> PROFILE_ADDED -> KStr k ∉ dict_keys d).
  { intros k [k' [[= ->] Hk']]%list_elem_of_fmap. by apply Hfresh. }
  unfold PROFILE_ADDED in Hk. simpl in Hk.
  repeat match goal with
    | |- context [dict_setitem ?k ?v ?x] =>
        lazymatch x with
        | context [dict_setitem] => fail
        | _ => rewrite (dict_setitem_fresh k v x)
        end
    end.
  { by rewrite <- !app_assoc. }
  all: unfold dict_keys in *; rewrite ?fmap_app; simpl;
    rewrite ?elem_of_app, ?elem_of_cons, ?elem_of_nil;
    intros Hin;
    repeat match goal with Hor : _ \/ _ |- _ => destruct Hor as [Hor|Hor] end;
    try discriminate; try contradiction;
    exfalso; (eapply Hk; [|exact Hin]); repeat constructor.
Qed.

(** The general form of the defect: whenever the message mapping has no key
    [memory], [ProfileFormatter.format] leaves the original record referring
    to a mapping that is no longer the one it had. *)
Lemma ProfileFormatter_format_changes_message h l r ld d :
  records h !! l = Some r -> msg r = DictRef ld -> dicts h !! ld = Some d ->
  KStr "memory" ∉ dict_keys d ->
  let h' := (ProfileFormatter_format l h).2 in
  msg <$> records h' !! l = Some (DictRef ld) /\ dicts h' !! ld <> Some d.
Proof.
  intros Hl Hmsg Hd Hfresh.
  destruct (ProfileFormatter_format_writes_message h l r ld d Hl Hmsg Hd) as [Hr Hm].
  simpl in *. rewrite Hr, Hm. simpl. split; [by rewrite Hmsg|].
  intros [= Heq]. apply Hfresh. rewrite <- Heq. apply profile_merge_keys.
  left. set_solver.
Qed.
End profile_more.

(** C1 (the code breaks it): [ProfileFormatter.format] works on a copy of
    the record, but the copy refers to the same message dict; run on a record
    whose message is the empty mapping, it leaves the record's attributes as
    they were and leaves seven items in the mapping the original record's
    message refers to. *)
Theorem ProfileFormatter_format_mutates_original_message :
  let h := example_store (example_record (DictRef 1)) [] in
  let h' := (ProfileFormatter_format (H := example_host) 1 h).2 in
  msg <$> records h !! 1%positive = Some (DictRef 1) /\
  records h' !! 1%positive = records h !! 1%positive /\
  dicts h !! 1%positive = Some [] /\
  dicts h' !! 1%positive =
    Some [(KStr "created", PyFloat (Finite 3405691582 (-1)));
          (KStr "module", PyStr "base"); (KStr "name", PyStr "test");
          (KStr "pathname", PyStr "/jina/logging/base.py");
          (KStr "process", PyInt 4711); (KStr "thread", PyInt 1);
          (KStr "memory", PyInt 0)].
Proof. vm_compute. repeat split. Qed.

(** C3 (as amended): [ProfileFormatter.format] raises the TypeError of
    its own when the record's message is not a dict; when the message is a
    dict, it raises a TypeError as well if a key of the mapping is not a
    string or a value of the merged mapping cannot be serialised; otherwise
    the result is a JSON object with sorted keys that holds every key of the
    original mapping and created, module, name, pathname, process, thread and
    memory. *)
Theorem ProfileFormatter_format_result `{Host} (h : store) (l : loc) (r : LogRecord) :
  records h !! l = Some r ->
  match msg r with
  | Val _ =>
      (ProfileFormatter_format l h).1 = Raise (TypeError OnlyAcceptsDict)
  | DictRef ld =>
      forall d, dicts h !! ld = Some d ->
        if forallb is_KStr (dict_keys d)
           && forallb serializable (profile_merge r d).*2
        then exists members,
            (ProfileFormatter_format l h).1 = Ok (JObject members) /\
            Sorted String.le members.*1 /\
            (forall k, k ∈ dict_keys d -> key_string k ∈ members.*1) /\
            (forall k, k ∈ PROFILE_ADDED -> k ∈ members.*1)
        else is_TypeError (ProfileFormatter_format l h).1
  end.
Proof.
  intros Hl. destruct (msg r) as [v|ld] eqn:Hmsg.
  - by rewrite (ProfileFormatter_format_not_dict _ _ _ _ Hl Hmsg).
  - intros d Hd. rewrite (ProfileFormatter_format_dict _ _ _ _ _ Hl Hmsg Hd). simpl.
    pose proof (json_of_profile_merge r d) as Hjson. simpl in Hjson.
    destruct (_ && _); [|done].
    destruct Hjson as (members & Hm & Hsorted & Hperm).
    exists members. repeat split; try done.
    + intros k Hk. rewrite Hperm. apply list_elem_of_fmap. exists k. split; [done|].
      apply profile_merge_keys. by right.
    + intros k Hk. rewrite Hperm. apply list_elem_of_fmap. exists (KStr k).
      split; [done|]. apply profile_merge_keys. left.
      apply list_elem_of_fmap. eauto.
Qed.

Lemma ProfileFormatter_format_result_witness :
  let h := example_store (example_record (DictRef 1)) [(KStr "op", PyStr "index"); (KStr "time", PyInt 3)] in
  records h !! 1%positive = Some (example_record (DictRef 1)) /\
  exists members,
    (ProfileFormatter_format (H := example_host) 1 h).1 = Ok (JObject members) /\
    Sorted String.le members.*1 /\
    (forall k, k ∈ [KStr "op"; KStr "time"] -> key_string k ∈ members.*1) /\
    (forall k, k ∈ PROFILE_ADDED -> k ∈ members.*1).
Proof.
  split; [reflexivity|].
  exact (ProfileFormatter_format_result (H := example_host)
           (example_store (example_record (DictRef 1))
              [(KStr "op", PyStr "index"); (KStr "time", PyInt 3)])
           1%positive (example_record (DictRef 1)) eq_refl
           [(KStr "op", PyStr "index"); (KStr "time", PyInt 3)] eq_refl).
Defined.

(** C3 (as stated) fails: the message is a mapping, and a TypeError is
    raised all the same, by the sort of the keys for the mapping {1: 2} and
    by the encoder for a value that is a thread object. *)
Lemma ProfileFormatter_format_TypeError_on_mapping :
  let r := example_record (DictRef 1) in
  let h := example_store r [(KInt 1, PyInt 2)] in
  is_dict (msg r) = true /\
  (ProfileFormatter_format (H := example_host) 1 h).1 = Raise (TypeError Unorderable) /\
  let h2 := example_store r [(KStr "job", PyObj "Thread")] in
  (ProfileFormatter_format (H := example_host) 1 h2).1
  = Raise (TypeError (NotSerializable "Thread")).
Proof. vm_compute. repeat split. Qed.

(** C6: for every well-formed record (its creation time a finite float),
    [JsonFormatter.format] returns a valid JSON object whose keys are exactly
    created, filename, funcName, levelname, lineno, module, msg, name,
    pathname, process and thread, written in sorted order, whatever the order
    in which the set [KEYS] is iterated. *)
Theorem JsonFormatter_format_keys `{Host} (h : store) (l : loc) (r : LogRecord) :
  records h !! l = Some r ->
  is_finite (created r) = true ->
  exists j,
    (JsonFormatter_format l h).1 = Ok j /\
    is_object j = true /\
    valid_json j = true /\
    json_keys j ≡ₚ KEYS /\
    Sorted String.le (json_keys j) /\
    json_keys j = SORTED_KEYS.
Proof.
  intros Hl Hfin. eexists. split; [by apply JsonFormatter_format_output|].
  simpl. rewrite Hfin. repeat split.
  - symmetry. apply KEYS_sorted_perm.
  - apply SORTED_KEYS_sorted.
Qed.

Lemma JsonFormatter_format_keys_witness :
  let r := example_record (Val (PyStr "ready")) in
  let h := example_store r [] in
  records h !! 1%positive = Some r /\
  is_finite (created r) = true /\
  exists j,
    (JsonFormatter_format (H := example_host) 1 h).1 = Ok j /\
    is_object j = true /\
    valid_json j = true /\
    json_keys j ≡ₚ KEYS /\
    Sorted String.le (json_keys j) /\
    json_keys j = SORTED_KEYS.
Proof.
  split; [reflexivity|]. split; [reflexivity|].
  exact (JsonFormatter_format_keys (H := example_host)
           (example_store (example_record (Val (PyStr "ready"))) [])
           1%positive (example_record (Val (PyStr "ready"))) eq_refl eq_refl).
Defined.

Lemma no_esc_append s t : no_esc (s +:+ t) = no_esc s && no_esc t.
Proof.
  induction s as [|c s IH]; [done|]. rewrite append_cons. simpl.
  by rewrite IH, andb_assoc.
Qed.

Lemma is_final_not_ESC c : is_final c = true -> Ascii.eqb c ESC = false.
Proof.
  intros Hf. destruct (Ascii.eqb_spec c ESC) as [->|]; [|done]. discriminate Hf.
Qed.

(** A sequence alone is removed whole. *)
Lemma sub_csi_CSI_alone (params : string) (final : ascii) :
  csi_params params = true -> is_final final = true ->
  sub_csi (CSI params final) = EmptyString.
Proof.
  intros Hp Hf.
  replace (CSI params final) with (CSI params final +:+ EmptyString).
  - rewrite (sub_csi_CSI _ _ _ Hp Hf). by rewrite sub_csi_eq.
  - unfold CSI. rewrite !append_cons. do 2 f_equal.
    clear. induction params as [|c p IH]; [done|].
    rewrite !append_cons. by f_equal.
Qed.

(** A sequence inside the opening of another: the inner one is removed, and
    what stood around it is left, joined to a sequence. *)
Lemma sub_csi_nested (params params' : string) (final final' : ascii) :
  csi_params params = true -> is_final final = true ->
  no_esc params' = true -> is_final final' = true ->
  sub_csi (String ESC (CSI params final +:+
             String "[" (params' +:+ String final' EmptyString)))
  = CSI params' final'.
Proof.
  intros Hp Hf He' Hf'.
  rewrite sub_csi_eq. unfold CSI at 1. simpl.
  rewrite (sub_csi_CSI _ _ _ Hp Hf). unfold CSI. f_equal.
  apply sub_csi_no_esc. simpl. rewrite no_esc_append, He'. simpl.
  by rewrite (is_final_not_ESC _ Hf').
Qed.

(** C7 fails on the code: the pattern is applied in one pass, so an escape
    sequence can be left.  For a string message ESC ESC [ p f [ p' f' (p, p'
    parameter characters, f, f' final bytes) the pass removes ESC [ p f; what
    PlainFormatter hands to the template, and what JsonFormatter writes as
    [msg], is ESC [ p' f', an escape sequence. *)
Theorem formatters_leave_escape_sequence `{Host}
    (fmt : string) (h : store) (l : loc) (r : LogRecord)
    (params params' : string) (final final' : ascii) :
  records h !! l = Some r ->
  csi_params params = true -> is_final final = true ->
  csi_params params' = true -> no_esc params' = true -> is_final final' = true ->
  msg r = Val (PyStr (String ESC (CSI params final +:+
                        String "[" (params' +:+ String final' EmptyString)))) ->
  sub_csi (CSI params' final') = EmptyString /\
  (PlainFormatter_format fmt l h).1
  = (Formatter_format fmt (dicts h) (set_msg (Val (PyStr (CSI params' final'))) r)).1 /\
  exists j, (JsonFormatter_format l h).1 = Ok j /\
            json_member "msg" j = Some (JString (CSI params' final')).
Proof.
  intros Hl Hp Hf Hp' He' Hf' Hmsg. split; [by apply sub_csi_CSI_alone|]. split.
  - rewrite (PlainFormatter_format_run _ _ _ _ Hl). simpl.
    rewrite Hmsg. simpl. rewrite (sub_csi_nested _ _ _ _ Hp Hf He' Hf').
    by destruct (Formatter_format _ _ _).
  - eexists. split; [by apply JsonFormatter_format_output|].
    rewrite Hmsg. simpl. by rewrite (sub_csi_nested _ _ _ _ Hp Hf He' Hf').
Qed.

Lemma formatters_leave_escape_sequence_witness :
  let r := example_record (Val (PyStr (String ESC (String ESC "[0m[0m")))) in
  let h := example_store r [] in
  records h !! 1%positive = Some r /\
  csi_params "0" = true /\ is_final "m" = true /\ no_esc "0" = true /\
  (PlainFormatter_format (H := example_host) "%(message)s:" 1 h).1
  = Ok ("%(message)s:" +:+ String ESC "[0m") /\
  exists j, (JsonFormatter_format (H := example_host) 1 h).1 = Ok j /\
            json_member "msg" j = Some (JString (String ESC "[0m")).
Proof.
  split; [reflexivity|]. do 3 (split; [reflexivity|]).
  exact (proj2 (formatters_leave_escape_sequence (H := example_host) "%(message)s:"
           (example_store (example_record (Val (PyStr (String ESC (String ESC "[0m[0m"))))) [])
           1%positive (example_record (Val (PyStr (String ESC (String ESC "[0m[0m")))))
           "0" "0" "m" "m" eq_refl eq_refl eq_refl eq_refl eq_refl eq_refl eq_refl)).
Defined.

(** C10: for every record whose message is not a string,
    [PlainFormatter.format] hands the record to the template with the message
    object as it is, neither stripped nor turned into a string, whereas
    [JsonFormatter.format] writes as [msg] the stripped [str] of the
    message. *)
Theorem PlainFormatter_format_leaves_non_str `{Host}
    (fmt : string) (h : store) (l : loc) (r : LogRecord) :
  records h !! l = Some r ->
  is_str (msg r) = false ->
  PlainFormatter_format fmt l h =
    (let '(line, r') := Formatter_format fmt (dicts h) r in
     (line, set_records <[fresh (dom (records h)) := r']> h)) /\
  (JsonFormatter_format l h).1
  = Ok (json_record r (sub_csi (py_repr (dicts h) (msg r)))).
Proof.
  intros Hl Hstr. split.
  - rewrite (PlainFormatter_format_run _ _ _ _ Hl). simpl. by rewrite Hstr.
  - rewrite (JsonFormatter_format_output _ _ _ Hl).
    destruct (msg r) as [[]|]; try done.
Qed.

Lemma PlainFormatter_format_leaves_non_str_witness :
  let r := example_record (Val (PyObj "Exception")) in
  let h := example_store r [] in
  records h !! 1%positive = Some r /\
  is_str (msg r) = false /\
  PlainFormatter_format (H := example_host) "%(message)s:" 1 h =
    (let '(line, r') := Formatter_format (Host := example_host) "%(message)s:" (dicts h) r in
     (line, set_records <[fresh (dom (records h)) := r']> h)) /\
  (JsonFormatter_format (H := example_host) 1 h).1
  = Ok (json_record r "<object>").
Proof.
  split; [reflexivity|]. split; [reflexivity|].
  exact (PlainFormatter_format_leaves_non_str (H := example_host) "%(message)s:"
           (example_store (example_record (Val (PyObj "Exception"))) [])
           1%positive (example_record (Val (PyObj "Exception"))) eq_refl eq_refl).
Defined.

(** *** Logger assembly *)

(** *** The host's check of the template *)

Lemma Formatter_init_timed (cls : string -> Formatter) (fmt_str : string) :
  Formatter_init cls ("%(asctime)s:" +:+ fmt_str)
  = Ok (cls ("%(asctime)s:" +:+ fmt_str)).
Proof. reflexivity. Qed.

Lemma Formatter_init_eq (cls : string -> Formatter) (fmt : string) :
  fmt <> EmptyString ->
  Formatter_init cls fmt
  = if Formatter_validate fmt then Ok (cls fmt) else Raise ValueError.
Proof. by destruct fmt. Qed.

Lemma search_conversion_append (s t : string) :
  search_conversion t = true -> search_conversion (s +:+ t) = true.
Proof.
  intros Ht. induction s as [|c s IH]; [done|].
  rewrite append_cons. cbn [search_conversion]. rewrite IH. apply orb_true_r.
Qed.

Lemma default_fmt_str_valid (ctx : string) (context_len : Z) (fmt_str : string) :
  default_fmt_str ctx context_len = Ok fmt_str ->
  Formatter_validate fmt_str = true /\ fmt_str <> EmptyString.
Proof.
  unfold default_fmt_str. destruct (context_len <? 0); [discriminate|].
  intros [= <-]. split.
  - by apply search_conversion_append.
  - intros Hempty. apply (f_equal String.length) in Hempty.
    rewrite length_append in Hempty. simpl in Hempty. lia.
Qed.

Lemma resolve_fmt_str_nonempty (a : get_logger_args) (fmt_str : string) :
  resolve_fmt_str a = Ok fmt_str -> fmt_str <> EmptyString.
Proof.
  unfold resolve_fmt_str, falsy. destruct (arg_fmt_str a) as [fmt|].
  - case_bool_decide as Hfmt.
    + intros Hd. by apply default_fmt_str_valid in Hd as [_ ?].
    + by intros [= <-].
  - intros Hd. by apply default_fmt_str_valid in Hd as [_ ?].
Qed.

(** Without a template of the caller's, the template is accepted. *)
Lemma resolve_fmt_str_default_valid (a : get_logger_args) (fmt_str : string) :
  falsy (arg_fmt_str a) = true ->
  resolve_fmt_str a = Ok fmt_str -> Formatter_validate fmt_str = true.
Proof.
  unfold resolve_fmt_str. intros ->. intros Hd.
  by apply default_fmt_str_valid in Hd as [? _].
Qed.

(** *** The registry of loggers *)

Lemma registered_settings_insert_ne d k k' e :
  k <> k' -> registered_settings (<[k := e]> d) k' = registered_settings d k'.
Proof. intros Hne. unfold registered_settings. by rewrite lookup_insert_ne. Qed.

Lemma registered_settings_insert d k e :
  registered_settings (<[k := e]> d) k
  = match e with LoggerEntry l => Some (settings l) | PlaceHolder _ => None end.
Proof. unfold registered_settings. by rewrite lookup_insert_eq. Qed.

Lemma registered_settings_insert_same d k e k' :
  registered_settings d k
  = match e with LoggerEntry l => Some (settings l) | PlaceHolder _ => None end ->
  registered_settings (<[k := e]> d) k' = registered_settings d k'.
Proof.
  intros He. destruct (decide (k = k')) as [<-|Hne].
  - by rewrite registered_settings_insert.
  - by apply registered_settings_insert_ne.
Qed.

Lemma registered_settings_Some d k st :
  registered_settings d k = Some st ->
  exists l, d !! k = Some (LoggerEntry l) /\ settings l = st.
Proof.
  unfold registered_settings. destruct (d !! k) as [[l|ph]|]; try discriminate.
  intros [= <-]. eauto.
Qed.

(** The loop of [_fixupParents] touches the settings of no logger. *)
Lemma _fixupParents_loop_settings alogger cuts d k :
  registered_settings (_fixupParents_loop alogger cuts d).1 k = registered_settings d k.
Proof.
  revert d. induction cuts as [|i cuts IH]; intros d; simpl; [done|].
  destruct (d !! substring 0 i alogger) as [[l|ph]|] eqn:Hsub; simpl; [done| |].
  - rewrite IH. apply registered_settings_insert_same.
    unfold registered_settings. by rewrite Hsub.
  - rewrite IH. apply registered_settings_insert_same.
    unfold registered_settings. by rewrite Hsub.
Qed.

Lemma _fixupChildren_step_settings alogger d c k :
  registered_settings (_fixupChildren_step alogger d c) k = registered_settings d k.
Proof.
  unfold _fixupChildren_step.
  destruct (d !! c) as [[lc|ph]|] eqn:Hc; [|done|done].
  destruct (parent lc) as [pr|]; [|done].
  case_bool_decide; [done|].
  assert (Hrest : registered_settings
                    match d !! alogger with
                    | Some (LoggerEntry la) => <[alogger:=LoggerEntry (set_parent pr la)]> d
                    | _ => d
                    end k = registered_settings d k).
  { destruct (d !! alogger) as [[la|ph]|] eqn:Ha; [|done|done].
    apply registered_settings_insert_same. unfold registered_settings. by rewrite Ha. }
  destruct (decide (c = k)) as [<-|Hne].
  - rewrite registered_settings_insert. unfold registered_settings. by rewrite Hc.
  - by rewrite registered_settings_insert_ne.
Qed.

Lemma _fixupChildren_settings alogger ph d k :
  registered_settings (foldl (_fixupChildren_step alogger) d ph) k = registered_settings d k.
Proof.
  revert d. induction ph as [|c ph IH]; intros d; simpl; [done|].
  by rewrite IH, _fixupChildren_step_settings.
Qed.

Lemma _fixupParents_run alogger s st :
  registered_settings (loggerDict s) alogger = Some st ->
  exists d,
    _fixupParents alogger s
    = (Ok tt, {| root := root s; loggerDict := d; next_id := next_id s |}) /\
    forall k, registered_settings d k = registered_settings (loggerDict s) k.
Proof.
  intros Hst. unfold _fixupParents.
  pose proof (_fixupParents_loop_settings alogger
                (rfind_dots alogger (String.length alogger)) (loggerDict s)) as Hloop.
  destruct (_fixupParents_loop _ _ _) as [d rv]. simpl in Hloop.
  pose proof (Hloop alogger) as Ha. rewrite Hst in Ha.
  apply registered_settings_Some in Ha as (l & Hl & Hsl).
  unfold update_logger, set_loggerDict. simpl. rewrite Hl.
  eexists. split; [reflexivity|].
  intros k. rewrite <- Hloop. apply registered_settings_insert_same.
  unfold registered_settings. by rewrite Hl.
Qed.

(** [Manager.getLogger] returns the logger of the name, registered from then
    on with the settings it had or those of a new logger; it changes the
    settings of no other logger, nor the root logger. *)
Lemma Manager_getLogger_run name s :
  exists d,
    Manager_getLogger name s
    = (Ok (NamedLogger name), {| root := root s; loggerDict := d; next_id := next_id s |}) /\
    registered_settings d name
    = Some (default (settings fresh_logger) (registered_settings (loggerDict s) name)) /\
    (forall k, k <> name -> registered_settings d k = registered_settings (loggerDict s) k).
Proof.
  unfold Manager_getLogger.
  destruct (loggerDict s !! name) as [[l|ph]|] eqn:Hname.
  - exists (loggerDict s). destruct s. simpl in *.
    unfold registered_settings. by rewrite Hname.
  - unfold bind at 1. unfold modify at 1.
    unfold bind at 1. unfold _fixupChildren, modify at 1.
    unfold bind at 1.
    destruct (_fixupParents_run name
                (set_loggerDict (fun d => foldl (_fixupChildren_step name) d ph)
                   (set_loggerDict <[name := LoggerEntry fresh_logger]> s))
                (settings fresh_logger)) as (d & -> & Hd).
    { simpl. rewrite _fixupChildren_settings. by rewrite registered_settings_insert. }
    exists d. split; [done|]. simpl in Hd. split.
    + rewrite Hd, _fixupChildren_settings, registered_settings_insert.
      unfold registered_settings. by rewrite Hname.
    + intros k Hk. rewrite Hd, _fixupChildren_settings.
      by rewrite registered_settings_insert_ne.
  - unfold bind at 1. unfold modify at 1. unfold bind at 1.
    destruct (_fixupParents_run name
                (set_loggerDict <[name := LoggerEntry fresh_logger]> s)
                (settings fresh_logger)) as (d & -> & Hd).
    { simpl. by rewrite registered_settings_insert. }
    exists d. split; [done|]. simpl in Hd. split.
    + rewrite Hd, registered_settings_insert.
      unfold registered_settings. by rewrite Hname.
    + intros k Hk. rewrite Hd. by rewrite registered_settings_insert_ne.
Qed.

(** The check and the registry on inputs the host itself was run on. *)
Example Formatter_validate_examples :
  Formatter_validate "plain" = false /\
  Formatter_validate "%(message)s" = true /\
  Formatter_validate "%(message)S" = true /\
  Formatter_validate "%(a)-5.3d" = true /\
  Formatter_validate "%(a)0*d" = true /\
  Formatter_validate "%(a)00012.*X" = true /\
  Formatter_validate "%(a).d" = false /\
  Formatter_validate "%(a)**s" = false /\
  Formatter_validate "%()s" = false /\
  Formatter_validate "%(a b)s" = false /\
  Formatter_validate "x%%(a)%" = true.
Proof. repeat split. Qed.

Example getLogger_examples :
  let acquire names := foldl (fun s name => (getLogger name s).2) initial_logging names in
  (* a child first: a placeholder stands in for the parent *)
  loggerDict (acquire ["a.b"]) !! "a" = Some (PlaceHolder ["a.b"]) /\
  parent (logger_at (acquire ["a.b"]) (NamedLogger "a.b")) = Some RootLogger /\
  (* the parent afterwards: the child is handed over to it *)
  parent (logger_at (acquire ["a.b"; "a"]) (NamedLogger "a.b")) = Some (NamedLogger "a") /\
  parent (logger_at (acquire ["a.b"; "a"]) (NamedLogger "a")) = Some RootLogger /\
  (* a name the root's name begins with: the child stays with the root *)
  parent (logger_at (acquire ["r.x"; "r"]) (NamedLogger "r.x")) = Some RootLogger /\
  (* two dots in a row: the prefix before the second dot is passed over *)
  loggerDict (acquire ["a..b"]) !! "a." = Some (PlaceHolder ["a..b"]) /\
  loggerDict (acquire ["a..b"]) !! "a" = None /\
  (* the names of the root logger are not registered *)
  loggerDict (acquire [EmptyString; "root"]) = ∅.
Proof. vm_compute. repeat split. Qed.

Lemma removeHandler_head (h : Handler) (l : Logger) (hs : list Handler) :
  handlers l = h :: hs -> removeHandler h l = set_handlers hs l.
Proof.
  intros Hl. unfold removeHandler, handler_in. rewrite Hl. simpl.
  by rewrite Nat.eqb_refl.
Qed.

Lemma remove_handlers_fold (hs : list Handler) (s : logging_state) :
  handlers (root s) = hs ->
  fold_right (fun h rest => bind (update_logger RootLogger (removeHandler h)) (fun _ => rest))
    (ret tt) hs s
  = (Ok tt, root_cleared s).
Proof.
  unfold root_cleared.
  revert s. induction hs as [|h hs IH]; intros [[lv pr hs0 pa] ld n] Hhs; simpl in *.
  - by subst.
  - subst hs0. unfold bind at 1. simpl.
    rewrite (removeHandler_head h _ hs) by done.
    rewrite IH by done. done.
Qed.

Lemma remove_root_handlers_run (s : logging_state) :
  remove_root_handlers s = (Ok tt, root_cleared s).
Proof. unfold remove_root_handlers, bind. simpl. by apply remove_handlers_fold. Qed.

Ltac neq_ids :=
  repeat match goal with
    | |- context [Nat.eqb ?a ?a] => rewrite (Nat.eqb_refl a)
    | |- context [Nat.eqb ?a ?b] =>
        rewrite (proj2 (Nat.eqb_neq a b)) by lia
    end.

(** [get_logger] once the template and the verbosity are known, outside
    Windows: what it returns or raises, and the state it leaves. *)
Lemma get_logger_run (p : process_env) (a : get_logger_args) (s : logging_state)
    (fmt_str : string) (v : LogVerbosity) :
  resolve_fmt_str a = Ok fmt_str ->
  resolve_verbosity p = Ok v ->
  os_name p <> "nt" ->
  get_logger p a s = (get_logger_result a fmt_str s, get_logger_state p a fmt_str v s).
Proof.
  intros Hfmt Hv Hos.
  pose proof (resolve_fmt_str_nonempty a fmt_str Hfmt) as Hne.
  unfold get_logger, resolve_fmt_str in *.
  unfold bind at 1. unfold lift at 1. rewrite Hfmt.
  unfold bind at 1. unfold lift at 1. rewrite Hv.
  rewrite bool_decide_eq_false_2 by done.
  unfold bind at 1. rewrite remove_root_handlers_run.
  rewrite !Formatter_init_timed, !(Formatter_init_eq _ _ Hne).
  unfold get_logger_result, get_logger_state, logger_named, attached, handlers_made,
    attached, interrupted, assembled, getLogger.
  destruct (names_root (arg_context a)) eqn:Hroot.
  - destruct s as [rt ld n]. simpl.
    destruct (Formatter_validate fmt_str);
      unfold bind, ret, lift, update_logger, read_logger, add, new_handler; simpl;
      destruct (arg_log_event a), (arg_profiling a), (arg_sse a); simpl;
      repeat case_bool_decide; simpl;
      unfold addHandler, handler_in; repeat (progress (simpl; neq_ids)); done.
  - destruct (Manager_getLogger_run (arg_context a) (root_cleared s)) as (d & Hrun & Hd & _).
    unfold bind at 1. rewrite Hrun. cbn [fst snd].
    apply registered_settings_Some in Hd as (l1 & Hl1 & _).
    destruct s as [rt ld n]. cbn [root_cleared root loggerDict next_id] in *.
    unfold bind, ret, lift, add, update_logger, read_logger, new_handler, put_logger,
      logger_at, set_loggerDict; simpl.
    rewrite !Hl1. simpl. rewrite !lookup_insert_eq. simpl.
    destruct (handlers l1) as [|h0 hs0] eqn:Hh0; simpl; [|done].
    rewrite !lookup_insert_eq. simpl.
    destruct (Formatter_validate fmt_str);
      destruct (arg_log_event a), (arg_profiling a), (arg_sse a); simpl;
      repeat case_bool_decide; simpl;
      rewrite ?lookup_insert_eq; simpl;
      unfold addHandler, handler_in;
      repeat (progress (simpl; neq_ids; rewrite ?lookup_insert_eq));
      rewrite ?insert_insert_eq; done.
Qed.

Lemma settings_logger_at (s : logging_state) (name : string) :
  settings (logger_at s (NamedLogger name))
  = default (settings fresh_logger) (registered_settings (loggerDict s) name).
Proof.
  unfold logger_at, registered_settings.
  by destruct (loggerDict s !! name) as [[l|ph]|].
Qed.

(** [logging.getLogger] returns the logger of the name; the settings of that
    logger and of every other are as before, and so is the root logger. *)
Lemma getLogger_run (name : string) (s : logging_state) :
  exists d,
    getLogger name s
    = (Ok (logger_named name),
       {| root := root s; loggerDict := d; next_id := next_id s |}) /\
    (names_root name = true -> d = loggerDict s) /\
    (names_root name = false ->
     registered_settings d name = Some (settings (logger_at s (NamedLogger name)))) /\
    (forall k, k <> name -> registered_settings d k = registered_settings (loggerDict s) k).
Proof.
  unfold getLogger, logger_named. destruct (names_root name) eqn:Hroot.
  - exists (loggerDict s). by destruct s.
  - destruct (Manager_getLogger_run name s) as (d & Hrun & Hname & Hother).
    exists d. split; [done|]. split; [done|]. split; [|done].
    intros _. by rewrite settings_logger_at.
Qed.

(** What that state and that result say of the loggers.  The call
    assembles when the logger it gets has no sink; the root logger never has
    one by then. *)
Lemma get_logger_state_spec (p : process_env) (a : get_logger_args)
    (fmt_str : string) (v : LogVerbosity) (s : logging_state) :
  let s' := get_logger_state p a fmt_str v s in
  let logger := logger_named (arg_context a) in
  let assembles :=
    names_root (arg_context a)
    || bool_decide (handlers (logger_at s (NamedLogger (arg_context a))) = []) in
  get_logger_result a fmt_str s
  = (if assembles && interrupted a fmt_str
     then Raise ValueError else Ok (PyLogger logger)) /\
  settings (logger_at s' logger)
  = (if assembles
     then (value v, false, attached p a fmt_str v (next_id s))
     else (logger_level (logger_at s logger), false, handlers (logger_at s logger))) /\
  next_id s'
  = (if assembles then (handlers_made p a fmt_str v + next_id s)%nat else next_id s) /\
  (if names_root (arg_context a) then loggerDict s' = loggerDict s
   else root s' = set_handlers [] (root s)) /\
  (forall k, k <> arg_context a ->
             registered_settings (loggerDict s') k = registered_settings (loggerDict s) k).
Proof.
  cbv zeta. unfold get_logger_result, get_logger_state.
  destruct (getLogger_run (arg_context a) (root_cleared s)) as (d & -> & Hd0 & Hd & Hother).
  cbn [fst snd]. unfold logger_named in *.
  destruct (names_root (arg_context a)) eqn:Hroot.
  - rewrite (Hd0 eq_refl). cbn [orb andb logger_at root root_cleared set_handlers handlers].
    cbn [put_logger logger_at root loggerDict next_id settings logger_level propagate handlers].
    by destruct (interrupted a fmt_str).
  - cbn [orb]. specialize (Hd eq_refl). clear Hd0.
    cbn [root_cleared root loggerDict next_id] in *.
    assert (Hsame : settings (logger_at (root_cleared s) (NamedLogger (arg_context a)))
                    = settings (logger_at s (NamedLogger (arg_context a)))) by done.
    rewrite Hsame in Hd. clear Hsame.
    apply registered_settings_Some in Hd as (l1 & Hl1 & Hs1).
    cbn [logger_at loggerDict]. rewrite Hl1.
    injection Hs1 as Hlevel Hprop Hhandlers. rewrite Hhandlers.
    cbn [logger_at] in *.
    destruct (handlers
                match loggerDict s !! arg_context a with
                | Some (LoggerEntry lg) => lg
                | _ => fresh_logger
                end) as [|h0 hs0] eqn:Hh.
    + rewrite bool_decide_eq_true_2 by done. cbn [andb].
      cbn [put_logger set_loggerDict loggerDict root next_id].
      rewrite lookup_insert_eq. cbn [settings logger_level propagate handlers].
      repeat split; try done.
      intros k Hk. rewrite registered_settings_insert_ne by done. by apply Hother.
    + rewrite bool_decide_eq_false_2 by done. cbn [andb].
      cbn [put_logger set_loggerDict loggerDict root next_id].
      rewrite lookup_insert_eq.
      unfold settings, set_propagate. cbn [logger_level propagate handlers].
      rewrite Hlevel, Hhandlers.
      repeat split; try done.
      intros k Hk. rewrite registered_settings_insert_ne by done. by apply Hother.
Qed.

(** What [get_logger] does outside Windows once the template and the
    verbosity are known, told by what can be seen of the loggers. *)
Lemma get_logger_spec (p : process_env) (a : get_logger_args) (s : logging_state)
    (fmt_str : string) (v : LogVerbosity) :
  os_name p <> "nt" ->
  resolve_fmt_str a = Ok fmt_str ->
  resolve_verbosity p = Ok v ->
  let s' := (get_logger p a s).2 in
  let logger := logger_named (arg_context a) in
  let assembles :=
    names_root (arg_context a)
    || bool_decide (handlers (logger_at s (NamedLogger (arg_context a))) = []) in
  (get_logger p a s).1
  = (if assembles && interrupted a fmt_str
     then Raise ValueError else Ok (PyLogger logger)) /\
  settings (logger_at s' logger)
  = (if assembles
     then (value v, false, attached p a fmt_str v (next_id s))
     else (logger_level (logger_at s logger), false, handlers (logger_at s logger))) /\
  next_id s'
  = (if assembles then (handlers_made p a fmt_str v + next_id s)%nat else next_id s) /\
  (if names_root (arg_context a) then loggerDict s' = loggerDict s
   else root s' = set_handlers [] (root s)) /\
  (forall k, k <> arg_context a ->
             registered_settings (loggerDict s') k = registered_settings (loggerDict s) k).
Proof.
  intros Hos Hfmt Hv. cbv zeta.
  rewrite (get_logger_run p a s fmt_str v Hfmt Hv Hos). cbn [fst snd].
  apply get_logger_state_spec.
Qed.

(** A call that finds no sink on the logger of the name. *)
Lemma get_logger_assembles (p : process_env) (a : get_logger_args) (s : logging_state)
    (fmt_str : string) (v : LogVerbosity) :
  os_name p <> "nt" ->
  resolve_fmt_str a = Ok fmt_str ->
  resolve_verbosity p = Ok v ->
  handlers (logger_at s (logger_named (arg_context a))) = [] ->
  let s' := (get_logger p a s).2 in
  let logger := logger_named (arg_context a) in
  (get_logger p a s).1
  = (if interrupted a fmt_str then Raise ValueError else Ok (PyLogger logger)) /\
  logger_level (logger_at s' logger) = value v /\
  propagate (logger_at s' logger) = false /\
  handlers (logger_at s' logger) = attached p a fmt_str v (next_id s) /\
  next_id s' = (handlers_made p a fmt_str v + next_id s)%nat.
Proof.
  intros Hos Hfmt Hv Hfresh. cbv zeta.
  destruct (get_logger_spec p a s fmt_str v Hos Hfmt Hv) as (Hres & Hset & Hnext & _).
  cbv zeta in *. unfold logger_named in *.
  destruct (names_root (arg_context a)); cbn [orb andb] in *.
  - by injection Hset as Hlevel Hprop Hsinks.
  - rewrite bool_decide_eq_true_2 in * by done. cbn [andb] in *.
    by injection Hset as Hlevel Hprop Hsinks.
Qed.

Lemma attached_valid p a fmt_str v n :
  Formatter_validate fmt_str = true ->
  interrupted a fmt_str = false /\
  attached p a fmt_str v n = assembled p a fmt_str v n /\
  handlers_made p a fmt_str v = length (assembled p a fmt_str v n).
Proof.
  intros Hvalid. unfold handlers_made, attached, interrupted. rewrite Hvalid. cbn [negb andb].
  repeat split. unfold assembled.
  destruct (arg_log_event a), (arg_profiling a), (arg_sse a); simpl;
    repeat case_bool_decide; done.
Qed.

Lemma assembled_nonempty p a fmt_str v n : assembled p a fmt_str v n <> [].
Proof.
  unfold assembled.
  destruct (arg_log_event a), (arg_profiling a), (arg_sse a); simpl; done.
Qed.

Lemma attached_nonempty p a fmt_str v n :
  interrupted a fmt_str = false -> attached p a fmt_str v n <> [].
Proof. unfold attached. intros ->. apply assembled_nonempty. Qed.

Lemma attached_ids p a fmt_str v n :
  hid <$> attached p a fmt_str v n = seq n (length (attached p a fmt_str v n)).
Proof.
  unfold attached, assembled.
  destruct (interrupted a fmt_str), (arg_log_event a), (arg_profiling a), (arg_sse a);
    simpl; repeat case_bool_decide; done.
Qed.

Lemma attached_elem_ids p a fmt_str v n h :
  h ∈ attached p a fmt_str v n -> (n <= hid h)%nat.
Proof.
  intros Hh. apply (list_elem_of_fmap_2 hid) in Hh.
  rewrite attached_ids in Hh. apply elem_of_seq in Hh. lia.
Qed.

Lemma handlers_made_attached p a fmt_str v n :
  (length (attached p a fmt_str v n) <= handlers_made p a fmt_str v)%nat /\
  (interrupted a fmt_str = false ->
   handlers_made p a fmt_str v = length (attached p a fmt_str v n)) /\
  (length (attached p a fmt_str v n) <= 4)%nat.
Proof.
  unfold handlers_made, attached, assembled.
  destruct (interrupted a fmt_str), (arg_log_event a), (arg_profiling a), (arg_sse a);
    simpl; repeat case_bool_decide; simpl; repeat split; (lia || done).
Qed.

Lemma handler_in_false h hs :
  (forall h', h' ∈ hs -> hid h' <> hid h) -> handler_in h hs = false.
Proof.
  intros Hne. unfold handler_in. apply not_true_iff_false.
  rewrite existsb_exists. intros (h' & Hin & Heq).
  apply Nat.eqb_eq in Heq. apply (Hne h'); [by apply list_elem_of_In|done].
Qed.

(** *** The shape of the registry *)

Lemma registry_shape_insert_logger pending d k l :
  registry_shape pending d ->
  (pending <> Some k -> is_Some (parent l)) ->
  (exists l0, d !! k = Some (LoggerEntry l0)) ->
  registry_shape pending (<[k := LoggerEntry l]> d).
Proof.
  intros [Hpar Hph] Hl [l0 Hl0]. split.
  - intros k' l' Hk' Hpend. destruct (decide (k = k')) as [<-|Hne].
    + rewrite lookup_insert_eq in Hk'. injection Hk' as <-. by apply Hl.
    + rewrite lookup_insert_ne in Hk' by done. by eapply Hpar.
  - intros k' ph c Hk' Hc. destruct (decide (k = k')) as [<-|Hne].
    + by rewrite lookup_insert_eq in Hk'.
    + rewrite lookup_insert_ne in Hk' by done.
      destruct (Hph k' ph c Hk' Hc) as [lc Hlc].
      destruct (decide (k = c)) as [<-|Hnec].
      * rewrite lookup_insert_eq. eauto.
      * rewrite lookup_insert_ne by done. eauto.
Qed.

Lemma registry_shape_insert_placeholder pending d k ph :
  registry_shape pending d ->
  (forall l, d !! k <> Some (LoggerEntry l)) ->
  (forall c, c ∈ ph -> exists l, d !! c = Some (LoggerEntry l)) ->
  registry_shape pending (<[k := PlaceHolder ph]> d).
Proof.
  intros [Hpar Hph] Hk Hchildren. split.
  - intros k' l' Hk' Hpend. destruct (decide (k = k')) as [<-|Hne].
    + by rewrite lookup_insert_eq in Hk'.
    + rewrite lookup_insert_ne in Hk' by done. by eapply Hpar.
  - intros k' ph' c Hk' Hc.
    assert (Hc' : exists l, d !! c = Some (LoggerEntry l)).
    { destruct (decide (k = k')) as [<-|Hne].
      - rewrite lookup_insert_eq in Hk'. injection Hk' as <-. by apply Hchildren.
      - rewrite lookup_insert_ne in Hk' by done. by eapply Hph. }
    destruct Hc' as [lc Hlc]. destruct (decide (k = c)) as [<-|Hnec].
    + by apply Hk in Hlc.
    + rewrite lookup_insert_ne by done. eauto.
Qed.

Lemma _fixupParents_loop_shape pending alogger cuts d la :
  registry_shape pending d ->
  d !! alogger = Some (LoggerEntry la) ->
  registry_shape pending (_fixupParents_loop alogger cuts d).1 /\
  (exists la', (_fixupParents_loop alogger cuts d).1 !! alogger = Some (LoggerEntry la')) .
Proof.
  revert d la. induction cuts as [|i cuts IH]; intros d la Hd Ha; simpl; [eauto|].
  destruct (d !! substring 0 i alogger) as [[l|ph]|] eqn:Hsub; simpl; [eauto| |].
  - assert (Hne : substring 0 i alogger <> alogger) by (intros Heq; congruence).
    eapply IH.
    + apply registry_shape_insert_placeholder; [done|congruence|].
      intros c Hc. unfold PlaceHolder_append in Hc. case_bool_decide.
      * destruct Hd as [_ Hph]. by eapply Hph.
      * apply elem_of_app in Hc as [Hc|Hc].
        -- destruct Hd as [_ Hph]. by eapply Hph.
        -- apply list_elem_of_singleton in Hc as ->. eauto.
    + by rewrite lookup_insert_ne.
  - assert (Hne : substring 0 i alogger <> alogger) by (intros Heq; congruence).
    eapply IH.
    + apply registry_shape_insert_placeholder; [done|congruence|].
      intros c Hc. apply list_elem_of_singleton in Hc as ->. eauto.
    + by rewrite lookup_insert_ne.
Qed.

Lemma _fixupChildren_step_shape alogger d c la :
  registry_shape (Some alogger) d ->
  d !! alogger = Some (LoggerEntry la) ->
  registry_shape (Some alogger) (_fixupChildren_step alogger d c) /\
  exists la', _fixupChildren_step alogger d c !! alogger = Some (LoggerEntry la').
Proof.
  intros Hd Ha. unfold _fixupChildren_step.
  destruct (d !! c) as [[lc|ph]|] eqn:Hc; [|eauto|eauto].
  destruct (parent lc) as [pr|]; [|eauto].
  case_bool_decide; [eauto|]. rewrite Ha.
  assert (H1 : registry_shape (Some alogger) (<[alogger:=LoggerEntry (set_parent pr la)]> d)).
  { apply registry_shape_insert_logger; [done|by eauto|eauto]. }
  split.
  - apply registry_shape_insert_logger; [done|by eauto|].
    destruct (decide (alogger = c)) as [<-|Hne].
    + rewrite lookup_insert_eq. eauto.
    + rewrite lookup_insert_ne by done. eauto.
  - destruct (decide (c = alogger)) as [->|Hne].
    + rewrite lookup_insert_eq. eauto.
    + rewrite lookup_insert_ne by done. rewrite lookup_insert_eq. eauto.
Qed.

Lemma _fixupChildren_shape alogger ph d la :
  registry_shape (Some alogger) d ->
  d !! alogger = Some (LoggerEntry la) ->
  registry_shape (Some alogger) (foldl (_fixupChildren_step alogger) d ph) /\
  exists la', foldl (_fixupChildren_step alogger) d ph !! alogger = Some (LoggerEntry la').
Proof.
  revert d la. induction ph as [|c ph IH]; intros d la Hd Ha; simpl; [eauto|].
  destruct (_fixupChildren_step_shape alogger d c la Hd Ha) as (Hd' & la' & Ha').
  by eapply IH.
Qed.

Lemma registry_shape_pending pending d :
  registry_shape None d -> registry_shape pending d.
Proof. intros [Hpar Hph]. split; [|done]. intros k l Hk _. by eapply Hpar. Qed.

Lemma _fixupParents_shape alogger s la :
  registry_shape (Some alogger) (loggerDict s) ->
  loggerDict s !! alogger = Some (LoggerEntry la) ->
  registry_wf (_fixupParents alogger s).2.
Proof.
  intros Hd Ha. unfold _fixupParents, registry_wf.
  destruct (_fixupParents_loop_shape (Some alogger) alogger
              (rfind_dots alogger (String.length alogger)) (loggerDict s) la Hd Ha)
    as (Hd' & la' & Ha').
  destruct (_fixupParents_loop _ _ _) as [d rv]. simpl in *.
  unfold update_logger, set_loggerDict. simpl. rewrite Ha'. simpl.
  destruct Hd' as [Hpar Hph]. split.
  - intros k l Hk _. destruct (decide (alogger = k)) as [<-|Hne].
    + rewrite lookup_insert_eq in Hk. injection Hk as <-. simpl. eauto.
    + rewrite lookup_insert_ne in Hk by done. eapply Hpar; [done|congruence].
  - intros k ph c Hk Hc. destruct (decide (alogger = k)) as [<-|Hne].
    + by rewrite lookup_insert_eq in Hk.
    + rewrite lookup_insert_ne in Hk by done.
      destruct (Hph k ph c Hk Hc) as [lc Hlc].
      destruct (decide (alogger = c)) as [<-|Hnec].
      * rewrite lookup_insert_eq. eauto.
      * rewrite lookup_insert_ne by done. eauto.
Qed.

Lemma registry_shape_register name d :
  registry_shape None d ->
  (forall l, d !! name <> Some (LoggerEntry l)) ->
  registry_shape (Some name) (<[name := LoggerEntry fresh_logger]> d).
Proof.
  intros [Hpar Hph] Hname. split.
  - intros k l Hk Hpend. destruct (decide (name = k)) as [<-|Hne]; [done|].
    rewrite lookup_insert_ne in Hk by done. by eapply Hpar.
  - intros k ph c Hk Hc. destruct (decide (name = k)) as [<-|Hne].
    + by rewrite lookup_insert_eq in Hk.
    + rewrite lookup_insert_ne in Hk by done.
      destruct (Hph k ph c Hk Hc) as [lc Hlc].
      destruct (decide (name = c)) as [<-|Hnec].
      * rewrite lookup_insert_eq. eauto.
      * rewrite lookup_insert_ne by done. eauto.
Qed.

(** [logging.getLogger] keeps the registry in shape. *)
Lemma getLogger_wf (name : string) (s : logging_state) :
  registry_wf s -> registry_wf (getLogger name s).2.
Proof.
  intros Hwf. unfold getLogger. destruct (names_root name); [done|].
  unfold Manager_getLogger.
  destruct (loggerDict s !! name) as [[l|ph]|] eqn:Hname; [done| |].
  - unfold bind at 1. unfold modify at 1.
    unfold bind at 1. unfold _fixupChildren, modify at 1.
    unfold bind at 1.
    pose proof (registry_shape_register name (loggerDict s) Hwf
                  ltac:(intros l; congruence)) as H1.
    destruct (_fixupChildren_shape name ph _ fresh_logger H1 (lookup_insert_eq _ _ _))
      as (H2 & la & Ha).
    pose proof (_fixupParents_shape name
                  (set_loggerDict (fun d => foldl (_fixupChildren_step name) d ph)
                     (set_loggerDict <[name := LoggerEntry fresh_logger]> s))
                  la H2 Ha) as H3.
    by destruct (_fixupParents name _) as [[[]|e] s'].
  - unfold bind at 1. unfold modify at 1. unfold bind at 1.
    pose proof (registry_shape_register name (loggerDict s) Hwf
                  ltac:(intros l; congruence)) as H1.
    pose proof (_fixupParents_shape name
                  (set_loggerDict <[name := LoggerEntry fresh_logger]> s)
                  fresh_logger H1 (lookup_insert_eq _ _ _)) as H3.
    by destruct (_fixupParents name _) as [[[]|e] s'].
Qed.

Lemma put_logger_wf (logger : logger_ref) (lg : Logger) (s : logging_state) (n : nat) :
  registry_wf s ->
  is_Some (parent lg) ->
  (forall name, logger = NamedLogger name ->
                exists l0, loggerDict s !! name = Some (LoggerEntry l0)) ->
  registry_wf (put_logger logger lg
                 {| root := root s; loggerDict := loggerDict s; next_id := n |}).
Proof.
  intros Hwf Hlg Hreg. destruct logger as [|name]; [done|].
  unfold registry_wf. simpl.
  apply registry_shape_insert_logger; [done|done|by apply Hreg].
Qed.

(** [get_logger] keeps the registry in shape, however it ends. *)
Lemma get_logger_wf (p : process_env) (a : get_logger_args) (s : logging_state) :
  registry_wf s -> registry_wf (get_logger p a s).2.
Proof.
  intros Hwf.
  destruct (resolve_fmt_str a) as [fmt_str|e] eqn:Hfmt.
  2:{ unfold get_logger, resolve_fmt_str in *. unfold bind at 1. unfold lift at 1.
      by rewrite Hfmt. }
  destruct (resolve_verbosity p) as [v|e] eqn:Hv.
  2:{ unfold get_logger, resolve_fmt_str in *. unfold bind at 1. unfold lift at 1.
      rewrite Hfmt. unfold bind at 1. unfold lift at 1. by rewrite Hv. }
  destruct (decide (os_name p = "nt")) as [Hos|Hos].
  { unfold get_logger, resolve_fmt_str in *. unfold bind at 1. unfold lift at 1.
    rewrite Hfmt. unfold bind at 1. unfold lift at 1. rewrite Hv.
    by rewrite bool_decide_eq_true_2. }
  rewrite (get_logger_run p a s fmt_str v Hfmt Hv Hos). cbn [snd].
  unfold get_logger_state.
  pose proof (getLogger_wf (arg_context a) (root_cleared s) Hwf) as H1.
  destruct (getLogger_run (arg_context a) (root_cleared s)) as (d & Hrun & _ & Hd & _).
  rewrite Hrun in *. cbn [fst snd] in *. unfold logger_named in *.
  destruct (names_root (arg_context a)) eqn:Hroot.
  - by destruct (handlers _).
  - apply registered_settings_Some in Hd as (l1 & Hl1 & _); [|done].
    cbn [logger_at loggerDict]. rewrite Hl1.
    assert (Hpar : is_Some (parent l1)).
    { destruct H1 as [Hpar _]. by eapply Hpar. }
    destruct (handlers l1).
    + apply (put_logger_wf (NamedLogger (arg_context a)) _
               {| root := set_handlers [] (root s); loggerDict := d; next_id := next_id s |});
        [done|done|]. intros name [= <-]. eauto.
    + apply (put_logger_wf (NamedLogger (arg_context a)) _
               {| root := set_handlers [] (root s); loggerDict := d; next_id := next_id s |});
        [done|done|]. intros name [= <-]. eauto.
Qed.

Lemma initial_logging_wf : registry_wf initial_logging.
Proof.
  split; [intros k l Hk|intros k ph c Hk]; simpl in Hk; by rewrite lookup_empty in Hk.
Qed.

(** *** What a call of [get_logger] leaves *)



(** A call that returns a logger had a template and a verbosity. *)
Lemma get_logger_Ok_resolves (p : process_env) (a : get_logger_args)
    (s : logging_state) (lg : logger_handle) :
  (get_logger p a s).1 = Ok lg ->
  exists fmt_str v, resolve_fmt_str a = Ok fmt_str /\ resolve_verbosity p = Ok v.
Proof.
  unfold get_logger, resolve_fmt_str.
  unfold bind at 1. unfold lift at 1.
  destruct (if falsy (arg_fmt_str a) then _ else _) as [fmt_str|e]; [|discriminate].
  unfold bind at 1. unfold lift at 1.
  destruct (resolve_verbosity p) as [v|e]; [|discriminate]. eauto.
Qed.

(** C5 (as amended): for a context name that does not name the root
    logger, when a call of [get_logger] with that name returns a logger, a
    second call with that name (outside Windows, whatever the other
    arguments) returns the same logger, and its sinks after the second call
    are those after the first: none added, none replaced. *)
Theorem get_logger_idempotent_per_name (p p' : process_env) (a a' : get_logger_args)
    (s : logging_state) (lg : logger_handle) (fmt_str' : string) (v' : LogVerbosity) :
  names_root (arg_context a) = false ->
  arg_context a' = arg_context a ->
  os_name p <> "nt" -> os_name p' <> "nt" ->
  (get_logger p a s).1 = Ok lg ->
  resolve_fmt_str a' = Ok fmt_str' -> resolve_verbosity p' = Ok v' ->
  let logger := NamedLogger (arg_context a) in
  let s1 := (get_logger p a s).2 in
  let s2 := (get_logger p' a' s1).2 in
  lg = PyLogger logger /\
  (get_logger p' a' s1).1 = Ok (PyLogger logger) /\
  handlers (logger_at s1 logger) <> [] /\
  handlers (logger_at s2 logger) = handlers (logger_at s1 logger).
Proof.
  intros Hroot Hctx Hos Hos' Hlg Hfmt' Hv'. cbv zeta.
  destruct (get_logger_Ok_resolves p a s lg Hlg) as (fmt_str & v & Hfmt & Hv).
  destruct (get_logger_spec p a s fmt_str v Hos Hfmt Hv) as (Hres1 & Hset1 & _).
  destruct (get_logger_spec p' a' (get_logger p a s).2 fmt_str' v' Hos' Hfmt' Hv')
    as (Hres2 & Hset2 & _).
  cbv zeta in *. unfold logger_named, settings in *.
  rewrite Hctx in *. rewrite Hroot in *. cbn [orb] in *.
  rewrite Hlg in Hres1.
  assert (Hne : handlers (logger_at (get_logger p a s).2 (NamedLogger (arg_context a)))
                <> []).
  { destruct (decide (handlers (logger_at s (NamedLogger (arg_context a))) = []))
      as [Hold|Hold].
    - rewrite bool_decide_eq_true_2 in Hset1, Hres1 by done. cbn [andb] in Hres1.
      destruct (interrupted a fmt_str) eqn:Hgo; [discriminate|].
      injection Hset1 as _ _ Hs1. intros Hnil.
      apply (attached_nonempty p a fmt_str v (next_id s) Hgo).
      exact (eq_trans (eq_sym Hs1) Hnil).
    - rewrite bool_decide_eq_false_2 in Hset1 by done.
      injection Hset1 as _ _ Hs1. intros Hnil. apply Hold.
      exact (eq_trans (eq_sym Hs1) Hnil). }
  rewrite (bool_decide_eq_false_2 _ Hne) in Hres2, Hset2. cbn [andb] in *.
  injection Hset2 as _ _ Hsinks.
  split; [|done]. destruct (_ && _); [discriminate|]. by injection Hres1.
Qed.

Lemma get_logger_idempotent_per_name_witness :
  let p := posix ∅ in
  let a := default_args "test" in
  let a' := {| arg_context := "test"; arg_context_len := 10; arg_profiling := true;
               arg_sse := true; arg_fmt_str := None; arg_log_event := Some 7%nat |} in
  let s1 := (get_logger p a initial_logging).2 in
  let s2 := (get_logger p a' s1).2 in
  names_root (arg_context a) = false /\
  (get_logger p a initial_logging).1 = Ok (PyLogger (NamedLogger "test")) /\
  (get_logger p a' s1).1 = Ok (PyLogger (NamedLogger "test")) /\
  handlers (logger_at s1 (NamedLogger "test")) <> [] /\
  handlers (logger_at s2 (NamedLogger "test")) = handlers (logger_at s1 (NamedLogger "test")).
Proof.
  split; [reflexivity|]. split; [reflexivity|].
  exact (proj2 (get_logger_idempotent_per_name (posix ∅) (posix ∅) (default_args "test")
           {| arg_context := "test"; arg_context_len := 10; arg_profiling := true;
              arg_sse := true; arg_fmt_str := None; arg_log_event := Some 7%nat |}
           initial_logging _ _ INFO
           eq_refl eq_refl ltac:(discriminate) ltac:(discriminate)
           eq_refl eq_refl eq_refl)).
Defined.

(** C5 (as stated) fails: for the empty context name, which names the root
    logger, every call detaches the sinks and builds new ones; the sink after
    the second call is not the one after the first, and with profiling=True
    in the second call it is a sink of another kind. *)
Lemma get_logger_twice_on_root_name :
  let p := posix ∅ in
  let s1 := (get_logger p (default_args EmptyString) initial_logging).2 in
  let s2 := (get_logger p (default_args EmptyString) s1).2 in
  let s2' := (get_logger p {| arg_context := EmptyString; arg_context_len := 10;
                              arg_profiling := true; arg_sse := false;
                              arg_fmt_str := None; arg_log_event := None |} s1).2 in
  (get_logger p (default_args EmptyString) initial_logging).1 = Ok (PyLogger RootLogger) /\
  (get_logger p (default_args EmptyString) s1).1 = Ok (PyLogger RootLogger) /\
  hid <$> handlers (logger_at s1 RootLogger) = [0%nat] /\
  hid <$> handlers (logger_at s2 RootLogger) = [1%nat] /\
  handlers (logger_at s2 RootLogger) <> handlers (logger_at s1 RootLogger) /\
  kind <$> handlers (logger_at s1 RootLogger) = [StreamHandler stdout] /\
  kind <$> handlers (logger_at s2' RootLogger)
  = [FileHandler "jina-profile-20200401120000.json" true].
Proof.
  vm_compute. repeat split. intros [=].
Qed.

(** C9 (as amended): outside Windows, every call of [get_logger] that gets
    as far as the registry (the template and JINA_VERBOSITY resolve) empties
    the root logger's list of sinks, whether the call then returns a logger
    or stops with ValueError at a template the host refuses, and also when
    the named logger already has sinks and is returned with them: afterwards
    the root logger has no sink, or, when the context names the root logger
    itself, only the sinks this call attached; no sink attached to the root
    logger before the call is attached to it after. *)
Theorem get_logger_clears_root_handlers (p : process_env) (a : get_logger_args)
    (s : logging_state) (fmt_str : string) (v : LogVerbosity) :
  os_name p <> "nt" ->
  resolve_fmt_str a = Ok fmt_str ->
  resolve_verbosity p = Ok v ->
  let s' := (get_logger p a s).2 in
  ((get_logger p a s).1 = Ok (PyLogger (logger_named (arg_context a))) \/
   (get_logger p a s).1 = Raise ValueError) /\
  handlers (root s') =
    (if names_root (arg_context a) then attached p a fmt_str v (next_id s) else []) /\
  (forall h, h ∈ handlers (root s) -> (hid h < next_id s)%nat ->
             handler_in h (handlers (root s')) = false) /\
  (names_root (arg_context a) = false ->
   forall h0 hs, handlers (logger_at s (NamedLogger (arg_context a))) = h0 :: hs ->
     (get_logger p a s).1 = Ok (PyLogger (NamedLogger (arg_context a))) /\
     handlers (logger_at s' (NamedLogger (arg_context a))) = h0 :: hs).
Proof.
  intros Hos Hfmt Hv. cbv zeta.
  destruct (get_logger_spec p a s fmt_str v Hos Hfmt Hv)
    as (Hres & Hset & _ & Hroot & _).
  cbv zeta in *. unfold logger_named, settings in *.
  assert (Hsinks : handlers (root (get_logger p a s).2) =
                   if names_root (arg_context a)
                   then attached p a fmt_str v (next_id s) else []).
  { destruct (names_root (arg_context a)); cbn [orb logger_at] in *.
    - by injection Hset as _ _ Hs.
    - by rewrite Hroot. }
  split; [|split; [done|split]].
  - rewrite Hres. destruct (_ && _); auto.
  - intros h Hh Hid. rewrite Hsinks. apply handler_in_false.
    intros h' Hh'. destruct (names_root (arg_context a)).
    + apply attached_elem_ids in Hh'. lia.
    + by apply elem_of_nil in Hh'.
  - intros Hname h0 hs Hold. rewrite Hname in *. cbn [orb] in *.
    rewrite Hold in *. rewrite bool_decide_eq_false_2 in * by done.
    cbn [andb] in *. split; [done|]. by injection Hset as _ _ Hs.
Qed.

Lemma get_logger_clears_root_handlers_witness :
  let p := posix ∅ in
  let a := default_args "test" in
  let s' := (get_logger p a logging_with_root_sink).2 in
  os_name p <> "nt" /\
  handlers (root logging_with_root_sink) = [foreign_handler] /\
  handlers (root s') = [] /\
  handler_in foreign_handler (handlers (root s')) = false.
Proof.
  split; [discriminate|]. split; [reflexivity|].
  destruct (get_logger_clears_root_handlers (posix ∅) (default_args "test")
              logging_with_root_sink _ INFO ltac:(discriminate) eq_refl eq_refl)
    as (_ & Hroot & Hgone & _).
  split; [exact Hroot|].
  apply Hgone; [left | simpl; lia].
Defined.

(** C9 (as stated) fails: a call outside Windows that raises before it gets
    to the registry, here on a negative context_len without a template,
    leaves the root logger with the sink other code attached. *)
Lemma get_logger_error_keeps_root_handlers :
  let p := posix ∅ in
  let a := {| arg_context := "test"; arg_context_len := -1; arg_profiling := false;
              arg_sse := false; arg_fmt_str := None; arg_log_event := None |} in
  let s' := (get_logger p a logging_with_root_sink).2 in
  os_name p <> "nt" /\
  (get_logger p a logging_with_root_sink).1 = Raise ValueError /\
  handlers (root logging_with_root_sink) = [foreign_handler] /\
  handlers (root s') = [foreign_handler] /\
  handlers (root s') <> [].
Proof. vm_compute. repeat split; discriminate. Qed.

(** ** Part III: further properties of the code *)

(** *** More on stripping *)

Lemma chars_append s t : chars (s +:+ t) = chars s ++ chars t.
Proof. induction s as [|c s IH]; [done|]. rewrite append_cons. simpl. by rewrite IH. Qed.

Lemma lazy_to_final_suffix s rest :
  lazy_to_final s = Some rest ->
  chars rest `suffix_of` chars s /\ (String.length rest < String.length s)%nat.
Proof.
  revert rest. induction s as [|c s IH]; intros rest; simpl; [discriminate|].
  destruct (is_final c).
  - intros [= <-]. split; [|lia]. by apply suffix_cons_r.
  - destruct (is_dot c); [|discriminate].
    intros [Hs Hl]%IH. split; [|lia]. by apply suffix_cons_r.
Qed.

Lemma match_csi_suffix s rest :
  match_csi s = Some rest ->
  chars rest `suffix_of` chars s /\ (String.length rest < String.length s)%nat.
Proof.
  destruct s as [|c1 [|c2 s]]; simpl; try discriminate.
  destruct (_ && _); [|discriminate].
  intros [Hs Hl]%lazy_to_final_suffix. split; [|lia].
  by do 2 apply suffix_cons_r.
Qed.

(** X1: replacing the escape-sequence pattern by the empty string only ever
    deletes characters: the result is a subsequence of the input, and it is
    either the input itself or strictly shorter. *)
Theorem sub_csi_only_drops (s : string) :
  chars (sub_csi s) `sublist_of` chars s /\
  (sub_csi s = s \/ (String.length (sub_csi s) < String.length s)%nat).
Proof.
  funelim (sub_csi s).
  - match goal with IH : _ /\ _ |- _ => destruct IH as [IHsub IHlen] end.
    destruct (match_csi_suffix _ _ e) as [Hsuf Hlt]. split.
    + destruct Hsuf as [k ->]. by apply sublist_inserts_l.
    + right. destruct IHlen as [-> | ?]; lia.
  - split; [done|by left].
  - match goal with IH : _ /\ _ |- _ => destruct IH as [IHsub IHlen] end.
    split.
    + simpl. by apply sublist_skip.
    + destruct IHlen as [-> | ?]; [by left|right; simpl; lia].
Qed.

Lemma lazy_to_final_open params :
  csi_params params = true -> lazy_to_final params = None.
Proof.
  induction params as [|c params IH]; simpl; [done|].
  intros [[Hc Hd]%andb_true_iff Hp]%andb_true_iff.
  apply negb_true_iff in Hc. rewrite Hc, Hd. auto.
Qed.

Lemma lazy_to_final_line_feed params rest :
  csi_params params = true ->
  lazy_to_final (params +:+ String LF rest) = None.
Proof.
  induction params as [|c params IH]; simpl; [done|].
  intros [[Hc Hd]%andb_true_iff Hp]%andb_true_iff.
  apply negb_true_iff in Hc. rewrite Hc, Hd. auto.
Qed.

(** X2: a sequence that is opened and not closed is kept. ESC [ followed by
    parameter characters alone stays as it is; and because `.` does not match
    a line feed, a line feed before any final byte stops the match: ESC [, the
    parameters and the line feed are kept, and stripping goes on behind them. *)
Theorem sub_csi_keeps_open_sequence (params rest : string) :
  csi_params params = true ->
  no_esc params = true ->
  sub_csi (String ESC (String "[" params)) = String ESC (String "[" params) /\
  sub_csi (String ESC (String "[" (params +:+ String LF rest)))
  = String ESC (String "[" (params +:+ String LF (sub_csi rest))).
Proof.
  intros Hp He. split.
  - rewrite sub_csi_eq. simpl. rewrite (lazy_to_final_open _ Hp).
    f_equal. rewrite sub_csi_cons by done. f_equal. by apply sub_csi_no_esc.
  - rewrite sub_csi_eq. simpl. rewrite (lazy_to_final_line_feed _ _ Hp).
    f_equal. rewrite sub_csi_cons by done. f_equal.
    rewrite sub_csi_text by done. f_equal. by rewrite sub_csi_cons.
Qed.

Lemma sub_csi_keeps_open_sequence_witness :
  csi_params "1;2" = true /\ no_esc "1;2" = true /\
  sub_csi (String ESC "[1;2") = String ESC "[1;2" /\
  sub_csi (String ESC (String "[" ("1;2" +:+ String LF (String ESC "[0mx"))))
  = String ESC (String "[" ("1;2" +:+ String LF "x")).
Proof.
  split; [reflexivity|]. split; [reflexivity|].
  exact (sub_csi_keeps_open_sequence "1;2" (String ESC "[0mx") eq_refl eq_refl).
Defined.

(** X3: stripping once may leave an escape sequence. In ESC ESC [ p f [ p' f'
    the match starts at the second ESC (the first is not followed by [), so one
    pass leaves ESC [ p' f', itself a sequence, which a second pass removes:
    re.sub with this pattern is not idempotent. *)
Theorem sub_csi_not_idempotent (params params' : string) (final final' : ascii) :
  csi_params params = true -> is_final final = true ->
  csi_params params' = true -> no_esc params' = true -> is_final final' = true ->
  let s := String ESC (CSI params final +:+ String "[" (params' +:+ String final' EmptyString)) in
  sub_csi s = CSI params' final' /\
  sub_csi (sub_csi s) = EmptyString.
Proof.
  intros Hp Hf Hp' He' Hf'. cbv zeta.
  rewrite (sub_csi_nested _ _ _ _ Hp Hf He' Hf').
  split; [done|]. by apply sub_csi_CSI_alone.
Qed.

Lemma sub_csi_not_idempotent_witness :
  let s := String ESC (String ESC "[0m[0m") in
  csi_params "0" = true /\ is_final "m" = true /\ no_esc "0" = true /\
  sub_csi s = String ESC "[0m" /\ sub_csi (sub_csi s) = EmptyString.
Proof.
  do 3 (split; [reflexivity|]).
  exact (sub_csi_not_idempotent "0" "0" "m" "m" eq_refl eq_refl eq_refl eq_refl eq_refl).
Defined.

Lemma no_esc_visible ps : forallb piece_ok ps = true -> no_esc (visible ps) = true.
Proof.
  induction ps as [|[text|params final] ps IH]; simpl; [done| |].
  - intros [Ht Hps]%andb_true_iff. rewrite no_esc_append, Ht. auto.
  - intros [_ Hps]%andb_true_iff. auto.
Qed.

(** X4: on a text made of ESC-free texts and complete sequences
    ESC [ params final, one pass is enough: the result holds no ESC, and
    stripping it again changes nothing. *)
Theorem sub_csi_clean_on_sequences (ps : list piece) :
  forallb piece_ok ps = true ->
  no_esc (sub_csi (written ps)) = true /\
  sub_csi (sub_csi (written ps)) = sub_csi (written ps).
Proof.
  intros Hps. rewrite (sub_csi_written _ Hps).
  pose proof (no_esc_visible _ Hps) as Hv.
  split; [done|]. by apply sub_csi_no_esc.
Qed.

Lemma sub_csi_clean_on_sequences_witness :
  forallb piece_ok red_hello = true /\
  no_esc (sub_csi (String ESC "[31mhello" +:+ String ESC "[0m")) = true /\
  sub_csi (sub_csi (String ESC "[31mhello" +:+ String ESC "[0m"))
  = sub_csi (String ESC "[31mhello" +:+ String ESC "[0m").
Proof.
  split; [reflexivity|].
  exact (sub_csi_clean_on_sequences red_hello eq_refl).
Defined.

(** *** More on the fallback logger *)

(** X5: when the context and the message are made of ESC-free texts and
    complete sequences, the text an NTLogger method writes,
    <initial>:<context>:<message>, holds no ESC at all, and it is written
    exactly when the threshold is at or below the method's level. *)
Theorem NTLogger_writes_no_escape (cps mps : list piece) (thr lvl : LogVerbosity)
    (out : string) :
  forallb piece_ok cps = true ->
  forallb piece_ok mps = true ->
  let text := initial lvl +:+ ":" +:+ visible cps +:+ ":" +:+ visible mps in
  no_esc text = true /\
  NTLogger_method lvl (NTLogger_init (written cps) thr) (written mps) out
  = if bool_decide (rank thr <= rank lvl)%nat then out +:+ text else out.
Proof.
  intros Hc Hm. cbv zeta. split.
  - rewrite !no_esc_append, (no_esc_visible _ Hc), (no_esc_visible _ Hm).
    by destruct lvl.
  - rewrite NTLogger_method_eq. simpl. unfold _planify.
    by rewrite (sub_csi_written _ Hc), (sub_csi_written _ Hm).
Qed.

Lemma NTLogger_writes_no_escape_witness :
  forallb piece_ok red_hello = true /\
  forallb piece_ok [Txt "up"; Esc "1" "m"] = true /\
  no_esc "W:hello:up" = true /\
  NTLogger_warning
    (NTLogger_init (String ESC "[31mhello" +:+ String ESC "[0m") INFO)
    ("up" +:+ String ESC "[1m") "E:x:y"
  = "E:x:yW:hello:up".
Proof.
  do 2 (split; [reflexivity|]).
  exact (NTLogger_writes_no_escape red_hello [Txt "up"; Esc "1" "m"] INFO WARNING
           "E:x:y" eq_refl eq_refl).
Defined.

(** *** More on the formatters *)

Lemma bind_ret_snd {S A B} (m : M S A) (f : A -> B) (s : S) :
  (bind m (fun a => ret (f a)) s).2 = (m s).2.
Proof. unfold bind, ret. by destruct (m s) as [[a|e] s']. Qed.

Lemma format_state `{Host} (f : Formatter) (l : loc) (h : store) :
  (format f l h).2 =
  match f with
  | ColorFormatter fmt => (ColorFormatter_format fmt l h).2
  | PlainFormatter fmt => (PlainFormatter_format fmt l h).2
  | JsonFormatter _ => (JsonFormatter_format l h).2
  | ProfileFormatter _ => (ProfileFormatter_format l h).2
  end.
Proof. destruct f; simpl; apply bind_ret_snd. Qed.

(** X6: ColorFormatter, PlainFormatter and JsonFormatter, whatever the
    message and whether or not the host's Formatter.format raises, leave every
    dict as it was, change no record but the copy they allocate, and leave the
    record they were given as it was. *)
Theorem formatters_keep_original_record `{Host}
    (f : Formatter) (h : store) (l : loc) (r : LogRecord) :
  records h !! l = Some r ->
  rebinds_msg f = true ->
  let h' := (format f l h).2 in
  dicts h' = dicts h /\
  (forall l', l' <> fresh (dom (records h)) -> records h' !! l' = records h !! l') /\
  records h' !! l = Some r.
Proof.
  intros Hl Hf. cbv zeta. rewrite format_state.
  assert (Hframe : forall rc,
             let h' := set_records <[fresh (dom (records h)) := rc]> h in
             dicts h' = dicts h /\
             (forall l', l' <> fresh (dom (records h)) ->
                         records h' !! l' = records h !! l') /\
             records h' !! l = Some r).
  { intros rc. simpl. split; [done|]. split.
    - intros l' Hl'. by rewrite lookup_insert_ne.
    - rewrite lookup_insert_ne; [done|]. by eapply fresh_record_ne. }
  destruct f as [fmt|fmt|fmt|fmt]; try discriminate Hf.
  - rewrite (ColorFormatter_format_run _ _ _ _ Hl). simpl.
    destruct (Formatter_format _ _ _). apply Hframe.
  - rewrite (PlainFormatter_format_run _ _ _ _ Hl). simpl.
    destruct (Formatter_format _ _ _). apply Hframe.
  - rewrite (JsonFormatter_format_run _ _ _ Hl). simpl. apply Hframe.
Qed.

Lemma formatters_keep_original_record_witness :
  let r := example_record (DictRef 1) in
  let h := example_store r [(KStr "op", PyStr "index")] in
  let h' := (format (H := example_host) (JsonFormatter "%(message)s") 1 h).2 in
  records h !! 1%positive = Some r /\
  dicts h' = dicts h /\
  (forall l', l' <> fresh (dom (records h)) -> records h' !! l' = records h !! l') /\
  records h' !! 1%positive = Some r.
Proof.
  split; [reflexivity|].
  exact (formatters_keep_original_record (H := example_host) (JsonFormatter "%(message)s")
           (example_store (example_record (DictRef 1)) [(KStr "op", PyStr "index")])
           1%positive (example_record (DictRef 1)) eq_refl eq_refl).
Defined.

(** X7: for a level name without an entry in MAPPING (and for DEBUG and
    INFO) ColorFormatter falls back to the INFO entry: the message handed to
    the template is colored(msg, color='white', on_color=None). *)
Theorem ColorFormatter_format_default_colour `{Host}
    (fmt : string) (h : store) (l : loc) (r : LogRecord) :
  records h !! l = Some r ->
  levelname r <> "WARNING" -> levelname r <> "ERROR" -> levelname r <> "CRITICAL" ->
  ColorFormatter_format fmt l h =
    (let '(line, r') :=
       Formatter_format fmt (dicts h)
         (set_msg (colored (dicts h) (msg r) "white" None) r) in
     (line, set_records <[fresh (dom (records h)) := r']> h)).
Proof.
  intros Hl Hw He Hc. rewrite (ColorFormatter_format_run _ _ _ _ Hl). simpl.
  unfold MAPPING. repeat case_decide; try done.
Qed.

Lemma ColorFormatter_format_default_colour_witness :
  let r := at_level DEBUG (example_record (Val (PyStr "up"))) in
  let h := example_store r [] in
  records h !! 1%positive = Some r /\
  levelname r = "DEBUG" /\
  (ColorFormatter_format (H := example_host) "%(message)s:" 1 h).1
  = Ok ("%(message)s:" +:+ String ESC "[37mup" +:+ String ESC "[0m").
Proof.
  split; [reflexivity|]. split; [reflexivity|].
  exact (f_equal fst
           (ColorFormatter_format_default_colour (H := example_host) "%(message)s:"
              (example_store (at_level DEBUG (example_record (Val (PyStr "up")))) [])
              1%positive (at_level DEBUG (example_record (Val (PyStr "up"))))
              eq_refl ltac:(discriminate) ltac:(discriminate) ltac:(discriminate))).
Defined.

(** X8: JsonFormatter.format returns an object whatever kind of value the
    message is (a dict or a number as well as a string); each of the eleven
    members holds the record's attribute of that name, [msg] holding the
    stripped str() of the message, and the record's other attributes
    ([levelno], [message]) are not written. *)
Theorem JsonFormatter_format_values `{Host} (h : store) (l : loc) (r : LogRecord) :
  records h !! l = Some r ->
  exists j,
    (JsonFormatter_format l h).1 = Ok j /\
    json_member "created" j = Some (JFloat (created r)) /\
    json_member "filename" j = Some (JString (filename r)) /\
    json_member "funcName" j = Some (JString (funcName r)) /\
    json_member "levelname" j = Some (JString (levelname r)) /\
    json_member "lineno" j = Some (JInt (lineno r)) /\
    json_member "module" j = Some (JString (module r)) /\
    json_member "msg" j = Some (JString (sub_csi (py_str (dicts h) (msg r)))) /\
    json_member "name" j = Some (JString (name r)) /\
    json_member "pathname" j = Some (JString (pathname r)) /\
    json_member "process" j = Some (JInt (process r)) /\
    json_member "thread" j = Some (JInt (thread r)) /\
    json_member "levelno" j = None /\
    json_member "message" j = None.
Proof.
  intros Hl. eexists. split; [by apply JsonFormatter_format_output|].
  repeat split.
Qed.

Lemma JsonFormatter_format_values_witness :
  let r := example_record (DictRef 1) in
  let h := example_store r [(KStr "op", PyStr "index")] in
  records h !! 1%positive = Some r /\
  exists j,
    (JsonFormatter_format (H := example_host) 1 h).1 = Ok j /\
    json_member "lineno" j = Some (JInt 42) /\
    json_member "msg" j = Some (JString "<object>").
Proof.
  split; [reflexivity|].
  destruct (JsonFormatter_format_values (H := example_host)
              (example_store (example_record (DictRef 1)) [(KStr "op", PyStr "index")])
              1%positive (example_record (DictRef 1)) eq_refl)
    as (j & Hj & _ & _ & _ & _ & Hline & _ & Hmsg & _).
  exists j. split; [exact Hj|]. split; [exact Hline|exact Hmsg].
Defined.

(** *** More on dicts and the profile formatter *)

Lemma dict_get_setitem k k' v (d : pydict) :
  dict_get k (dict_setitem k' v d) = if decide (k' = k) then Some v else dict_get k d.
Proof.
  induction d as [|[k0 v0] d IH]; simpl.
  - done.
  - destruct (decide (k0 = k')) as [->|Hne]; simpl.
    + by destruct (decide (k' = k)).
    + rewrite IH. destruct (decide (k0 = k)) as [->|]; [|done].
      by rewrite decide_False by congruence.
Qed.

Lemma dict_get_update k (other d : pydict) :
  dict_get k (dict_update other d)
  = match dict_get k (reverse other) with
    | Some v => Some v
    | None => dict_get k d
    end.
Proof.
  unfold dict_update. revert d.
  induction other as [|[k' v'] other IH]; intros d; simpl; [done|].
  rewrite IH, reverse_cons.
  assert (Happ : forall l, dict_get k (l ++ [(k', v')])
                           = match dict_get k l with
                             | Some v => Some v
                             | None => if decide (k' = k) then Some v' else None
                             end).
  { induction l as [|[k0 v0] l IHl]; simpl; [done|]. by destruct (decide (k0 = k)). }
  rewrite Happ, dict_get_setitem.
  destruct (dict_get k (reverse other)); [done|]. by destruct (decide (k' = k)).
Qed.

Lemma dict_keys_setitem_order k v (d : pydict) :
  dict_keys (dict_setitem k v d)
  = if decide (k ∈ dict_keys d) then dict_keys d else dict_keys d ++ [k].
Proof.
  unfold dict_keys. induction d as [|[k0 v0] d IH].
  - destruct (decide (k ∈ [] .*1)) as [Hin|]; [|done]. by apply elem_of_nil in Hin.
  - cbn [dict_setitem]. destruct (decide (k0 = k)) as [->|Hne].
    + destruct (decide (k ∈ ((k, v0) :: d).*1)) as [|Hnin]; [done|].
      exfalso. apply Hnin. by left.
    + rewrite !fmap_cons, IH. cbn [fst].
      destruct (decide (k ∈ d.*1)) as [Hin|Hnin];
        destruct (decide (k ∈ k0 :: d.*1)) as [Hin'|Hnin']; try done.
      * exfalso. apply Hnin'. by right.
      * exfalso. apply elem_of_cons in Hin' as [->|]; done.
Qed.

Lemma dict_setitem_same k v (d : pydict) :
  dict_get k d = Some v -> dict_setitem k v d = d.
Proof.
  induction d as [|[k0 v0] d IH]; simpl; [done|].
  destruct (decide (k0 = k)) as [->|Hne]; [by intros [= ->]|].
  intros Hd. by rewrite IH.
Qed.

Lemma dict_get_None k (d : pydict) : dict_get k d = None <-> k ∉ dict_keys d.
Proof.
  unfold dict_keys. induction d as [|[k0 v0] d IH]; simpl.
  - split; [intros _; apply not_elem_of_nil|done].
  - rewrite not_elem_of_cons. destruct (decide (k0 = k)) as [->|Hne].
    + split; [done|]. by intros [? _].
    + rewrite IH. split; [by intros ?; split|by intros [_ ?]].
Qed.

Section profile_extras.
Context `{Host}.

Lemma profile_merge_get r d k :
  dict_get k (profile_merge r d)
  = if decide (k = KStr "memory") then Some (used_memory 1)
    else match dict_get k (profile_fields r) with
         | Some v => Some v
         | None => dict_get k d
         end.
Proof.
  unfold profile_merge. rewrite dict_get_setitem.
  destruct (decide (KStr "memory" = k)) as [<-|Hne].
  - by rewrite decide_True.
  - rewrite decide_False by congruence. rewrite dict_get_update.
    unfold profile_fields, reverse. simpl.
    repeat (case_decide; [subst k; simpl; reflexivity|]). 
    simpl. repeat (rewrite decide_False by done). done.
Qed.

Lemma profile_merge_as_update r d :
  profile_merge r d
  = dict_update (profile_fields r ++ [(KStr "memory", used_memory 1)]) d.
Proof. reflexivity. Qed.

Lemma profile_added_keys r :
  dict_keys (profile_fields r ++ [(KStr "memory", used_memory 1)]) = PROFILE_ADDED_KEYS.
Proof. reflexivity. Qed.
End profile_extras.

Lemma filter_ext_elem {A} (P Q : A -> Prop)
    `{!forall x, Decision (P x), !forall x, Decision (Q x)} (l : list A) :
  (forall x, x ∈ l -> P x <-> Q x) -> filter P l = filter Q l.
Proof.
  induction l as [|x l IH]; intros Hl; [done|].
  rewrite !filter_cons, IH by (intros; apply Hl; by right).
  destruct (decide (P x)) as [HP|HP], (decide (Q x)) as [HQ|HQ]; try done;
    exfalso; apply (Hl x) in HP || apply (Hl x) in HQ; try done; by left.
Qed.

Lemma dict_keys_update_order (other d : pydict) :
  NoDup (dict_keys other) ->
  dict_keys (dict_update other d)
  = dict_keys d ++ filter (fun k => k ∉ dict_keys d) (dict_keys other).
Proof.
  revert d. induction other as [|[k v] other IH]; intros d Hnd.
  - unfold dict_update, dict_keys. simpl. by rewrite filter_nil, app_nil_r.
  - change (dict_keys ((k, v) :: other)) with (k :: dict_keys other) in *.
    apply NoDup_cons in Hnd as [Hk Hnd].
    change (dict_update ((k, v) :: other) d)
      with (dict_update other (dict_setitem k v d)).
    rewrite (IH _ Hnd), dict_keys_setitem_order, filter_cons.
    destruct (decide (k ∈ dict_keys d)) as [Hin|Hnin].
    + by rewrite decide_False by (intros Hn; by apply Hn).
    + rewrite decide_True by done. rewrite <- app_assoc. simpl. do 2 f_equal.
      apply filter_ext_elem. intros k' Hk'.
      rewrite elem_of_app, list_elem_of_singleton.
      split; [intros Hn Hd; apply Hn; by left|].
      intros Hn [Hd| ->]; [done|]. by apply Hk.
Qed.

Lemma PROFILE_ADDED_KEYS_NoDup : NoDup PROFILE_ADDED_KEYS.
Proof. apply (bool_decide_unpack _). vm_compute. exact I. Qed.

(** X9: after ProfileFormatter.format the message dict holds its former keys
    in their former order, followed by those of created, module, name,
    pathname, process, thread, memory it did not hold yet, in this order. *)
Theorem ProfileFormatter_format_key_order `{Host}
    (h : store) (l ld : loc) (r : LogRecord) (d : pydict) :
  records h !! l = Some r -> msg r = DictRef ld -> dicts h !! ld = Some d ->
  exists md,
    dicts (ProfileFormatter_format l h).2 !! ld = Some md /\
    dict_keys md
    = dict_keys d ++ filter (fun k => k ∉ dict_keys d) PROFILE_ADDED_KEYS.
Proof.
  intros Hl Hmsg Hd. exists (profile_merge r d). split.
  - rewrite (ProfileFormatter_format_dict _ _ _ _ _ Hl Hmsg Hd). simpl.
    apply lookup_insert_eq.
  - rewrite profile_merge_as_update, dict_keys_update_order.
    + by rewrite profile_added_keys.
    + rewrite profile_added_keys. apply PROFILE_ADDED_KEYS_NoDup.
Qed.

Lemma ProfileFormatter_format_key_order_witness :
  let r := example_record (DictRef 1) in
  let d := [(KStr "op", PyStr "index"); (KStr "name", PyStr "mine");
            (KStr "created", PyInt 0)] in
  let h := example_store r d in
  records h !! 1%positive = Some r /\ msg r = DictRef 1 /\
  dicts h !! 1%positive = Some d /\
  exists md,
    dicts (ProfileFormatter_format (H := example_host) 1 h).2 !! 1%positive = Some md /\
    dict_keys md = [KStr "op"; KStr "name"; KStr "created"; KStr "module";
                    KStr "pathname"; KStr "process"; KStr "thread"; KStr "memory"].
Proof.
  do 3 (split; [reflexivity|]).
  exact (ProfileFormatter_format_key_order (H := example_host)
           (example_store (example_record (DictRef 1))
              [(KStr "op", PyStr "index"); (KStr "name", PyStr "mine");
               (KStr "created", PyInt 0)])
           1%positive 1%positive (example_record (DictRef 1)) _
           eq_refl eq_refl eq_refl).
Defined.

(** X10: after ProfileFormatter.format the message dict maps created,
    module, name, pathname, process and thread to the record's attributes and
    memory to used_memory(unit=1), overwriting what the caller had put under
    these names; every other key keeps its value. *)
Theorem ProfileFormatter_format_values `{Host}
    (h : store) (l ld : loc) (r : LogRecord) (d : pydict) :
  records h !! l = Some r -> msg r = DictRef ld -> dicts h !! ld = Some d ->
  exists md,
    dicts (ProfileFormatter_format l h).2 !! ld = Some md /\
    dict_get (KStr "created") md = Some (PyFloat (created r)) /\
    dict_get (KStr "module") md = Some (PyStr (module r)) /\
    dict_get (KStr "name") md = Some (PyStr (name r)) /\
    dict_get (KStr "pathname") md = Some (PyStr (pathname r)) /\
    dict_get (KStr "process") md = Some (PyInt (process r)) /\
    dict_get (KStr "thread") md = Some (PyInt (thread r)) /\
    dict_get (KStr "memory") md = Some (used_memory 1) /\
    (forall k, k ∉ PROFILE_ADDED_KEYS -> dict_get k md = dict_get k d).
Proof.
  intros Hl Hmsg Hd. exists (profile_merge r d). split.
  - rewrite (ProfileFormatter_format_dict _ _ _ _ _ Hl Hmsg Hd). simpl.
    apply lookup_insert_eq.
  - repeat split; try (rewrite profile_merge_get; reflexivity).
    intros k Hk. rewrite profile_merge_get.
    assert (Hne : forall s, s ∈ PROFILE_ADDED -> k <> KStr s).
    { intros s Hs ->. apply Hk. unfold PROFILE_ADDED_KEYS.
      apply list_elem_of_fmap. eauto. }
    rewrite decide_False by (apply Hne; repeat constructor).
    unfold profile_fields. simpl.
    repeat (rewrite decide_False by (apply not_eq_sym, Hne; repeat constructor)).
    done.
Qed.

Lemma ProfileFormatter_format_values_witness :
  let r := example_record (DictRef 1) in
  let d := [(KStr "op", PyStr "index"); (KStr "name", PyStr "mine")] in
  let h := example_store r d in
  records h !! 1%positive = Some r /\ msg r = DictRef 1 /\
  dicts h !! 1%positive = Some d /\
  exists md,
    dicts (ProfileFormatter_format (H := example_host) 1 h).2 !! 1%positive = Some md /\
    dict_get (KStr "name") md = Some (PyStr "test") /\
    dict_get (KStr "op") md = Some (PyStr "index").
Proof.
  do 3 (split; [reflexivity|]).
  destruct (ProfileFormatter_format_values (H := example_host)
              (example_store (example_record (DictRef 1))
                 [(KStr "op", PyStr "index"); (KStr "name", PyStr "mine")])
              1%positive 1%positive (example_record (DictRef 1)) _
              eq_refl eq_refl eq_refl)
    as (md & Hmd & _ & _ & Hname & _ & _ & _ & _ & Hother).
  exists md. split; [exact Hmd|]. split; [exact Hname|].
  rewrite Hother; [reflexivity|].
  apply (bool_decide_unpack _). vm_compute. exact I.
Defined.

(** X11: the two ways ProfileFormatter.format raises differ in what they
    leave behind. On a message that is not a dict it raises before it writes:
    the dicts and the record are as before. On a dict with a key that is not a
    string it raises TypeError from json.dumps after the update: the caller's
    dict holds the seven added keys although no text was produced. *)
Theorem ProfileFormatter_format_raises_after_writing `{Host}
    (h : store) (l : loc) (r : LogRecord) :
  records h !! l = Some r ->
  let h' := (ProfileFormatter_format l h).2 in
  match msg r with
  | Val _ =>
      (ProfileFormatter_format l h).1 = Raise (TypeError OnlyAcceptsDict) /\
      dicts h' = dicts h /\ records h' !! l = Some r
  | DictRef ld =>
      forall d, dicts h !! ld = Some d ->
        forallb is_KStr (dict_keys d) = false ->
        (ProfileFormatter_format l h).1 = Raise (TypeError Unorderable) /\
        records h' !! l = Some r /\
        exists md, dicts h' !! ld = Some md /\
                   forall k, k ∈ PROFILE_ADDED_KEYS -> k ∈ dict_keys md
  end.
Proof.
  intros Hl. cbv zeta. destruct (msg r) as [v|ld] eqn:Hmsg.
  - rewrite (ProfileFormatter_format_not_dict _ _ _ _ Hl Hmsg). simpl.
    split; [done|]. split; [done|].
    rewrite lookup_insert_ne; [done|]. by eapply fresh_record_ne.
  - intros d Hd Hkeys.
    rewrite (ProfileFormatter_format_dict _ _ _ _ _ Hl Hmsg Hd). simpl.
    split; [|split].
    + unfold json_of_items, sorted_items.
      by rewrite profile_merge_all_str, Hkeys, profile_merge_not_all_int.
    + rewrite lookup_insert_ne; [done|]. by eapply fresh_record_ne.
    + exists (profile_merge r d). split; [apply lookup_insert_eq|].
      intros k Hk. apply profile_merge_keys. by left.
Qed.

Lemma ProfileFormatter_format_raises_after_writing_witness :
  let r := example_record (DictRef 1) in
  let d := [(KInt 1, PyInt 2)] in
  let h := example_store r d in
  let h' := (ProfileFormatter_format (H := example_host) 1 h).2 in
  records h !! 1%positive = Some r /\
  dicts h !! 1%positive = Some d /\
  forallb is_KStr (dict_keys d) = false /\
  (ProfileFormatter_format (H := example_host) 1 h).1 = Raise (TypeError Unorderable) /\
  records h' !! 1%positive = Some r /\
  exists md, dicts h' !! 1%positive = Some md /\
             forall k, k ∈ PROFILE_ADDED_KEYS -> k ∈ dict_keys md.
Proof.
  do 3 (split; [reflexivity|]).
  exact (ProfileFormatter_format_raises_after_writing (H := example_host)
           (example_store (example_record (DictRef 1)) [(KInt 1, PyInt 2)])
           1%positive (example_record (DictRef 1)) eq_refl
           [(KInt 1, PyInt 2)] eq_refl eq_refl).
Defined.

(** *** More on the event sink *)

(** X12: for a record at or above the sink's level, EventHandler.emit does
    not depend on what the event held: it overwrites the slot with the
    formatted record and sets the flag; if formatting raises, the exception
    goes to the caller and the event is not assigned at all. *)
Theorem EventHandler_emit_overwrites `{Host}
    (self : Handler) (l : loc) (r : LogRecord) (h : store) (ev ev' : Event) :
  records h !! l = Some r ->
  EventHandler_passes self r = true ->
  EventHandler_emit self l ev h = EventHandler_emit self l ev' h /\
  match Handler_format self l h with
  | (Ok out, h') =>
      EventHandler_emit self l ev h
      = (Ok {| event_record := Some out; event_is_set := true |}, h')
  | (Raise e, h') => EventHandler_emit self l ev h = (Raise e, h')
  end.
Proof.
  intros Hl Hpass.
  rewrite !(EventHandler_emit_passed _ _ _ _ _ Hl Hpass).
  split; [done|]. by destruct (Handler_format self l h) as [[out|e] h'].
Qed.

Lemma EventHandler_emit_overwrites_witness :
  let r := example_record (Val (PyStr "second")) in
  let h := example_store r [] in
  let self := setFormatter (PlainFormatter "%(message)s:") example_handler in
  let waiting := {| event_record := Some (Text "first"); event_is_set := true |} in
  records h !! 1%positive = Some r /\
  EventHandler_passes self r = true /\
  (EventHandler_emit (H := example_host) self 1 waiting h).1
  = Ok {| event_record := Some (Text "%(message)s:second"); event_is_set := true |}.
Proof.
  split; [reflexivity|]. split; [reflexivity|].
  destruct (EventHandler_emit_overwrites (H := example_host)
              (setFormatter (PlainFormatter "%(message)s:") example_handler) 1%positive
              (example_record (Val (PyStr "second")))
              (example_store (example_record (Val (PyStr "second"))) [])
              {| event_record := Some (Text "first"); event_is_set := true |}
              {| event_record := None; event_is_set := false |}
              eq_refl eq_refl) as [_ Hemit].
  exact (f_equal fst Hemit).
Defined.

(** *** More on logger assembly *)

(** X13: with log_event given and a template the host accepts, the first
    sink get_logger attaches is the event sink; it ignores (event, records
    and dicts untouched) every record whose levelno is below the value of
    JINA_VERBOSITY, and for every other record puts the ColorFormatter line
    of the record into the event, leaving the record and the dicts as they
    were. *)
Theorem get_logger_event_sink_filters `{Host} (p : process_env) (a : get_logger_args)
    (s : logging_state) (fmt_str : string) (v : LogVerbosity) (ev : nat) :
  os_name p <> "nt" ->
  resolve_fmt_str a = Ok fmt_str ->
  Formatter_validate fmt_str = true ->
  resolve_verbosity p = Ok v ->
  arg_log_event a = Some ev ->
  handlers (logger_at s (logger_named (arg_context a))) = [] ->
  exists sink rest,
    handlers (logger_at (get_logger p a s).2 (logger_named (arg_context a)))
    = sink :: rest /\
    kind sink = EventHandler ev /\
    forall (h : store) (l : loc) (r : LogRecord) (e0 : Event),
      records h !! l = Some r ->
      if levelno r <? value v
      then EventHandler_emit sink l e0 h = (Ok e0, h)
      else
        (EventHandler_emit sink l e0 h).1
        = match (ColorFormatter_format fmt_str l h).1 with
          | Ok line => Ok {| event_record := Some (Text line); event_is_set := true |}
          | Raise e => Raise e
          end /\
        records (EventHandler_emit sink l e0 h).2 !! l = Some r /\
        dicts (EventHandler_emit sink l e0 h).2 = dicts h.
Proof.
  intros Hos Hfmt Hvalid Hv Hev Hfresh.
  destruct (get_logger_assembles p a s fmt_str v Hos Hfmt Hv Hfresh)
    as (_ & _ & _ & Hl & _).
  destruct (attached_valid p a fmt_str v (next_id s) Hvalid) as (_ & Hall & _).
  cbv zeta in Hl. rewrite Hl, Hall. unfold assembled. rewrite Hev. cbn [app].
  eexists _, _. split; [reflexivity|]. split; [reflexivity|].
  intros h l r e0 Hr.
  destruct (Z.ltb_spec (levelno r) (value v)) as [Hlt|Hge].
  - apply (EventHandler_emit_filtered _ _ _ _ _ Hr).
    unfold EventHandler_passes. cbn [level]. rewrite Z.geb_leb. by apply Z.leb_gt.
  - rewrite (EventHandler_emit_passed _ _ _ _ _ Hr).
    2:{ unfold EventHandler_passes. cbn [level]. rewrite Z.geb_leb. by apply Z.leb_le. }
    unfold Handler_format. cbn [formatter format].
    pose proof (ColorFormatter_format_frame fmt_str h l r Hr) as [Hrec Hdict].
    cbn zeta in Hrec, Hdict. unfold bind, ret.
    destruct (ColorFormatter_format fmt_str l h) as [[line|e] h']; cbn [fst snd] in *; done.
Qed.

Lemma get_logger_event_sink_filters_witness :
  let p := posix {["JINA_VERBOSITY" := "WARNING"]} in
  let a := {| arg_context := "test"; arg_context_len := 10; arg_profiling := false;
              arg_sse := false; arg_fmt_str := Some "%(message)s:";
              arg_log_event := Some 7%nat |} in
  let r := example_record (Val (PyStr "up")) in
  let h := example_store r [] in
  os_name p <> "nt" /\
  Formatter_validate "%(message)s:" = true /\
  resolve_verbosity p = Ok WARNING /\
  handlers (logger_at initial_logging (logger_named "test")) = [] /\
  exists sink rest,
    handlers (logger_at (get_logger p a initial_logging).2 (NamedLogger "test"))
    = sink :: rest /\
    kind sink = EventHandler 7 /\
    EventHandler_emit (H := example_host) sink 1
      {| event_record := None; event_is_set := false |} h
    = (Ok {| event_record := None; event_is_set := false |}, h).
Proof.
  split; [discriminate|]. do 3 (split; [reflexivity|]).
  destruct (get_logger_event_sink_filters (H := example_host)
              (posix {["JINA_VERBOSITY" := "WARNING"]})
              {| arg_context := "test"; arg_context_len := 10; arg_profiling := false;
                 arg_sse := false; arg_fmt_str := Some "%(message)s:";
                 arg_log_event := Some 7%nat |}
              initial_logging "%(message)s:" WARNING 7%nat
              ltac:(discriminate) eq_refl eq_refl eq_refl eq_refl eq_refl)
    as (sink & rest & Hsinks & Hkind & Hemit).
  exists sink, rest. split; [exact Hsinks|]. split; [exact Hkind|].
  exact (Hemit (example_store (example_record (Val (PyStr "up"))) []) 1%positive
           (example_record (Val (PyStr "up")))
           {| event_record := None; event_is_set := false |} eq_refl).
Defined.

(** X14: on Windows (os.name == 'nt') get_logger returns an NTLogger with
    the stripped context and the level of JINA_VERBOSITY and touches nothing of
    the logging registry: the root logger keeps its handlers, no logger is
    created, the flags are ignored. *)
Theorem get_logger_on_windows (p : process_env) (a : get_logger_args)
    (s : logging_state) (fmt_str : string) (v : LogVerbosity) :
  os_name p = "nt" ->
  resolve_fmt_str a = Ok fmt_str ->
  resolve_verbosity p = Ok v ->
  get_logger p a s
  = (Ok (WinLogger {| context := sub_csi (arg_context a); log_level := v |}), s).
Proof.
  intros Hos Hfmt Hv. unfold get_logger, resolve_fmt_str in *.
  unfold bind at 1. unfold lift at 1. rewrite Hfmt.
  unfold bind at 1. unfold lift at 1. rewrite Hv.
  by rewrite bool_decide_eq_true_2.
Qed.

Lemma get_logger_on_windows_witness :
  let p := {| environ := {["JINA_VERBOSITY" := "ERROR"]}; os_name := "nt";
              __uptime__ := "20200401120000" |} in
  os_name p = "nt" /\
  resolve_verbosity p = Ok ERROR /\
  get_logger p (default_args (String ESC "[1mpea")) logging_with_root_sink
  = (Ok (WinLogger {| context := "pea"; log_level := ERROR |}), logging_with_root_sink).
Proof.
  split; [reflexivity|]. split; [reflexivity|].
  exact (get_logger_on_windows
           {| environ := {["JINA_VERBOSITY" := "ERROR"]}; os_name := "nt";
              __uptime__ := "20200401120000" |}
           (default_args (String ESC "[1mpea")) logging_with_root_sink _ ERROR
           eq_refl eq_refl eq_refl).
Defined.

(** X15: without a template, a negative context_len makes get_logger raise
    ValueError (the format width), before it reads JINA_VERBOSITY, before the
    Windows test and before it touches the registry. *)
Theorem get_logger_negative_context_len (p : process_env) (a : get_logger_args)
    (s : logging_state) :
  falsy (arg_fmt_str a) = true ->
  arg_context_len a < 0 ->
  get_logger p a s = (Raise ValueError, s).
Proof.
  intros Hf Hlen. unfold get_logger. unfold bind at 1. unfold lift at 1.
  rewrite Hf. unfold default_fmt_str.
  by rewrite (proj2 (Z.ltb_lt _ _) Hlen).
Qed.

Lemma get_logger_negative_context_len_witness :
  let a := {| arg_context := "test"; arg_context_len := -1; arg_profiling := false;
              arg_sse := false; arg_fmt_str := Some EmptyString;
              arg_log_event := None |} in
  falsy (arg_fmt_str a) = true /\ arg_context_len a < 0 /\
  get_logger (posix {["JINA_VERBOSITY" := "LOUD"]}) a logging_with_root_sink
  = (Raise ValueError, logging_with_root_sink).
Proof.
  split; [reflexivity|]. split; [reflexivity|].
  exact (get_logger_negative_context_len (posix {["JINA_VERBOSITY" := "LOUD"]})
           {| arg_context := "test"; arg_context_len := -1; arg_profiling := false;
              arg_sse := false; arg_fmt_str := Some EmptyString;
              arg_log_event := None |}
           logging_with_root_sink eq_refl eq_refl).
Defined.

(** X16: when JINA_VERBOSITY cannot be parsed, get_logger raises the error of
    from_string, on Windows as elsewhere, and leaves the registry untouched:
    the root handlers are not removed. *)
Theorem get_logger_verbosity_error (p : process_env) (a : get_logger_args)
    (s : logging_state) (fmt_str : string) (e : exn) :
  resolve_fmt_str a = Ok fmt_str ->
  resolve_verbosity p = Raise e ->
  get_logger p a s = (Raise e, s).
Proof.
  intros Hfmt Hv. unfold get_logger, resolve_fmt_str in *.
  unfold bind at 1. unfold lift at 1. rewrite Hfmt.
  unfold bind at 1. unfold lift at 1. by rewrite Hv.
Qed.

Lemma get_logger_verbosity_error_witness :
  let p := posix {["JINA_VERBOSITY" := "info"]} in
  resolve_verbosity p = Raise (InvalidVerbosity "info") /\
  get_logger p (default_args "test") logging_with_root_sink
  = (Raise (InvalidVerbosity "info"), logging_with_root_sink).
Proof.
  split; [reflexivity|].
  exact (get_logger_verbosity_error (posix {["JINA_VERBOSITY" := "info"]})
           (default_args "test") logging_with_root_sink _ _ eq_refl eq_refl).
Defined.

(** X17: with a non-empty fmt_str, context_len plays no part (not even a
    negative one); an empty fmt_str is falsy and behaves as no fmt_str. *)
Theorem get_logger_explicit_fmt_str (p : process_env) (s : logging_state)
    (ctx fmt : string) (n n' : Z) (profiling sse : bool) (ev : option nat) :
  fmt <> EmptyString ->
  get_logger p {| arg_context := ctx; arg_context_len := n; arg_profiling := profiling;
                  arg_sse := sse; arg_fmt_str := Some fmt; arg_log_event := ev |} s
  = get_logger p {| arg_context := ctx; arg_context_len := n';
                    arg_profiling := profiling; arg_sse := sse;
                    arg_fmt_str := Some fmt; arg_log_event := ev |} s /\
  get_logger p {| arg_context := ctx; arg_context_len := n; arg_profiling := profiling;
                  arg_sse := sse; arg_fmt_str := Some EmptyString;
                  arg_log_event := ev |} s
  = get_logger p {| arg_context := ctx; arg_context_len := n;
                    arg_profiling := profiling; arg_sse := sse;
                    arg_fmt_str := None; arg_log_event := ev |} s.
Proof.
  intros Hfmt. split; [|reflexivity]. unfold get_logger.
  cbn [arg_fmt_str falsy arg_context arg_profiling arg_sse arg_log_event
       arg_context_len].
  by rewrite bool_decide_eq_false_2.
Qed.

Lemma get_logger_explicit_fmt_str_witness :
  let a n := {| arg_context := "test"; arg_context_len := n; arg_profiling := false;
                arg_sse := false; arg_fmt_str := Some "%(message)s";
                arg_log_event := None |} in
  "%(message)s" <> EmptyString /\
  get_logger (posix ∅) (a (-1)) initial_logging
  = get_logger (posix ∅) (a 10) initial_logging.
Proof.
  split; [discriminate|].
  exact (proj1 (get_logger_explicit_fmt_str (posix ∅) initial_logging "test"
                  "%(message)s" (-1) 10 false false None ltac:(discriminate))).
Defined.

(** X18: a profiling logger gets, in this order, the event sink if log_event
    is given, the file sink jina-profile-<uptime>.json with a ProfileFormatter
    on the timed template, and with sse the queue sink on __profile_queue__
    with a JsonFormatter; it gets no console sink, and JINA_LOG_FORMAT is not
    consulted.  The timed template is always accepted, so without log_event
    the call returns whatever the template; with log_event and a template the
    host refuses, it raises ValueError with no sink attached. *)
Theorem get_logger_profiling_sinks (p : process_env) (a : get_logger_args)
    (s : logging_state) (fmt_str : string) (v : LogVerbosity) :
  os_name p <> "nt" ->
  resolve_fmt_str a = Ok fmt_str ->
  resolve_verbosity p = Ok v ->
  arg_profiling a = true ->
  handlers (logger_at s (logger_named (arg_context a))) = [] ->
  let sinks := handlers (logger_at (get_logger p a s).2 (logger_named (arg_context a))) in
  let refused :=
    negb (Formatter_validate fmt_str) && bool_decide (arg_log_event a <> None) in
  (get_logger p a s).1
  = (if refused then Raise ValueError
     else Ok (PyLogger (logger_named (arg_context a)))) /\
  (fun h => (kind h, formatter h)) <$> sinks
  = if refused then []
    else
      match arg_log_event a with
      | Some ev => [(EventHandler ev, Some (ColorFormatter fmt_str))]
      | None => []
      end ++
      (FileHandler ("jina-profile-" +:+ __uptime__ p +:+ ".json") true,
       Some (ProfileFormatter ("%(asctime)s:" +:+ fmt_str)))
      :: (if arg_sse a
          then [(QueueHandler __profile_queue__,
                 Some (JsonFormatter ("%(asctime)s:" +:+ fmt_str)))]
          else []).
Proof.
  intros Hos Hfmt Hv Hprof Hfresh. cbv zeta.
  destruct (get_logger_assembles p a s fmt_str v Hos Hfmt Hv Hfresh)
    as (-> & _ & _ & -> & _).
  unfold attached, interrupted, assembled. rewrite Hprof.
  destruct (Formatter_validate fmt_str), (arg_log_event a), (arg_sse a); done.
Qed.

Lemma get_logger_profiling_sinks_witness :
  let p := posix {["JINA_LOG_FORMAT" := "TXT"]} in
  let a := {| arg_context := "test"; arg_context_len := 10; arg_profiling := true;
              arg_sse := false; arg_fmt_str := Some "plain";
              arg_log_event := None |} in
  os_name p <> "nt" /\ arg_profiling a = true /\
  handlers (logger_at initial_logging (logger_named "test")) = [] /\
  Formatter_validate "plain" = false /\
  (get_logger p a initial_logging).1 = Ok (PyLogger (NamedLogger "test")) /\
  (fun h => (kind h, formatter h))
    <$> handlers (logger_at (get_logger p a initial_logging).2 (NamedLogger "test"))
  = [(FileHandler "jina-profile-20200401120000.json" true,
      Some (ProfileFormatter "%(asctime)s:plain"))].
Proof.
  split; [discriminate|]. do 3 (split; [reflexivity|]).
  exact (get_logger_profiling_sinks (posix {["JINA_LOG_FORMAT" := "TXT"]})
           {| arg_context := "test"; arg_context_len := 10; arg_profiling := true;
              arg_sse := false; arg_fmt_str := Some "plain";
              arg_log_event := None |}
           initial_logging "plain" INFO
           ltac:(discriminate) eq_refl eq_refl eq_refl eq_refl).
Defined.

(** X19: with a template the host accepts, a logger that is not for
    profiling gets exactly one console sink, on standard output with a
    ColorFormatter on the plain template; it gets a file sink only when
    JINA_LOG_FORMAT is exactly TXT (jina-<uptime>.log, PlainFormatter) or JSON
    (jina-<uptime>.json, JsonFormatter), both on the timed template, and none
    for any other value or without the variable. *)
Theorem get_logger_console_and_file (p : process_env) (a : get_logger_args)
    (s : logging_state) (fmt_str : string) (v : LogVerbosity) :
  os_name p <> "nt" ->
  resolve_fmt_str a = Ok fmt_str ->
  Formatter_validate fmt_str = true ->
  resolve_verbosity p = Ok v ->
  arg_profiling a = false ->
  handlers (logger_at s (logger_named (arg_context a))) = [] ->
  let sinks := handlers (logger_at (get_logger p a s).2 (logger_named (arg_context a))) in
  (fun h => (kind h, formatter h))
    <$> filter (fun h => is_console h = true) sinks
  = [(StreamHandler stdout, Some (ColorFormatter fmt_str))] /\
  (fun h => (kind h, formatter h)) <$> filter (fun h => is_FileHandler h = true) sinks
  = match environ p !! "JINA_LOG_FORMAT" with
    | Some fmt =>
        if decide (fmt = "TXT")
        then [(FileHandler ("jina-" +:+ __uptime__ p +:+ ".log") true,
               Some (PlainFormatter ("%(asctime)s:" +:+ fmt_str)))]
        else if decide (fmt = "JSON")
        then [(FileHandler ("jina-" +:+ __uptime__ p +:+ ".json") true,
               Some (JsonFormatter ("%(asctime)s:" +:+ fmt_str)))]
        else []
    | None => []
    end.
Proof.
  intros Hos Hfmt Hvalid Hv Hprof Hfresh. cbv zeta.
  destruct (get_logger_assembles p a s fmt_str v Hos Hfmt Hv Hfresh)
    as (_ & _ & _ & -> & _).
  destruct (attached_valid p a fmt_str v (next_id s) Hvalid) as (_ & -> & _).
  unfold assembled. rewrite Hprof.
  destruct (environ p !! "JINA_LOG_FORMAT") as [fmt|] eqn:Henv.
  - destruct (decide (fmt = "TXT")) as [->|Htxt].
    + rewrite bool_decide_eq_true_2 by done.
      by destruct (arg_log_event a), (arg_sse a).
    + rewrite bool_decide_eq_false_2 by congruence.
      destruct (decide (fmt = "JSON")) as [->|Hjson].
      * rewrite bool_decide_eq_true_2 by done.
        by destruct (arg_log_event a), (arg_sse a).
      * rewrite bool_decide_eq_false_2 by congruence.
        by destruct (arg_log_event a), (arg_sse a).
  - rewrite !bool_decide_eq_false_2 by done.
    by destruct (arg_log_event a), (arg_sse a).
Qed.

Lemma get_logger_console_and_file_witness :
  let p := posix {["JINA_LOG_FORMAT" := "txt"]} in
  let a := {| arg_context := "test"; arg_context_len := 10; arg_profiling := false;
              arg_sse := true; arg_fmt_str := Some "%(message)s";
              arg_log_event := None |} in
  let sinks := handlers (logger_at (get_logger p a initial_logging).2 (NamedLogger "test")) in
  os_name p <> "nt" /\ arg_profiling a = false /\
  Formatter_validate "%(message)s" = true /\
  handlers (logger_at initial_logging (logger_named "test")) = [] /\
  (fun h => (kind h, formatter h))
    <$> filter (fun h => is_console h = true) sinks
  = [(StreamHandler stdout, Some (ColorFormatter "%(message)s"))] /\
  (fun h => (kind h, formatter h)) <$> filter (fun h => is_FileHandler h = true) sinks
  = [].
Proof.
  split; [discriminate|]. do 3 (split; [reflexivity|]).
  exact (get_logger_console_and_file (posix {["JINA_LOG_FORMAT" := "txt"]})
           {| arg_context := "test"; arg_context_len := 10; arg_profiling := false;
              arg_sse := true; arg_fmt_str := Some "%(message)s";
              arg_log_event := None |}
           initial_logging "%(message)s" INFO
           ltac:(discriminate) eq_refl eq_refl eq_refl eq_refl eq_refl).
Defined.

(** X20: the sinks get_logger attaches to a logger without sinks are new
    objects, one per attachment: their identities are the next free ones in
    order, so they are pairwise distinct and differ from every handler that
    existed; there are at most four of them, and no identity is used twice
    (a handler whose formatter could not be built takes one too).  When the
    call returns, there is at least one sink and every handler made is
    attached. *)
Theorem get_logger_sink_identities (p : process_env) (a : get_logger_args)
    (s : logging_state) (fmt_str : string) (v : LogVerbosity) :
  os_name p <> "nt" ->
  resolve_fmt_str a = Ok fmt_str ->
  resolve_verbosity p = Ok v ->
  handlers (logger_at s (logger_named (arg_context a))) = [] ->
  let s' := (get_logger p a s).2 in
  let sinks := handlers (logger_at s' (logger_named (arg_context a))) in
  hid <$> sinks = seq (next_id s) (length sinks) /\
  (length sinks <= 4)%nat /\
  (length sinks + next_id s <= next_id s')%nat /\
  ((get_logger p a s).1 = Ok (PyLogger (logger_named (arg_context a))) ->
   (1 <= length sinks)%nat /\ next_id s' = (length sinks + next_id s)%nat).
Proof.
  intros Hos Hfmt Hv Hfresh. cbv zeta.
  destruct (get_logger_assembles p a s fmt_str v Hos Hfmt Hv Hfresh)
    as (-> & _ & _ & -> & ->).
  destruct (handlers_made_attached p a fmt_str v (next_id s)) as (Hle & Hall & Hfour).
  split; [apply attached_ids|]. split; [done|]. split; [lia|].
  destruct (interrupted a fmt_str) eqn:Hgo; [discriminate|]. intros _.
  rewrite (Hall eq_refl). split; [|done].
  pose proof (attached_nonempty p a fmt_str v (next_id s) Hgo) as Hne.
  destruct (attached p a fmt_str v (next_id s)); [done|simpl; lia].
Qed.

Lemma get_logger_sink_identities_witness :
  let p := posix {["JINA_LOG_FORMAT" := "JSON"]} in
  let a := {| arg_context := "test"; arg_context_len := 10; arg_profiling := false;
              arg_sse := true; arg_fmt_str := None; arg_log_event := Some 7%nat |} in
  let s' := (get_logger p a logging_with_root_sink).2 in
  let sinks := handlers (logger_at s' (NamedLogger "test")) in
  os_name p <> "nt" /\
  handlers (logger_at logging_with_root_sink (logger_named "test")) = [] /\
  (get_logger p a logging_with_root_sink).1 = Ok (PyLogger (NamedLogger "test")) /\
  hid <$> sinks = [1; 2; 3; 4]%nat /\ next_id s' = 5%nat.
Proof.
  split; [discriminate|]. do 2 (split; [reflexivity|]).
  destruct (get_logger_sink_identities (posix {["JINA_LOG_FORMAT" := "JSON"]})
              {| arg_context := "test"; arg_context_len := 10; arg_profiling := false;
                 arg_sse := true; arg_fmt_str := None; arg_log_event := Some 7%nat |}
              logging_with_root_sink _ INFO
              ltac:(discriminate) eq_refl eq_refl eq_refl) as (Hids & _ & _ & Hnext).
  split; [exact Hids|exact (proj2 (Hnext eq_refl))].
Defined.

(** X21: after assembly the logger has the level of JINA_VERBOSITY and does
    not propagate; every sink has that level too, except the file sinks, on
    which setLevel is never called and which stay at NOTSET (they take every
    record the logger lets through); the event and console sinks format with
    the plain template, the file and queue sinks with the template prefixed by
    %(asctime)s: . *)
Theorem get_logger_sink_levels (p : process_env) (a : get_logger_args)
    (s : logging_state) (fmt_str : string) (v : LogVerbosity) :
  os_name p <> "nt" ->
  resolve_fmt_str a = Ok fmt_str ->
  resolve_verbosity p = Ok v ->
  handlers (logger_at s (logger_named (arg_context a))) = [] ->
  let logger := logger_at (get_logger p a s).2 (logger_named (arg_context a)) in
  logger_level logger = value v /\
  propagate logger = false /\
  Forall (fun h =>
            level h = (if is_FileHandler h then NOTSET else value v) /\
            formatter_fmt <$> formatter h
            = Some (if is_console h || is_EventHandler h then fmt_str
                    else "%(asctime)s:" +:+ fmt_str))
         (handlers logger).
Proof.
  intros Hos Hfmt Hv Hfresh. cbv zeta.
  destruct (get_logger_assembles p a s fmt_str v Hos Hfmt Hv Hfresh)
    as (_ & -> & -> & -> & _).
  split; [done|]. split; [done|].
  unfold attached, assembled.
  destruct (interrupted a fmt_str), (arg_log_event a), (arg_profiling a), (arg_sse a);
    simpl; repeat case_bool_decide; repeat constructor.
Qed.

Lemma get_logger_sink_levels_witness :
  let p := posix {["JINA_LOG_FORMAT" := "TXT"; "JINA_VERBOSITY" := "ERROR"]} in
  let a := {| arg_context := "test"; arg_context_len := 10; arg_profiling := false;
              arg_sse := false; arg_fmt_str := Some "%(message)s";
              arg_log_event := None |} in
  let logger := logger_at (get_logger p a initial_logging).2 (NamedLogger "test") in
  os_name p <> "nt" /\ resolve_verbosity p = Ok ERROR /\
  handlers (logger_at initial_logging (logger_named "test")) = [] /\
  logger_level logger = 40 /\ propagate logger = false /\
  level <$> handlers logger = [40; 0].
Proof.
  split; [discriminate|]. do 2 (split; [reflexivity|]).
  destruct (get_logger_sink_levels
              (posix {["JINA_LOG_FORMAT" := "TXT"; "JINA_VERBOSITY" := "ERROR"]})
              {| arg_context := "test"; arg_context_len := 10; arg_profiling := false;
                 arg_sse := false; arg_fmt_str := Some "%(message)s";
                 arg_log_event := None |}
              initial_logging "%(message)s" ERROR
              ltac:(discriminate) eq_refl eq_refl eq_refl) as (Hlevel & Hprop & _).
  split; [exact Hlevel|]. split; [exact Hprop|]. reflexivity.
Defined.

(** X22: for a name other than the root logger's whose logger already has
    sinks, get_logger returns that logger with its sinks and its level as they
    were, whatever JINA_VERBOSITY and the flags of this call say; it only sets
    propagate to False, and creates no handler. *)
Theorem get_logger_keeps_configured_logger (p : process_env) (a : get_logger_args)
    (s : logging_state) (fmt_str : string) (v : LogVerbosity) :
  os_name p <> "nt" ->
  resolve_fmt_str a = Ok fmt_str ->
  resolve_verbosity p = Ok v ->
  names_root (arg_context a) = false ->
  handlers (logger_at s (NamedLogger (arg_context a))) <> [] ->
  let s' := (get_logger p a s).2 in
  let before := logger_at s (NamedLogger (arg_context a)) in
  let after := logger_at s' (NamedLogger (arg_context a)) in
  (get_logger p a s).1 = Ok (PyLogger (NamedLogger (arg_context a))) /\
  logger_level after = logger_level before /\
  handlers after = handlers before /\
  propagate after = false /\
  next_id s' = next_id s.
Proof.
  intros Hos Hfmt Hv Hroot Hsinks. cbv zeta.
  destruct (get_logger_spec p a s fmt_str v Hos Hfmt Hv) as (Hres & Hset & Hnext & _).
  cbv zeta in *. unfold logger_named, settings in *. rewrite Hroot in *.
  cbn [orb] in *. rewrite bool_decide_eq_false_2 in * by done. cbn [andb] in *.
  injection Hset as Hlevel Hprop Hsame. done.
Qed.

Lemma get_logger_keeps_configured_logger_witness :
  let quiet := posix {["JINA_VERBOSITY" := "ERROR"]} in
  let loud := posix {["JINA_VERBOSITY" := "DEBUG"]} in
  let a := default_args "test" in
  let s := (get_logger quiet a initial_logging).2 in
  let s' := (get_logger loud a s).2 in
  os_name loud <> "nt" /\ resolve_verbosity loud = Ok DEBUG /\
  names_root (arg_context a) = false /\
  handlers (logger_at s (NamedLogger "test")) <> [] /\
  logger_level (logger_at s (NamedLogger "test")) = 40 /\
  logger_level (logger_at s' (NamedLogger "test")) = 40 /\
  level <$> handlers (logger_at s' (NamedLogger "test")) = [40].
Proof.
  split; [discriminate|]. do 2 (split; [reflexivity|]).
  split; [discriminate|]. split; [reflexivity|].
  destruct (get_logger_keeps_configured_logger (posix {["JINA_VERBOSITY" := "DEBUG"]})
              (default_args "test")
              (get_logger (posix {["JINA_VERBOSITY" := "ERROR"]}) (default_args "test")
                 initial_logging).2
              _ DEBUG ltac:(discriminate) eq_refl eq_refl eq_refl ltac:(discriminate))
    as (_ & Hlevel & Hsinks & _).
  split; [exact Hlevel|]. exact (f_equal (fmap level) Hsinks).
Defined.

(** X23: get_logger changes the level, the propagate flag and the sinks of
    no logger registered under another name, and it registers no logger under
    another name (the host may hand such a logger to a new parent and add
    placeholders; that is all); of the root logger, when the name is not the
    root's, it changes the sinks only; and identities are never reused.  This
    holds however the call ends. *)
Theorem get_logger_leaves_other_loggers (p : process_env) (a : get_logger_args)
    (s : logging_state) (fmt_str : string) (v : LogVerbosity) :
  os_name p <> "nt" ->
  resolve_fmt_str a = Ok fmt_str ->
  resolve_verbosity p = Ok v ->
  let s' := (get_logger p a s).2 in
  (forall other, other <> arg_context a ->
     registered_settings (loggerDict s') other = registered_settings (loggerDict s) other) /\
  (names_root (arg_context a) = false ->
   logger_level (root s') = logger_level (root s) /\
   propagate (root s') = propagate (root s)) /\
  (next_id s <= next_id s')%nat.
Proof.
  intros Hos Hfmt Hv. cbv zeta.
  destruct (get_logger_spec p a s fmt_str v Hos Hfmt Hv)
    as (_ & _ & Hnext & Hroot & Hother).
  cbv zeta in *. split; [done|]. split.
  - intros Hname. rewrite Hname in Hroot. by rewrite Hroot.
  - rewrite Hnext. destruct (_ || _); lia.
Qed.

Lemma get_logger_leaves_other_loggers_witness :
  let p := posix ∅ in
  let s := (get_logger p (default_args "pea.worker") initial_logging).2 in
  let s' := (get_logger p {| arg_context := "pea"; arg_context_len := 10;
                             arg_profiling := true; arg_sse := true;
                             arg_fmt_str := None; arg_log_event := None |} s).2 in
  os_name p <> "nt" /\
  parent (logger_at s (NamedLogger "pea.worker")) = Some RootLogger /\
  parent (logger_at s' (NamedLogger "pea.worker")) = Some (NamedLogger "pea") /\
  registered_settings (loggerDict s') "pea.worker"
  = registered_settings (loggerDict s) "pea.worker" /\
  (kind <$> handlers (logger_at s' (NamedLogger "pea.worker"))) = [StreamHandler stdout] /\
  logger_level (root s') = 30.
Proof.
  split; [discriminate|]. do 2 (split; [reflexivity|]).
  destruct (get_logger_leaves_other_loggers (posix ∅)
              {| arg_context := "pea"; arg_context_len := 10;
                 arg_profiling := true; arg_sse := true;
                 arg_fmt_str := None; arg_log_event := None |}
              (get_logger (posix ∅) (default_args "pea.worker") initial_logging).2
              _ INFO ltac:(discriminate) eq_refl eq_refl) as (Hother & Hroot & _).
  split; [apply Hother; discriminate|]. split; [reflexivity|].
  exact (proj1 (Hroot eq_refl)).
Defined.

(** *** The default template *)

Lemma chars_spaces (n : nat) : chars (spaces n) = replicate n " "%char.
Proof. induction n as [|n IH]; simpl; [done|]. by rewrite <- IH. Qed.

Lemma chars_substring_0 (n : nat) (s : string) :
  chars (substring 0 n s) = take n (chars s).
Proof.
  revert s. induction n as [|n IH]; intros [|c s]; simpl; try done.
  unfold chars in *. simpl. by rewrite IH.
Qed.

Lemma chars_length (s : string) : length (chars s) = String.length s.
Proof. induction s as [|c s IH]; simpl; [done|]. unfold chars in *. simpl. by rewrite IH. Qed.

(** X24: for a width context_len >= 0 the default template is the context
    cut to its first context_len characters, padded with spaces on the left to
    exactly context_len characters, followed by the fixed tail
    @%(process)2d[...]:%(message)s. *)
Theorem default_fmt_str_width (ctx : string) (context_len : Z) :
  0 <= context_len ->
  let n := Z.to_nat context_len in
  exists prefix,
    default_fmt_str ctx context_len = Ok (prefix +:+ DEFAULT_FMT_TAIL) /\
    chars prefix = replicate (n - String.length ctx) " "%char ++ take n (chars ctx) /\
    String.length prefix = n.
Proof.
  intros Hn. cbv zeta. unfold default_fmt_str.
  destruct (Z.ltb_spec context_len 0) as [?|_]; [lia|].
  eexists. split; [reflexivity|].
  assert (Hchars : chars (rjust (Z.to_nat context_len)
                            (substring 0 (Z.to_nat context_len) ctx))
                   = replicate (Z.to_nat context_len - String.length ctx) " "%char
                     ++ take (Z.to_nat context_len) (chars ctx)).
  { unfold rjust. rewrite chars_append, chars_spaces, chars_substring_0.
    f_equal. f_equal.
    rewrite <- (chars_length (substring _ _ _)), chars_substring_0.
    rewrite length_take, chars_length. lia. }
  split; [exact Hchars|].
  rewrite <- chars_length, Hchars, length_app, length_replicate, length_take, chars_length.
  lia.
Qed.

Lemma default_fmt_str_width_witness :
  0 <= 5 /\
  exists prefix,
    default_fmt_str "ab" 5 = Ok (prefix +:+ DEFAULT_FMT_TAIL) /\
    chars prefix = [" "; " "; " "; "a"; "b"]%char /\
    String.length prefix = 5%nat.
Proof.
  split; [lia|]. exact (default_fmt_str_width "ab" 5 ltac:(lia)).
Defined.

(** *** A template the host refuses *)

(** X25: a template the host refuses (one without a %(name) conversion; only
    a template of the caller's can be) stops assembly with ValueError when a
    ColorFormatter is needed, that is, but for a profiling logger without
    log_event.  The logger is left half assembled: level set, propagate
    False, and as its only sink the queue sink when sse is set and log_event
    is not.  In that case the next call for the name, whatever its
    arguments, finds a sink and returns the logger as it is: without console
    sink. *)
Theorem get_logger_refused_template (p : process_env) (a : get_logger_args)
    (s : logging_state) (fmt_str : string) (v : LogVerbosity) :
  os_name p <> "nt" ->
  resolve_fmt_str a = Ok fmt_str ->
  resolve_verbosity p = Ok v ->
  Formatter_validate fmt_str = false ->
  arg_profiling a = false \/ arg_log_event a <> None ->
  handlers (logger_at s (logger_named (arg_context a))) = [] ->
  let s' := (get_logger p a s).2 in
  let logger := logger_named (arg_context a) in
  falsy (arg_fmt_str a) = false /\
  (get_logger p a s).1 = Raise ValueError /\
  logger_level (logger_at s' logger) = value v /\
  propagate (logger_at s' logger) = false /\
  (fun h => (kind h, formatter h)) <$> handlers (logger_at s' logger)
  = match arg_log_event a with
    | Some _ => []
    | None =>
        if arg_sse a
        then [(QueueHandler __log_queue__,
               Some (JsonFormatter ("%(asctime)s:" +:+ fmt_str)))]
        else []
    end /\
  (names_root (arg_context a) = false -> arg_log_event a = None -> arg_sse a = true ->
   forall (p' : process_env) (a' : get_logger_args) (fmt_str' : string)
          (v' : LogVerbosity),
     arg_context a' = arg_context a ->
     os_name p' <> "nt" ->
     resolve_fmt_str a' = Ok fmt_str' ->
     resolve_verbosity p' = Ok v' ->
     (get_logger p' a' s').1 = Ok (PyLogger logger) /\
     kind <$> handlers (logger_at (get_logger p' a' s').2 logger)
     = [QueueHandler __log_queue__]).
Proof.
  intros Hos Hfmt Hv Hvalid Huse Hfresh. cbv zeta.
  destruct (get_logger_assembles p a s fmt_str v Hos Hfmt Hv Hfresh)
    as (Hres & Hlevel & Hprop & Hsinks & _).
  cbv zeta in *.
  assert (Hstop : interrupted a fmt_str = true).
  { unfold interrupted. rewrite Hvalid.
    destruct (arg_log_event a); [done|]. by destruct Huse as [->|?]. }
  rewrite Hstop in Hres.
  assert (Hleft : (fun h => (kind h, formatter h))
                    <$> handlers (logger_at (get_logger p a s).2
                                    (logger_named (arg_context a)))
                  = match arg_log_event a with
                    | Some _ => []
                    | None =>
                        if arg_sse a
                        then [(QueueHandler __log_queue__,
                               Some (JsonFormatter ("%(asctime)s:" +:+ fmt_str)))]
                        else []
                    end).
  { rewrite Hsinks. unfold attached. rewrite Hstop.
    by destruct (arg_log_event a), (arg_sse a). }
  split.
  { destruct (falsy (arg_fmt_str a)) eqn:Hfalsy; [|done].
    by rewrite (resolve_fmt_str_default_valid a fmt_str Hfalsy Hfmt) in Hvalid. }
  do 4 (split; [done|]).
  intros Hname Hev Hsse p' a' fmt_str' v' Hctx Hos' Hfmt' Hv'.
  destruct (get_logger_spec p' a' (get_logger p a s).2 fmt_str' v' Hos' Hfmt' Hv')
    as (Hres' & Hset' & _).
  cbv zeta in *. unfold logger_named, settings in *.
  rewrite Hctx in *. rewrite Hname in *. cbn [orb] in *.
  rewrite Hev, Hsse in Hleft.
  assert (Hne : handlers (logger_at (get_logger p a s).2 (NamedLogger (arg_context a)))
                <> []).
  { intros Hnil. by rewrite Hnil in Hleft. }
  rewrite (bool_decide_eq_false_2 _ Hne) in Hres', Hset'. cbn [andb] in *.
  split; [done|]. injection Hset' as _ _ Hsame.
  apply (f_equal (fmap fst)) in Hleft. rewrite <- list_fmap_compose in Hleft.
  exact (eq_trans (f_equal (fmap kind) Hsame) Hleft).
Qed.

Lemma get_logger_refused_template_witness :
  let p := posix ∅ in
  let a := {| arg_context := "test"; arg_context_len := 10; arg_profiling := false;
              arg_sse := true; arg_fmt_str := Some "plain"; arg_log_event := None |} in
  let s' := (get_logger p a initial_logging).2 in
  os_name p <> "nt" /\
  Formatter_validate "plain" = false /\
  handlers (logger_at initial_logging (logger_named "test")) = [] /\
  (get_logger p a initial_logging).1 = Raise ValueError /\
  (get_logger p (default_args "test") s').1 = Ok (PyLogger (NamedLogger "test")) /\
  kind <$> handlers (logger_at (get_logger p (default_args "test") s').2
                       (NamedLogger "test"))
  = [QueueHandler __log_queue__].
Proof.
  split; [discriminate|]. do 2 (split; [reflexivity|]).
  destruct (get_logger_refused_template (posix ∅)
              {| arg_context := "test"; arg_context_len := 10; arg_profiling := false;
                 arg_sse := true; arg_fmt_str := Some "plain"; arg_log_event := None |}
              initial_logging "plain" INFO
              ltac:(discriminate) eq_refl eq_refl eq_refl (or_introl eq_refl) eq_refl)
    as (_ & Hraise & _ & _ & _ & Hnext).
  split; [exact Hraise|].
  exact (Hnext eq_refl eq_refl eq_refl (posix ∅) (default_args "test") _ INFO
           eq_refl ltac:(discriminate) eq_refl eq_refl).
Defined.

(** *** Messages made of texts and sequences *)

(** X26: of a string message made of ESC-free texts and complete escape
    sequences ESC [ params final, PlainFormatter hands the texts alone to the
    template and JsonFormatter writes the texts alone as [msg]; for
    "\u001b[31mhello\u001b[0m" both leave "hello". *)
Theorem formatters_strip_escape_sequences `{Host}
    (fmt : string) (h : store) (l : loc) (r : LogRecord) (ps : list piece) :
  records h !! l = Some r ->
  msg r = Val (PyStr (written ps)) ->
  forallb piece_ok ps = true ->
  (PlainFormatter_format fmt l h).1
  = (Formatter_format fmt (dicts h) (set_msg (Val (PyStr (visible ps))) r)).1 /\
  exists j, (JsonFormatter_format l h).1 = Ok j /\
            json_member "msg" j = Some (JString (visible ps)).
Proof.
  intros Hl Hmsg Hps. split.
  - rewrite (PlainFormatter_format_run _ _ _ _ Hl). simpl.
    rewrite Hmsg. simpl. rewrite (sub_csi_written _ Hps).
    by destruct (Formatter_format _ _ _).
  - eexists. split; [by apply JsonFormatter_format_output|].
    rewrite Hmsg. simpl. by rewrite (sub_csi_written _ Hps).
Qed.

Lemma formatters_strip_escape_sequences_witness :
  let r := example_record (Val (PyStr (String ESC "[31mhello" +:+ String ESC "[0m"))) in
  let h := example_store r [] in
  records h !! 1%positive = Some r /\
  msg r = Val (PyStr (written red_hello)) /\
  forallb piece_ok red_hello = true /\
  (PlainFormatter_format (H := example_host) "%(message)s:" 1 h).1
  = Ok "%(message)s:hello" /\
  exists j, (JsonFormatter_format (H := example_host) 1 h).1 = Ok j /\
            json_member "msg" j = Some (JString "hello").
Proof.
  split; [reflexivity|]. split; [reflexivity|]. split; [reflexivity|].
  exact (formatters_strip_escape_sequences (H := example_host) "%(message)s:"
           (example_store (example_record (Val (PyStr (written red_hello)))) [])
           1%positive (example_record (Val (PyStr (written red_hello))))
           red_hello eq_refl eq_refl eq_refl).
Defined.
